(** * snowball: the stock model, its store access layer and the web routes

    A shallow embedding of [db.py] (class [Stock], [all_stocks],
    [stock_by_code], [save_stock]) and of the routes of [app.py], with the
    part of the Python runtime they run on: dynamically typed values,
    exceptions, IEEE-754 binary64 arithmetic (the kernel's primitive floats),
    [statistics.mean], [sorted], and the document store behind [db.stocks]. *)

From Stdlib Require Import ZArith Floats Ascii String Sorted Permutation.
From stdpp Require Import base option list gmap strings fin_maps.

Set Warnings "-register-all,-inexact-float".
Local Open Scope string_scope.
Local Open Scope list_scope.
Local Open Scope Z_scope.

(** ** Exceptions and fallible computations *)

Inductive exn : Set :=
| ZeroDivisionError
| TypeError
| AssertionError
| KeyError
| IndexError
| AttributeError
| OverflowError
| ValueError
| StatisticsError
| InvalidDocument
| DuplicateKeyError
| WriteError
| OutOfModel. (* behaviour this development leaves out; never a Python exception *)

Inductive result (A : Type) : Type :=
| Ok (a : A)
| Raise (e : exn).
Arguments Ok {A} a.
Arguments Raise {A} e.

#[global] Instance exn_eq_dec : EqDecision exn.
Proof. solve_decision. Defined.

#[global] Instance result_bool_eq_dec : EqDecision (result bool).
Proof. solve_decision. Defined.

#[global] Instance result_ret : MRet result := λ A a, Ok a.
#[global] Instance result_bind : MBind result :=
  λ A B f m, match m with Ok a => f a | Raise e => Raise e end.

Fixpoint mapR {A B} (f : A → result B) (l : list A) : result (list B) :=
  match l with
  | [] => Ok []
  | x :: l' => y ← f x; ys ← mapR f l'; Ok (y :: ys)
  end.

(** A list comprehension with a fallible condition: elements are visited in
    order and the first failure ends the whole comprehension. *)
Fixpoint filterR {A} (f : A → result bool) (l : list A) : result (list A) :=
  match l with
  | [] => Ok []
  | x :: l' => c ← f x; r ← filterR f l'; Ok (if (c : bool) then x :: r else r)
  end.

(** ** Values *)

Record datetime := DateTime {
  dt_year : Z; dt_month : Z; dt_day : Z;
  dt_hour : Z; dt_minute : Z; dt_second : Z; dt_microsecond : Z }.

Inductive value :=
| VNone
| VBool (b : bool)
| VInt (z : Z)
| VFloat (f : float)
| VComplex                          (* a complex number, its value abstracted *)
| VStr (s : string)
| VDate (d : datetime)
| VOid (n : Z)                      (* a store-assigned ObjectId *)
| VList (l : list value)
| VDict (kvs : list (string * value))
| VObject (name : string)           (* any other object: a bound method, a view *)
| VTuple (l : list value)
| VFrozenset (l : list value).      (* its items, each once *)

(** A raw document, and the [data] of a [Stock] (a [UserDict]). *)
Abbreviation Stock := (gmap string value).

(** ** Numbers *)

(** The numeric tower: [bool] is a subclass of [int]. *)
Inductive num := NInt (z : Z) | NFloat (f : float) | NComplex.

Definition as_num (v : value) : option num :=
  match v with
  | VBool b => Some (NInt (Z.b2z b))
  | VInt z => Some (NInt z)
  | VFloat f => Some (NFloat f)
  | VComplex => Some NComplex
  | _ => None
  end.

(** The exact value of an int or a float: [XFin m e] is [m * 2^e]. Python
    compares an int with a float exactly, not after a conversion. *)
Inductive xnum := XNaN | XInf (neg : bool) | XFin (m e : Z).

Definition exact_float (f : float) : xnum :=
  match Prim2SF f with
  | S754_zero _ => XFin 0 0
  | S754_infinity s => XInf s
  | S754_nan => XNaN
  | S754_finite s m e => XFin (if s then Z.neg m else Z.pos m) e
  end.

Definition xcompare (a b : xnum) : option comparison :=
  match a, b with
  | XNaN, _ | _, XNaN => None
  | XInf s1, XInf s2 => Some (if s1 then (if s2 then Eq else Lt) else (if s2 then Gt else Eq))
  | XInf s, XFin _ _ => Some (if s then Lt else Gt)
  | XFin _ _, XInf s => Some (if s then Gt else Lt)
  | XFin m1 e1, XFin m2 e2 =>
      let e := Z.min e1 e2 in
      Some (Z.compare (m1 * 2 ^ (e1 - e)) (m2 * 2 ^ (e2 - e)))
  end.

(** [float(z)]: the nearest binary64, ties to even. *)
Definition float_of_Z (z : Z) : float := SF2Prim (binary_normalize prec emax z 0 false).

Definition float_of_int (z : Z) : result float :=
  let f := float_of_Z z in
  if is_infinity f then Raise OverflowError else Ok f.

(** The nearest binary64 to [n / d] for [0 <= n], [0 < d]: the quotient is
    taken with at least 56 bits and a sticky bit, then rounded once. *)
Definition round_ratio (n d : Z) : float :=
  if n =? 0 then 0%float else
  let k := 56 + Z.log2 d - Z.log2 n in
  let '(q, r) := if 0 <=? k then Z.div_eucl (n * 2 ^ k) d
                 else Z.div_eucl n (d * 2 ^ (- k)) in
  let m := 2 * q + (if r =? 0 then 0 else 1) in
  SF2Prim (binary_normalize prec emax m (- k - 1) false).

(** [a / b] on ints ([long_true_divide]): correctly rounded, whatever the
    size of the operands. *)
Definition int_true_div (a b : Z) : result value :=
  if b =? 0 then Raise ZeroDivisionError else
  let f := round_ratio (Z.abs a) (Z.abs b) in
  if is_infinity f then Raise OverflowError
  else Ok (VFloat (if xorb (a <? 0) (b <? 0) then (- f)%float else f)).

Definition float_is_integer (f : float) : bool :=
  match exact_float f with
  | XFin m e => if 0 <=? e then true else m mod 2 ^ (- e) =? 0
  | _ => false
  end.

(** [DOUBLE_IS_ODD_INTEGER] of floatobject.c. *)
Definition float_is_odd_integer (f : float) : bool :=
  match exact_float f with
  | XFin m e =>
      if 0 <? e then false
      else (m mod 2 ^ (- e) =? 0) && Z.odd (m / 2 ^ (- e))
  | _ => false
  end.

(** [int(f)]: truncation toward zero. *)
Definition float_trunc (f : float) : result value :=
  match exact_float f with
  | XNaN => Raise ValueError
  | XInf _ => Raise OverflowError
  | XFin m e => Ok (VInt (if 0 <=? e then m * 2 ^ e else Z.quot m (2 ^ (- e))))
  end.

(** ** Truth, arithmetic and comparison of values *)

(** The truth value of an object ([if v], [not v], [v or w]). The program
    never tests a complex number. *)
Definition truthy (v : value) : bool :=
  match v with
  | VNone => false
  | VBool b => b
  | VInt z => negb (z =? 0)
  | VFloat f => negb (f =? 0)%float
  | VComplex => true
  | VStr s => negb (String.eqb s "")
  | VDate _ => true
  | VOid _ => true
  | VList l => match l with [] => false | _ => true end
  | VDict kvs => match kvs with [] => false | _ => true end
  | VObject _ => true
  | VTuple l => match l with [] => false | _ => true end
  | VFrozenset l => match l with [] => false | _ => true end
  end.

(** A binary operator of the numeric tower: an int operand is converted to
    float when the other one is a float; with a complex operand the result
    is complex. *)
Definition arith (iop : Z → Z → result value) (fop : float → float → result value)
    (cop : result value) (a b : num) : result value :=
  match a, b with
  | NInt x, NInt y => iop x y
  | NInt x, NFloat y => fx ← float_of_int x; fop fx y
  | NFloat x, NInt y => fy ← float_of_int y; fop x fy
  | NFloat x, NFloat y => fop x y
  | NComplex, NInt z | NInt z, NComplex => _ ← float_of_int z; cop
  | NComplex, _ | _, NComplex => cop
  end.

Fixpoint repeat_string (n : nat) (s : string) : string :=
  match n with O => "" | S n' => String.append s (repeat_string n' s) end.

Definition as_int (v : value) : option Z :=
  match v with VBool b => Some (Z.b2z b) | VInt z => Some z | _ => None end.

Definition repeat_seq (n : Z) (v : value) : result value :=
  match v with
  | VStr s => Ok (VStr (repeat_string (Z.to_nat n) s))
  | VList l => Ok (VList (concat (replicate (Z.to_nat n) l)))
  | VTuple _ => Raise OutOfModel
  | _ => Raise TypeError
  end.

Definition py_add (a b : value) : result value :=
  match as_num a, as_num b with
  | Some x, Some y =>
      arith (λ x y, Ok (VInt (x + y))) (λ x y, Ok (VFloat (x + y)%float)) (Ok VComplex) x y
  | _, _ =>
      match a, b with
      | VStr s, VStr t => Ok (VStr (String.append s t))
      | VList l, VList k => Ok (VList (l ++ k))
      | VTuple _, VTuple _ => Raise OutOfModel
      | _, _ => Raise TypeError
      end
  end.

Definition py_sub (a b : value) : result value :=
  match as_num a, as_num b with
  | Some x, Some y =>
      arith (λ x y, Ok (VInt (x - y))) (λ x y, Ok (VFloat (x - y)%float)) (Ok VComplex) x y
  | _, _ =>
      match a, b with
      | VDate _, VDate _ => Raise OutOfModel (* a timedelta *)
      | VFrozenset _, VFrozenset _ => Raise OutOfModel (* a set difference *)
      | _, _ => Raise TypeError
      end
  end.

Definition py_mul (a b : value) : result value :=
  match as_num a, as_num b with
  | Some x, Some y =>
      arith (λ x y, Ok (VInt (x * y))) (λ x y, Ok (VFloat (x * y)%float)) (Ok VComplex) x y
  | _, _ =>
      match as_int a, as_int b with
      | Some n, _ => repeat_seq n b
      | _, Some n => repeat_seq n a
      | _, _ => Raise TypeError
      end
  end.

(** [a / b]: true division, always a float (or a complex). Dividing by an
    abstracted complex number is left out. *)
Definition py_truediv (a b : value) : result value :=
  match as_num a, as_num b with
  | Some NComplex, Some (NInt y) =>
      if y =? 0 then Raise ZeroDivisionError else _ ← float_of_int y; Ok VComplex
  | Some NComplex, Some (NFloat y) =>
      if (y =? 0)%float then Raise ZeroDivisionError else Ok VComplex
  | Some _, Some NComplex => Raise OutOfModel
  | Some x, Some y =>
      arith int_true_div
        (λ x y, if (y =? 0)%float then Raise ZeroDivisionError else Ok (VFloat (x / y)%float))
        (Raise OutOfModel) x y
  | _, _ => Raise TypeError
  end.

(** [int(v)]. Parsing a string is left out. *)
Definition py_int (v : value) : result value :=
  match v with
  | VBool b => Ok (VInt (Z.b2z b))
  | VInt z => Ok (VInt z)
  | VFloat f => float_trunc f
  | VStr _ => Raise OutOfModel
  | _ => Raise TypeError
  end.

Definition exact (n : num) : option xnum :=
  match n with
  | NInt z => Some (XFin z 0)
  | NFloat f => Some (exact_float f)
  | NComplex => None
  end.

Definition datetime_fields (d : datetime) : list Z :=
  [dt_year d; dt_month d; dt_day d; dt_hour d; dt_minute d; dt_second d; dt_microsecond d].

Fixpoint lex_compare (a b : list Z) : comparison :=
  match a, b with
  | [], [] => Eq
  | [], _ => Lt
  | _, [] => Gt
  | x :: a', y :: b' => match Z.compare x y with Eq => lex_compare a' b' | c => c end
  end.

(** The three-way outcome behind [<], [<=], [>], [>=]: [None] when a NaN is
    involved (every ordering test is then false). Numbers compare by exact
    value, strings by code point (bytewise on UTF-8), naive datetimes field
    by field, ObjectIds by their bytes; two empty tuples are equal, and so
    are two empty frozensets, neither a proper subset of the other; other
    pairs are unorderable. The lexicographic order of lists and of tuples
    with items, and the inclusion of frozensets with items, are left out. *)
Definition order_cmp (a b : value) : result (option comparison) :=
  match a, b with
  | VStr s, VStr t => Ok (Some (String.compare s t))
  | VDate d, VDate e => Ok (Some (lex_compare (datetime_fields d) (datetime_fields e)))
  | VOid m, VOid n => Ok (Some (Z.compare m n))
  | VList _, VList _ => Raise OutOfModel
  | VTuple [], VTuple [] => Ok (Some Eq)
  | VTuple _, VTuple _ => Raise OutOfModel
  | VFrozenset [], VFrozenset [] => Ok (Some Eq)
  | VFrozenset _, VFrozenset _ => Raise OutOfModel
  | _, _ =>
      match as_num a, as_num b with
      | Some x, Some y =>
          match exact x, exact y with
          | Some u, Some v => Ok (xcompare u v)
          | _, _ => Raise TypeError
          end
      | _, _ => Raise TypeError
      end
  end.

Definition cmp_is (ok : comparison → bool) (c : option comparison) : bool :=
  match c with Some c => ok c | None => false end.

Definition py_lt (a b : value) : result bool :=
  c ← order_cmp a b; Ok (cmp_is (λ c, match c with Lt => true | _ => false end) c).
Definition py_gt (a b : value) : result bool :=
  c ← order_cmp a b; Ok (cmp_is (λ c, match c with Gt => true | _ => false end) c).
Definition py_le (a b : value) : result bool :=
  c ← order_cmp a b; Ok (cmp_is (λ c, match c with Gt => false | _ => true end) c).
Definition py_ge (a b : value) : result bool :=
  c ← order_cmp a b; Ok (cmp_is (λ c, match c with Lt => false | _ => true end) c).

(** [a == b]. It never raises; objects of different kinds are unequal.
    Equality of two lists, of two dicts, of two tuples, of two frozensets
    and with a complex number is left out. *)
Definition py_eq (a b : value) : result bool :=
  match a, b with
  | VNone, VNone => Ok true
  | VStr s, VStr t => Ok (String.eqb s t)
  | VDate d, VDate e =>
      Ok (match lex_compare (datetime_fields d) (datetime_fields e) with Eq => true | _ => false end)
  | VOid m, VOid n => Ok (m =? n)
  | VObject m, VObject n => Ok (String.eqb m n)
  | VList _, VList _ | VDict _, VDict _ => Raise OutOfModel
  | VTuple _, VTuple _ | VFrozenset _, VFrozenset _ => Raise OutOfModel
  | _, _ =>
      match as_num a, as_num b with
      | Some x, Some y =>
          match exact x, exact y with
          | Some u, Some v =>
              Ok (cmp_is (λ c, match c with Eq => true | _ => false end) (xcompare u v))
          | _, _ => Raise OutOfModel
          end
      | _, _ => Ok false
      end
  end.

(** ** [statistics.mean]

    The data are summed exactly as fractions and the mean is converted once:
    to an int when all data are ints and the mean is whole, else to the
    nearest float. Infinite and NaN data are left out. *)
Definition mean_term (v : value) : result (Z * Z * bool) :=
  match as_num v with
  | Some (NInt z) => Ok (z, 0, false)
  | Some (NFloat f) =>
      match exact_float f with
      | XFin m e => Ok (m, e, true)
      | _ => Raise OutOfModel
      end
  | _ => Raise TypeError
  end.

Definition signed_ratio (n d : Z) : result value :=
  let f := round_ratio (Z.abs n) d in
  if is_infinity f then Raise OverflowError
  else Ok (VFloat (if n <? 0 then (- f)%float else f)).

Definition mean (data : list value) : result value :=
  match data with
  | [] => Raise StatisticsError
  | _ =>
      terms ← mapR mean_term data;
      let emin := foldr (λ t acc, Z.min (snd (fst t)) acc) 0 terms in
      let total := foldr (λ t acc, fst (fst t) * 2 ^ (snd (fst t) - emin) + acc) 0 terms in
      let n := Z.of_nat (length data) in
      if existsb snd terms then signed_ratio total (2 ^ (- emin) * n)
      else if total mod n =? 0 then Ok (VInt (total / n))
      else signed_ratio total n
  end.

(** ** The platform

    What the program takes from its surroundings: the year read from the
    clock when the module is imported, the C library's [pow], and the part of
    the attribute namespace of a [Stock] that is left abstract here. *)
Class Platform := {
  (** [LAST_YEAR = datetime.now().year - 1] *)
  LAST_YEAR : Z;
  (** [pow] of libm, called by [float.__pow__] once the special cases are
      sorted out: on finite arguments, the base positive and not 1, the
      exponent not 0. *)
  libm_pow : float → float → float;
  (** The properties of [Stock] that are not embedded below, by name. *)
  other_property : string → Stock → result value;
  (** The attributes a [Stock] inherits from [UserDict] and its bases
      ([data], [get], [keys], ...): [None] when they define no such name. *)
  inherited_attr : string → Stock → option value;
}.

Section Runtime.
Context {P : Platform}.

(** [float.__pow__] (float_pow of floatobject.c). *)
Definition float_pow (iv iw : float) : result value :=
  if (iw =? 0)%float then Ok (VFloat 1) else
  if is_nan iv then Ok (VFloat iv) else
  if is_nan iw then Ok (VFloat (if (iv =? 1)%float then 1%float else iw)) else
  if is_infinity iw then
    let av := abs iv in
    if (av =? 1)%float then Ok (VFloat 1)
    else if Bool.eqb (0 <? iw)%float (1 <? av)%float then Ok (VFloat (abs iw))
    else Ok (VFloat 0)
  else if is_infinity iv then
    let odd := float_is_odd_integer iw in
    if (0 <? iw)%float then Ok (VFloat (if odd then iv else abs iv))
    else Ok (VFloat (if odd && get_sign iv then neg_zero else 0%float))
  else if (iv =? 0)%float then
    if (iw <? 0)%float then Raise ZeroDivisionError
    else Ok (VFloat (if float_is_odd_integer iw then iv else 0%float))
  else if (iv <? 0)%float && negb (float_is_integer iw) then
    (* a negative number raised to a fractional power becomes complex *)
    Ok VComplex
  else
    let negate_result := (iv <? 0)%float && float_is_odd_integer iw in
    let iv := abs iv in
    if (iv =? 1)%float then Ok (VFloat (if negate_result then (- 1)%float else 1%float))
    else
      let ix := libm_pow iv iw in
      if is_infinity ix then Raise OverflowError
      else Ok (VFloat (if negate_result then (- ix)%float else ix)).

(** [a ** b]. With two ints and a negative exponent, and whenever a float is
    involved, the operands go through [float.__pow__]. *)
Definition py_pow (a b : value) : result value :=
  match as_num a, as_num b with
  | Some (NInt x), Some (NInt y) =>
      if 0 <=? y then Ok (VInt (x ^ y))
      else fx ← float_of_int x; fy ← float_of_int y; float_pow fx fy
  | Some NComplex, Some _ | Some _, Some NComplex => Raise OutOfModel
  | Some x, Some y => arith (λ _ _, Raise OutOfModel) float_pow (Raise OutOfModel) x y
  | _, _ => Raise TypeError
  end.

End Runtime.

(** ** Sequences *)

Definition enumerate {A} (l : list A) : list (Z * A) :=
  imap (λ i x, (Z.of_nat i, x)) l.

Fixpoint somes {A} (l : list (option A)) : list A :=
  match l with
  | [] => []
  | Some x :: l' => x :: somes l'
  | None :: l' => somes l'
  end.

(** The items a [for] loop visits. Iterating a string (its characters), a
    dict (its keys), a tuple or a frozenset is left out. *)
Definition py_iter (v : value) : result (list value) :=
  match v with
  | VList l => Ok l
  | VStr _ | VDict _ | VTuple _ | VFrozenset _ => Raise OutOfModel
  | _ => Raise TypeError
  end.

(** Code points of a UTF-8 string: the bytes that are not continuation
    bytes. *)
Definition is_continuation (c : ascii) : bool :=
  let n := Z.of_N (N_of_ascii c) in (128 <=? n) && (n <? 192).

Definition py_len (v : value) : result Z :=
  match v with
  | VStr s => Ok (Z.of_nat (length (filter (λ c, negb (is_continuation c)) (list_ascii_of_string s))))
  | VList l => Ok (Z.of_nat (length l))
  | VDict kvs => Ok (Z.of_nat (length kvs))
  | VTuple _ | VFrozenset _ => Raise OutOfModel
  | _ => Raise TypeError
  end.

(** ** db.py: the model class [Stock] *)

Definition DIVIDEND_TAX_RATE : float := 15.40%float.
Definition FUTURE : Z := 10.
Definition TARGET_RATE : Z := 15.

(** [self.get(k, d)] and [self[k]] *)
Definition get (s : Stock) (k : string) (d : value) : value :=
  match s !! k with Some v => v | None => d end.

Definition getitem (s : Stock) (k : string) : result value :=
  match s !! k with Some v => Ok v | None => Raise KeyError end.

Definition object_id (s : Stock) : result value := getitem s "_id".

Definition current_price (s : Stock) : value := get s "current_price" (VInt 0).

Definition countable_roes (s : Stock) : result value :=
  roes ← py_iter (get s "ROEs" (VList []));
  Ok (VList (filter (λ roe, truthy roe = true) roes)).

Definition has_note (s : Stock) : result value :=
  n ← py_len (get s "note" (VStr ""));
  Ok (VBool (0 <? n)).

Definition mean_per (s : Stock) : result value :=
  let PERs := get s "PERs" (VList []) in
  n ← py_len PERs;
  if 2 <? n then data ← py_iter PERs; mean data else Ok (VInt 0).

Definition dividend_tax_adjust (s : Stock) : result value :=
  py_mul (get s "dividend_rate" (VInt 0)) (VFloat (DIVIDEND_TAX_RATE / 100)%float).

Section StockModel.
Context {P : Platform}.

Definition year_stat (s : Stock) (stat : string) (exclude_future : bool)
    : result (list (value * value)) :=
  let stats := get s stat VNone in
  if negb (truthy stats) then Ok [(VInt 0, VInt 0)] else
  let last_year_index := get s "last_year_index" VNone in
  match last_year_index with
  | VNone => Raise AssertionError
  | _ =>
      let year := λ idx : Z,
        d ← py_sub last_year_index (VInt idx); py_sub (VInt LAST_YEAR) d in
      items ← py_iter stats;
      rows ← mapR (λ iv : Z * value,
                let '(idx, value) := iv in
                keep ← (if negb exclude_future then Ok true
                        else y ← year idx; py_le y (VInt LAST_YEAR));
                if (keep : bool) then y ← year idx; Ok (Some (y, value)) else Ok None)
              (enumerate items);
      Ok (somes rows)
  end.

Definition last_four_years_roe (s : Stock) : result (list value) :=
  roes ← year_stat s "ROEs" false;
  rows ← filterR (λ roe : value * value,
            if negb (truthy roe.2) then Ok false else
            c ← py_ge roe.1 (VInt (LAST_YEAR - 3));
            if negb c then Ok false else py_le roe.1 (VInt LAST_YEAR)) roes;
  Ok (map snd rows).

Definition calculated_roe_count (s : Stock) : result value :=
  l ← last_four_years_roe s; Ok (VInt (Z.of_nat (length l))).

Definition mean_roe (s : Stock) : result value :=
  c ← last_four_years_roe s;
  if truthy (VList c) then data ← last_four_years_roe s; mean data else Ok (VInt 0).

Definition future_roe (s : Stock) : result value :=
  a ← mean_roe s; b ← dividend_tax_adjust s; py_sub a b.

Definition calculable (s : Stock) : result bool :=
  c ← py_gt (get s "bps" (VInt 0)) (VInt 0);
  if negb c then Ok false else
  let adjusted_future_roe := get s "adjusted_future_roe" (VInt 0) in
  r ← (if truthy adjusted_future_roe then Ok adjusted_future_roe else future_roe s);
  py_gt r (VInt 0).

Definition calc_future_bps (s : Stock) (future : value) : result value :=
  c ← calculable s;
  if negb c then Ok (VInt 0) else
  let bps := get s "bps" (VInt 0) in
  let adjusted_future_roe := get s "adjusted_future_roe" (VInt 0) in
  future_roe ← (if truthy adjusted_future_roe then Ok adjusted_future_roe else future_roe s);
  t ← py_mul (VInt 1) future_roe;
  t ← py_truediv t (VInt 100);
  t ← py_add (VInt 1) t;
  t ← py_pow t future;
  t ← py_mul bps t;
  py_int t.

(** [price=None] is the default of the keyword argument. *)
Definition calc_expected_rate (s : Stock) (calc_bps : value → result value)
    (future : value) (price : value) : result value :=
  let price := if negb (truthy price) then current_price s else price in
  b ← calc_bps future;
  q ← py_truediv b price;
  e ← py_truediv (VFloat 1) future;
  r ← py_pow q e;
  r ← py_sub r (VInt 1);
  py_mul r (VInt 100).

Definition expected_rate (s : Stock) : result value :=
  calc_expected_rate s (calc_future_bps s) (VInt FUTURE) VNone.

Definition invest_price (s : Stock) : result value :=
  future_bps ← calc_future_bps s (VInt FUTURE);
  t ← py_mul (VInt 1) (VInt TARGET_RATE);
  t ← py_truediv t (VInt 100);
  t ← py_add (VInt 1) t;
  t ← py_pow t (VInt FUTURE);
  q ← py_truediv future_bps t;
  py_int q.

Definition future_bps (s : Stock) : result value := calc_future_bps s (VInt FUTURE).

Definition expected_rate_by_price (s : Stock) (price : value) : result value :=
  calc_expected_rate s (calc_future_bps s) (VInt FUTURE) price.

End StockModel.

(** *** The other properties and methods of [Stock] *)

(** [try: body except e: handler] *)
Definition try_except {A} (body : result A) (e : exn) (handler : result A) : result A :=
  match body with
  | Raise e' => if bool_decide (e' = e) then handler else Raise e'
  | r => r
  end.

(** The exception a computation ends with, if any. *)
Definition raised {A} (r : result A) : option exn :=
  match r with Raise e => Some e | Ok _ => None end.

Definition is_ok {A} (r : result A) : bool :=
  match r with Ok _ => true | Raise _ => false end.

(** [min(l)] and [max(l)] of a list: the first item is the candidate, and a
    later item replaces it when it compares smaller ([<]), respectively
    greater ([>]), than the candidate. *)
Fixpoint extremum (better : value → value → result bool) (best : value) (l : list value)
    : result value :=
  match l with
  | [] => Ok best
  | x :: l' => c ← better x best; extremum better (if (c : bool) then x else best) l'
  end.

Definition py_min (l : list value) : result value :=
  match l with [] => Raise ValueError | x :: l' => extremum py_lt x l' end.

Definition py_max (l : list value) : result value :=
  match l with [] => Raise ValueError | x :: l' => extremum py_gt x l' end.

(** [a != b] *)
Definition py_ne (a b : value) : result bool := c ← py_eq a b; Ok (negb c).

(** [l[i]] on a list, a negative [i] counting from the end. *)
Definition item (l : list value) (i : Z) : result value :=
  let n := Z.of_nat (length l) in
  let j := if i <? 0 then n + i else i in
  if (0 <=? j) && (j <? n)
  then match l !! Z.to_nat j with Some v => Ok v | None => Raise IndexError end
  else Raise IndexError.

(** [v[:-1]] and [v[1:]]. Slices of a string, of a dict and of a tuple are
    left out. *)
Definition slice_but_last (v : value) : result (list value) :=
  match v with
  | VList l => Ok (removelast l)
  | VStr _ | VDict _ | VTuple _ => Raise OutOfModel
  | _ => Raise TypeError
  end.

Definition slice_from_1 (v : value) : result (list value) :=
  match v with
  | VList l => Ok (tail l)
  | VStr _ | VDict _ | VTuple _ => Raise OutOfModel
  | _ => Raise TypeError
  end.

(** [len(set(l)) <= 1]: a list or a dict among the items, or within a tuple
    among them, cannot be hashed; two items count once when they are equal,
    so two NaNs count twice. *)
Fixpoint hashable (v : value) : bool :=
  match v with
  | VList _ | VDict _ => false
  | VTuple l => forallb hashable l
  | _ => true
  end.

Definition at_most_one_distinct (l : list value) : result bool :=
  if negb (forallb hashable l) then Raise TypeError else
  match l with
  | [] => Ok true
  | x :: l' => same ← mapR (py_eq x) l'; Ok (forallb (λ b : bool, b) same)
  end.

Record FScore := MkFScore { total_issued_stock : Z; profitable : Z; cfo : Z }.

Definition price_arrow (s : Stock) : result value :=
  z ← py_eq (get s "price_diff" VNone) (VInt 0);
  if (z : bool) then Ok (VStr "")
  else c ← py_gt (get s "price_diff" VNone) (VInt 0);
       Ok (VStr (if (c : bool) then "▲" else "▼")).

Definition price_color (s : Stock) : result value :=
  z ← py_eq (get s "price_diff" VNone) (VInt 0);
  if (z : bool) then Ok (VStr "black")
  else c ← py_gt (get s "price_diff" VNone) (VInt 0);
       Ok (VStr (if (c : bool) then "red" else "blue")).

Definition price_sign (s : Stock) : result value :=
  c ← py_gt (get s "price_diff" VNone) (VInt 0);
  Ok (VStr (if (c : bool) then "+" else "")).

(** [for i in range(1, 11)] of [ten_year_prices]: [range] is what is left of
    the range, [prices] the list built so far. *)
Fixpoint ten_year_loop (range : list Z) (price : value) (prices : list (Z * value))
    : result (list (Z * value)) :=
  match range with
  | [] => Ok prices
  | i :: range' =>
      g ← py_mul price (VFloat 0.15);
      price ← py_add price g;
      ten_year_loop range' price (prices ++ [(i, price)])
  end.

Definition ten_year_prices (s : Stock) : result (list (Z * value)) :=
  let price := get s "my_price" (VInt 0) in
  if negb (truthy price) then Ok [] else
  ten_year_loop (seqZ 1 10) price [].

Section StockModelMore.
Context {P : Platform}.

Definition roes (s : Stock) : result (list (value * value)) := year_stat s "ROEs" false.
Definition pbrs (s : Stock) : result (list (value * value)) := year_stat s "PBRs" false.
Definition pers (s : Stock) : result (list (value * value)) := year_stat s "PERs" false.
Definition epss (s : Stock) : result (list (value * value)) := year_stat s "EPSs" false.

Definition low_pbr (s : Stock) : result value :=
  try_except
    (rows ← year_stat s "PBRs" true;
     rows ← filterR (λ year_pbr : value * value, py_gt year_pbr.2 (VInt 0)) rows;
     py_min (map snd rows))
    ValueError (Ok (VInt 0)).

Definition high_pbr (s : Stock) : result value :=
  try_except
    (rows ← year_stat s "PBRs" true;
     rows ← filterR (λ year_pbr : value * value, py_gt year_pbr.2 (VInt 0)) rows;
     py_max (map snd rows))
    ValueError (Ok (VInt 0)).

Definition mid_pbr (s : Stock) : result value :=
  l ← low_pbr s;
  t ← py_add l (get s "pbr" VNone);
  py_truediv t (VInt 2).

Definition adjusted_eps (s : Stock) : result value :=
  rows ← year_stat s "EPSs" true;
  let past_eps := map snd rows in
  if Z.of_nat (length past_eps) <? 3 then Ok (VInt 0) else
  e1 ← item past_eps (-1);
  t1 ← py_mul e1 (VInt 3);
  e2 ← item past_eps (-2);
  t2 ← py_mul e2 (VInt 2);
  t ← py_add t1 t2;
  e3 ← item past_eps (-3);
  t ← py_add t e3;
  q ← py_truediv t (VInt 6);
  py_int q.

Definition mid_roe (s : Stock) : result value :=
  ROEs ← countable_roes s;
  n ← py_len ROEs;
  if 2 <? n
  then l ← py_iter ROEs; m ← mean l; lo ← py_min l; mean [m; lo]
  else Ok (VInt 0).

Definition eps_growth (s : Stock) : result value :=
  let EPSs := get s "EPSs" (VList [VInt 0; VInt 0]) in
  try_except
    (xs ← slice_but_last EPSs;
     ys ← slice_from_1 EPSs;
     terms ← mapR (λ xy : value * value, q ← py_truediv xy.2 xy.1; py_sub q (VInt 1))
                (zip xs ys);
     m ← mean terms;
     py_mul m (VInt 100))
    ZeroDivisionError (Ok (VInt 0)).

Definition fscore (s : Stock) (year : value) : result FScore :=
  let TIs := get s "TIs" (VList []) in
  n ← py_len TIs;
  total_issued_stock ←
    (if 2 <? n
     then items ← py_iter TIs; one ← at_most_one_distinct items;
          Ok (if (one : bool) then 1 else 0)
     else Ok 0);
  NPs ← year_stat s "NPs" false;
  year_profit ← filterR (λ p : value * value, py_eq p.1 year) NPs;
  profitable ←
    match map snd year_profit with
    | [] => Ok 0
    | first :: _ => c ← py_gt first (VInt 0); Ok (if (c : bool) then 1 else 0)
    end;
  CFOs ← year_stat s "CFOs" false;
  year_cfo ← filterR (λ c : value * value, py_eq c.1 year) CFOs;
  cfo ←
    match map snd year_cfo with
    | [] => Ok 0
    | first :: _ => c ← py_gt first (VInt 0); Ok (if (c : bool) then 1 else 0)
    end;
  Ok (MkFScore total_issued_stock profitable cfo).

Definition fscores (s : Stock) : result (list (value * FScore)) :=
  NPs ← year_stat s "NPs" false;
  mapR (λ np : value * value, f ← fscore s np.1; Ok (np.1, f)) NPs.

Definition latest_fscore (s : Stock) : result value :=
  l ← fscores s;
  match last l with
  | Some (_, f) => Ok (VInt (0 + (total_issued_stock f + profitable f + cfo f)))
  | None => Raise IndexError
  end.

Definition calculable_pbr_count (s : Stock) : result value :=
  rows ← year_stat s "PBRs" true;
  rows ← filterR (λ pbr : value * value, py_gt pbr.2 (VInt 0)) rows;
  Ok (VInt (Z.of_nat (length rows))).

Definition intrinsic_value (s : Stock) : result value :=
  e ← adjusted_eps s;
  t ← py_mul e (VInt 10);
  t ← py_add (get s "bps" (VInt 0)) t;
  q ← py_truediv t (VInt 2);
  py_int q.

Definition intrinsic_discount_rate (s : Stock) : result value :=
  v ← intrinsic_value s;
  e ← py_truediv (VFloat 1) (VInt 1);
  p ← py_pow (current_price s) e;
  q ← py_truediv v p;
  r ← py_sub q (VInt 1);
  py_mul r (VInt 100).

Definition peg_current_per (s : Stock) : result value :=
  g ← eps_growth s;
  c ← py_ne g (VInt 0);
  if (c : bool) then g ← eps_growth s; py_truediv (get s "per" (VInt 0)) g
  else Ok (VInt 0).

Definition peg_mean_per (s : Stock) : result value :=
  g ← eps_growth s;
  c ← py_ne g (VInt 0);
  if (c : bool) then m ← mean_per s; g ← eps_growth s; py_truediv m g
  else Ok (VInt 0).

Definition roe_max_diff (s : Stock) : result value :=
  ROEs ← countable_roes s;
  n ← py_len ROEs;
  if 2 <? n
  then l ← py_iter ROEs; hi ← py_max l; lo ← py_min l; py_sub hi lo
  else Ok (VInt 0).

Definition calc_future_price_low_pbr (s : Stock) (future : value) : result value :=
  b ← calc_future_bps s future; p ← low_pbr s; t ← py_mul b p; py_int t.

Definition calc_future_price_high_pbr (s : Stock) (future : value) : result value :=
  b ← calc_future_bps s future; p ← high_pbr s; t ← py_mul b p; py_int t.

Definition calc_future_price_current_pbr (s : Stock) (future : value) : result value :=
  b ← calc_future_bps s future; p ← getitem s "pbr"; t ← py_mul b p; py_int t.

Definition calc_future_price_low_current_mid_pbr (s : Stock) (future : value)
    : result value :=
  b ← calc_future_bps s future; p ← mid_pbr s; t ← py_mul b p; py_int t.

Definition calc_future_price_adjusted_future_pbr (s : Stock) (future : value)
    : result value :=
  b ← calc_future_bps s future;
  t ← py_mul b (get s "adjusted_future_pbr" (VInt 0));
  py_int t.

Definition expected_rate_by_current_pbr (s : Stock) : result value :=
  calc_expected_rate s (calc_future_price_current_pbr s) (VInt FUTURE) VNone.

Definition expected_rate_by_low_pbr (s : Stock) : result value :=
  calc_expected_rate s (calc_future_price_low_pbr s) (VInt FUTURE) VNone.

Definition expected_rate_by_mid_pbr (s : Stock) : result value :=
  calc_expected_rate s (calc_future_price_low_current_mid_pbr s) (VInt FUTURE) VNone.

Definition expected_rate_by_adjusted_future_pbr (s : Stock) : result value :=
  calc_expected_rate s (calc_future_price_adjusted_future_pbr s) (VInt FUTURE) VNone.

End StockModelMore.

Section Attributes.
Context {P : Platform}.

(** *** Attribute lookup on a [Stock] *)

(** The pairs of a yearly series, and the pairs of [fscores] (an [FScore]
    is a named tuple), as values. *)
Definition year_pairs (rows : list (value * value)) : value :=
  VList (map (λ row : value * value, VTuple [row.1; row.2]) rows).

Definition fscore_pairs (rows : list (value * FScore)) : value :=
  VList (map (λ row : value * FScore,
            VTuple [row.1; VTuple [VInt (total_issued_stock row.2);
                                   VInt (profitable row.2); VInt (cfo row.2)]]) rows).

(** The properties embedded above, by name. *)
Definition stock_properties : list (string * (Stock → result value)) :=
  [ ("object_id", object_id);
    ("current_price", λ s, Ok (current_price s));
    ("price_arrow", price_arrow);
    ("price_color", price_color);
    ("price_sign", price_sign);
    ("roes", λ s, rows ← roes s; Ok (year_pairs rows));
    ("pbrs", λ s, rows ← pbrs s; Ok (year_pairs rows));
    ("pers", λ s, rows ← pers s; Ok (year_pairs rows));
    ("epss", λ s, rows ← epss s; Ok (year_pairs rows));
    ("countable_roes", countable_roes);
    ("low_pbr", low_pbr);
    ("high_pbr", high_pbr);
    ("mid_pbr", mid_pbr);
    ("adjusted_eps", adjusted_eps);
    ("mid_roe", mid_roe);
    ("eps_growth", eps_growth);
    ("has_note", has_note);
    ("latest_fscore", latest_fscore);
    ("fscores", λ s, rows ← fscores s; Ok (fscore_pairs rows));
    ("mean_per", mean_per);
    ("dividend_tax_adjust", dividend_tax_adjust);
    ("last_four_years_roe", λ s, l ← last_four_years_roe s; Ok (VList l));
    ("calculated_roe_count", calculated_roe_count);
    ("calculable_pbr_count", calculable_pbr_count);
    ("mean_roe", mean_roe);
    ("future_roe", future_roe);
    ("expected_rate", expected_rate);
    ("invest_price", invest_price);
    ("expected_rate_by_current_pbr", expected_rate_by_current_pbr);
    ("expected_rate_by_low_pbr", expected_rate_by_low_pbr);
    ("expected_rate_by_mid_pbr", expected_rate_by_mid_pbr);
    ("expected_rate_by_adjusted_future_pbr", expected_rate_by_adjusted_future_pbr);
    ("intrinsic_value", intrinsic_value);
    ("intrinsic_discount_rate", intrinsic_discount_rate);
    ("peg_current_per", peg_current_per);
    ("peg_mean_per", peg_mean_per);
    ("roe_max_diff", roe_max_diff);
    ("calculable", λ s, c ← calculable s; Ok (VBool c));
    ("future_bps", future_bps) ].

(** The two properties of the class that are not embedded, answered by
    [other_property]. *)
Definition stock_abstract_properties : list string :=
  [ "financial_statements_url"; "QROEs" ].

(** The methods the class defines: looking one up yields a bound method. *)
Definition stock_methods : list string :=
  [ "__hash__"; "expected_rate_by_price"; "calc_future_bps";
    "calc_future_price_low_pbr"; "calc_future_price_high_pbr";
    "calc_future_price_current_pbr"; "calc_future_price_low_current_mid_pbr";
    "calc_future_price_adjusted_future_pbr"; "calc_expected_rate";
    "ten_year_prices"; "fscore"; "year_stat"; "save_record"; "__str__" ].

Fixpoint assoc {A} (k : string) (l : list (string * A)) : option A :=
  match l with
  | [] => None
  | (k', v) :: l' => if String.eqb k k' then Some v else assoc k l'
  end.

Definition mem (k : string) (l : list string) : bool := existsb (String.eqb k) l.

(** [getattr(obj, name)] on a [Stock]: the class's own attributes first,
    then what it inherits; [AttributeError] when nobody defines [name]. *)
Definition getattr (obj : Stock) (name : string) : result value :=
  match assoc name stock_properties with
  | Some property => property obj
  | None =>
      if mem name stock_abstract_properties then other_property name obj
      else if mem name stock_methods then Ok (VObject name)
      else match inherited_attr name obj with
           | Some v => Ok v
           | None => Raise AttributeError
           end
  end.

End Attributes.

(** ** The document store behind [db.stocks]

    The collection is the list of its documents in natural order. A query
    is an equality on one field or a [$or] of queries. *)

Inductive query :=
| QEq (k : string) (v : value)
| QOr (qs : list query).

Record store := Store { docs : list Stock; next_oid : Z }.

(** Equality of stored values as the store's queries see it: numbers by
    value across int and double, everything else within its own type. *)
Fixpoint bson_eqb (a b : value) : bool :=
  match a, b with
  | VNone, VNone => true
  | VBool x, VBool y => Bool.eqb x y
  | VInt x, VInt y => x =? y
  | VInt x, VFloat f | VFloat f, VInt x =>
      match xcompare (XFin x 0) (exact_float f) with Some Eq => true | _ => false end
  | VFloat f, VFloat g => (f =? g)%float
  | VStr s, VStr t => String.eqb s t
  | VDate d, VDate e =>
      match lex_compare (datetime_fields d) (datetime_fields e) with Eq => true | _ => false end
  | VOid m, VOid n => m =? n
  | VList l, VList k =>
      (fix go (l k : list value) : bool :=
         match l, k with
         | [], [] => true
         | x :: l', y :: k' => bson_eqb x y && go l' k'
         | _, _ => false
         end) l k
  | VDict l, VDict k =>
      (fix go (l k : list (string * value)) : bool :=
         match l, k with
         | [], [] => true
         | (kx, x) :: l', (ky, y) :: k' => String.eqb kx ky && bson_eqb x y && go l' k'
         | _, _ => false
         end) l k
  | _, _ => false
  end.

(** [{k: q}] on a document: the field equals [q], or is an array with an
    element equal to [q]; [None] also matches a missing field. *)
Definition field_matches (q : value) (field : option value) : bool :=
  match field with
  | None => match q with VNone => true | _ => false end
  | Some (VList l) => bson_eqb (VList l) q || existsb (λ x, bson_eqb x q) l
  | Some v => bson_eqb v q
  end.

Fixpoint matches (q : query) (d : Stock) : bool :=
  match q with
  | QEq k v => field_matches v (d !! k)
  | QOr qs =>
      (fix any (qs : list query) : bool :=
         match qs with [] => false | q :: qs' => matches q d || any qs' end) qs
  end.

Definition find (st : store) (q : option query) : list Stock :=
  match q with
  | Some q => filter (λ d, matches q d = true) (docs st)
  | None => docs st
  end.

Fixpoint first_match (f : Stock → bool) (l : list Stock) : option Stock :=
  match l with
  | [] => None
  | d :: l' => if f d then Some d else first_match f l'
  end.

Definition find_one (st : store) (q : query) : option Stock :=
  first_match (matches q) (docs st).

Fixpoint update_first (f : Stock → bool) (g : Stock → Stock) (l : list Stock) : list Stock :=
  match l with
  | [] => []
  | d :: l' => if f d then g d :: l' else d :: update_first f g l'
  end.

(** What the encoder accepts. Field names with a dot or a leading dollar
    (paths and operators to the store), ints beyond 64 bits and tuples are
    left out. *)
Definition plain_key (k : string) : bool :=
  match k with
  | EmptyString => true
  | String c _ =>
      negb (Ascii.eqb c "$") && forallb (λ c, negb (Ascii.eqb c ".")) (list_ascii_of_string k)
  end.

Fixpoint in_model (v : value) : bool :=
  match v with
  | VInt z => (- 2 ^ 63 <=? z) && (z <? 2 ^ 63)
  | VTuple _ => false
  | VList l => forallb in_model l
  | VDict kvs =>
      (fix all (kvs : list (string * value)) : bool :=
         match kvs with [] => true | (k, x) :: kvs' => plain_key k && in_model x && all kvs' end) kvs
  | _ => true
  end.

Fixpoint encodable (v : value) : bool :=
  match v with
  | VComplex | VObject _ | VFrozenset _ => false
  | VList l => forallb encodable l
  | VDict kvs =>
      (fix all (kvs : list (string * value)) : bool :=
         match kvs with [] => true | (_, x) :: kvs' => encodable x && all kvs' end) kvs
  | _ => true
  end.

Definition check_document (d : Stock) : result unit :=
  let kvs := map_to_list d in
  if negb (forallb (λ kv, plain_key kv.1 && in_model kv.2) kvs) then Raise OutOfModel
  else if negb (forallb (λ kv, encodable kv.2) kvs) then Raise InvalidDocument
  else Ok ().

(** [insert_one(doc)]: the store assigns an [_id] when the document has
    none, and refuses an [_id] it already holds. *)
Definition insert_one (st : store) (doc : Stock) : result store :=
  _ ← check_document doc;
  match doc !! "_id" with
  | Some i =>
      if existsb (λ d, match d !! "_id" with Some j => bson_eqb j i | None => false end) (docs st)
      then Raise DuplicateKeyError
      else Ok (Store (docs st ++ [doc]) (next_oid st))
  | None =>
      Ok (Store (docs st ++ [<["_id" := VOid (next_oid st)]> doc]) (next_oid st + 1))
  end.

(** [update_one(q, {'$set': fields})]: the first document matching [q]
    takes the given fields and keeps its others; nothing is written when no
    document matches. The [_id] of a document cannot change. *)
Definition update_one (st : store) (q : query) (fields : Stock) : result store :=
  _ ← check_document fields;
  match find_one st q with
  | None => Ok st
  | Some d =>
      match fields !! "_id", d !! "_id" with
      | Some i, Some j => 
          if bson_eqb j i
          then Ok (Store (update_first (matches q) (λ d, fields ∪ d) (docs st)) (next_oid st))
          else Raise WriteError
      | _, _ => Ok (Store (update_first (matches q) (λ d, fields ∪ d) (docs st)) (next_oid st))
      end
  end.

(** ** db.py: the access functions *)

(** [Stock(None)] is an empty [Stock]: [UserDict.__init__] takes [None] as
    no initial data. *)
Definition stock_by_code (st : store) (code : value) : Stock :=
  match find_one st (QEq "code" code) with
  | Some d => d
  | None => ∅
  end.

(** What [save_stock] is handed: a plain [dict], as [save_record] builds
    one, or a [Stock], as the routes load one. *)
Inductive mapping_kind := PlainDict | StockInstance.

(** [Stock.__str__], ['{} : {}'.format(self['title'], self['code'])]: the
    two items are read in turn, and formatting them does not fail. The text
    is not modelled, only whether the call returns. *)
Definition __str__ (self : Stock) : result unit :=
  _ ← getitem self "title"; _ ← getitem self "code"; Ok ().

(** [print("update:", stock)]: the standard output is not part of the
    state. Printing a [Stock] runs its [__str__]; the [repr] of a plain
    [dict] does not fail. *)
Definition print_update (kind : mapping_kind) (stock : Stock) : result unit :=
  match kind with
  | StockInstance => __str__ stock
  | PlainDict => Ok ()
  end.

Definition save_stock (st : store) (kind : mapping_kind) (stock : Stock)
    : result (store * Stock) :=
  code ← getitem stock "code";
  st' ← match find_one st (QEq "code" code) with
        | Some existing =>
            if bool_decide (existing = ∅) then insert_one st stock
            else _ ← print_update kind stock;
                 ecode ← getitem existing "code"; update_one st (QEq "code" ecode) stock
        | None => insert_one st stock
        end;
  code ← getitem stock "code";
  Ok (st', stock_by_code st' code).

(** A sort key other than NaN. *)
Definition ordered_key (v : value) : bool :=
  match v with
  | VFloat f => match exact_float f with XNaN => false | _ => true end
  | _ => true
  end.

(** [sorted(items, key=key, reverse=reverse)]: the keys are computed first,
    then compared with [<] only; equal keys keep their order, also under
    [reverse]. A stable insertion sort stands for the list sort: on keys
    that [<] orders it returns the same list. With a NaN among the keys the
    outcome depends on the sorting algorithm and is left out. *)
Section Sorted.
Context {A : Type}.

Fixpoint insert_sorted (x : value * A) (l : list (value * A)) : result (list (value * A)) :=
  match l with
  | [] => Ok [x]
  | y :: l' =>
      c ← py_lt x.1 y.1;
      if (c : bool) then Ok (x :: y :: l') else r ← insert_sorted x l'; Ok (y :: r)
  end.

Fixpoint sort_into (acc l : list (value * A)) : result (list (value * A)) :=
  match l with
  | [] => Ok acc
  | x :: l' => acc' ← insert_sorted x acc; sort_into acc' l'
  end.

Definition py_sorted (key : A → result value) (reverse : bool) (l : list A)
    : result (list A) :=
  keyed ← mapR (λ x, k ← key x; Ok (k, x)) l;
  if negb (forallb (λ p : value * A, ordered_key p.1) keyed) then Raise OutOfModel else
  r ← sort_into [] (if reverse then rev keyed else keyed);
  Ok (map snd (if reverse then rev r else r)).

End Sorted.

Section Db.
Context {P : Platform}.

Definition attr_or_key_getter (name : string) (obj : Stock) : result value :=
  match getattr obj name with
  | Raise AttributeError => Ok (get obj name (VInt 0))
  | r => r
  end.

(** The [filter_func] that [all_stocks] picks from [filter_bad]. *)
Definition filter_func (filter_bad : bool) (s : Stock) : result bool :=
  rate ← expected_rate s;
  if filter_bad then py_gt rate (VInt 0) else py_lt rate (VInt 0).

Definition all_stocks (st : store) (order_by ordering : string) (find_ : option query)
    (filter_bad : bool) : result (list Stock) :=
  let dicts := find st find_ in
  stocks ← filterR (filter_func filter_bad) dicts;
  py_sorted (attr_or_key_getter order_by) (negb (String.eqb ordering "asc")) stocks.

(** *** [Stock.save_record] *)

(** [today.replace(hour=0, minute=0, second=0, microsecond=0)] *)
Definition midnight (now : datetime) : datetime :=
  DateTime (dt_year now) (dt_month now) (dt_day now) 0 0 0 0.

Fixpoint assoc_set {A} (k : string) (v : A) (l : list (string * A)) : list (string * A) :=
  match l with
  | [] => [(k, v)]
  | (k', v') :: l' => if String.eqb k k' then (k, v) :: l' else (k', v') :: assoc_set k v l'
  end.

(** [records[-1]['date']] *)
Definition last_date (records : value) : result value :=
  match records with
  | VList l =>
      match last l with
      | Some (VDict kvs) =>
          match assoc "date" kvs with Some d => Ok d | None => Raise KeyError end
      | Some _ => Raise TypeError
      | None => Raise IndexError
      end
  | VStr _ => Raise TypeError
  | VDict _ => Raise KeyError
  | VTuple _ => Raise OutOfModel
  | _ => Raise TypeError
  end.

(** [records[-1] = record] and [records.append(record)] *)
Definition set_last (records record : value) : result value :=
  match records with
  | VList l => Ok (VList (removelast l ++ [record]))
  | VDict _ => Raise OutOfModel
  | _ => Raise TypeError
  end.

Definition append (records record : value) : result value :=
  match records with
  | VList l => Ok (VList (l ++ [record]))
  | _ => Raise AttributeError
  end.

(** The [record] that [save_record] builds: today's snapshot of the
    record. *)
Definition snapshot (self : Stock) (today : value) : result value :=
  froe ← future_roe self;
  rate ← expected_rate self;
  Ok (VDict
    [ ("date", today); ("buy", VInt 0); ("sell", VInt 0);
      ("bps", get self "bps" (VInt 0));
      ("current_price", current_price self);
      ("future_roe", froe);
      ("roe", get self "roe" (VInt 0));
      ("pbr", get self "pbr" (VInt 0));
      ("expected_rate", rate) ]).

(** [now] is what [datetime.today()] reads from the clock. The list held
    under ['records'] is updated in place, so [self] sees the new list; the
    empty default of [self.get] is a fresh list that [self] never holds.
    The result is [self] after the call and the store after the write. *)
Definition save_record (self : Stock) (st : store) (now : datetime)
    : result (Stock * store) :=
  let starred := get self "starred" (VBool false) in
  let owned := get self "owned" (VBool false) in
  let today := VDate (midnight now) in
  if negb (truthy starred) && negb (truthy owned) then Ok (self, st) else
  record ← snapshot self today;
  let records := get self "records" (VList []) in
  n ← py_len records;
  same_day ← (if 0 <? n then d ← last_date records; py_eq d today else Ok false);
  records' ← (if (same_day : bool) then set_last records record else append records record);
  let self' := match self !! "records" with
               | Some _ => <["records" := records']> self
               | None => self
               end in
  r ← save_stock st PlainDict
        (<["code" := get self "code" VNone]> (<["records" := records']> ∅));
  Ok (self', r.1).

End Db.

(** ** app.py: the routes *)

Inductive response :=
| Redirect (endpoint : string) (code : option string)
| RenderList (stocks : list Stock) (order_by ordering : string) (status : option string)
| RenderDetail (stock : Stock).

Section App.
Context {P : Platform}.

(** [/], [/stocks], [/stocks/<status>]: [order_by] and [ordering] are the
    query-string arguments, when given. *)
Definition stocks (st : store) (status : option string) (order_by ordering : option string)
    : result response :=
  let find_ :=
    match status with
    | Some "starred" => Some (QEq "starred" (VBool true))
    | Some "owned" => Some (QEq "owned" (VBool true))
    | Some "starredorowned" =>
        Some (QOr [QEq "starred" (VBool true); QEq "owned" (VBool true)])
    | Some "doubtful" => Some (QEq "doubtful" (VBool true))
    | _ => None
    end in
  let order_by := default "expected_rate" order_by in
  let ordering := default "desc" ordering in
  let filter_bad := negb (bool_decide (status = Some "bad")) in
  l ← all_stocks st order_by ordering find_ filter_bad;
  Ok (RenderList l order_by ordering status).

(** Calling what an attribute lookup returned: no modelled value is
    callable, and what a bound method does when called from here is left
    out. *)
Definition call (f : value) : result value :=
  match f with
  | VObject _ => Raise OutOfModel
  | _ => Raise TypeError
  end.

(** [/stocks/fill] *)
Definition stocks_fill_snowball_stats (st : store) : result response :=
  l ← all_stocks st "title" "asc" None true;
  _ ← mapR (λ s, f ← getattr s "fill_snowball_stat"; call f) l;
  Ok (Redirect "stocks" None).

(** [/stock/<code>] *)
Definition stock (st : store) (code : string) : result response :=
  Ok (RenderDetail (stock_by_code st (VStr code))).

(** [/stock/<code>/<status>/<on>] *)
Definition stock_status (st : store) (code status on : string) : result (store * response) :=
  let stock := stock_by_code st (VStr code) in
  let stock := <[status := VBool (String.eqb on "on")]> stock in
  flag ← getitem stock status;
  let stock :=
    if String.eqb status "owned" && truthy flag then <["starred" := VBool false]> stock
    else if String.eqb status "starred" && truthy flag then <["owned" := VBool false]> stock
    else stock in
  r ← save_stock st StockInstance stock;
  Ok (r.1, Redirect "stock" (Some code)).

End App.

(** ** A reference platform and sample data

    The theorems below hold on every platform. To run the model on concrete
    inputs, [reference_platform] fixes the year, takes for [pow] the nearest
    float to the power (exact for whole exponents above 0, evaluated to
    some 190 bits otherwise), leaves the properties that are not embedded
    out, and gives a [Stock] the attributes that a [UserDict] instance has
    under Python 3.11. *)

(** Names that [UserDict] and its bases define; all but the six listed
    apart are methods or other unorderable objects. *)
Definition userdict_attrs : list string :=
  [ "_MutableMapping__marker"; "__class__";
    "__class_getitem__"; "__contains__"; "__copy__"; "__delattr__";
    "__delitem__"; "__dict__"; "__dir__"; "__eq__"; "__format__"; "__ge__";
    "__getattribute__"; "__getitem__"; "__getstate__"; "__gt__"; "__init__";
    "__init_subclass__"; "__ior__"; "__iter__"; "__le__"; "__len__";
    "__lt__"; "__ne__"; "__new__"; "__or__"; "__reduce__"; "__reduce_ex__";
    "__repr__"; "__ror__"; "__setattr__"; "__setitem__"; "__sizeof__";
    "__subclasshook__"; "_abc_impl"; "clear"; "copy"; "data";
    "fromkeys"; "get"; "items"; "keys"; "pop"; "popitem"; "setdefault";
    "update"; "values" ].

Definition userdict_attr (name : string) (s : Stock) : option value :=
  if mem name ["__doc__"; "__reversed__"; "__weakref__"] then Some VNone
  else if String.eqb name "__module__" then Some (VStr "db")
  else if String.eqb name "__slots__" then Some (VTuple [])
  else if String.eqb name "__abstractmethods__" then Some (VFrozenset [])
  else if mem name userdict_attrs then Some (VObject name)
  else None.

(** The nearest binary64 to [x ^ n], for a finite [x] and [0 <= n]. *)
Definition pow_nearest (x : float) (n : Z) : float :=
  match exact_float x with
  | XFin m e => SF2Prim (binary_normalize prec emax (m ^ n) (e * n) false)
  | _ => x
  end.

Definition float_to_Z (f : float) : Z :=
  match float_trunc f with Ok (VInt z) => z | _ => 0 end.

(** Natural logarithms and exponentials in fixed point, scaled by
    [2 ^ POW_BITS]. *)
Definition POW_BITS : Z := 200.

(** [z / k + z^3 / (k + 2) + ...], [n] terms, for [zk = z^k] and
    [z2 = z^2]. *)
Fixpoint atanh_sum (n : nat) (k zk z2 : Z) : Z :=
  match n with
  | O => 0
  | S n' => zk / k + atanh_sum n' (k + 2) (zk * z2 / 2 ^ POW_BITS) z2
  end.

(** [ln f] for [f] from 1 to 2: twice the inverse hyperbolic tangent of
    [(f - 1) / (f + 1)], which is at most a third. *)
Definition ln_1_2 (f : Z) : Z :=
  let one := 2 ^ POW_BITS in
  let z := (f - one) * one / (f + one) in
  2 * atanh_sum 70 1 z (z * z / one).

Definition ln_2 : Z := ln_1_2 (2 * 2 ^ POW_BITS).

(** [ln (m * 2^e)] for [0 < m]. *)
Definition ln_scaled (m e : Z) : Z :=
  let b := Z.log2 m in
  let f := if b <=? POW_BITS then m * 2 ^ (POW_BITS - b) else m / 2 ^ (b - POW_BITS) in
  (e + b) * ln_2 + ln_1_2 f.

(** [term + term * r / i + term * r^2 / (i * (i + 1)) + ...], [n] terms. *)
Fixpoint exp_sum (n : nat) (i term r : Z) : Z :=
  match n with
  | O => 0
  | S n' => term + exp_sum n' (i + 1) (term * r / 2 ^ POW_BITS / i) r
  end.

(** [x ** w] as [exp (w * ln x)] for a finite [x] above 0 and a finite [w]:
    the logarithm and the exponential are taken to some 190 bits, and the
    result is rounded once to the nearest binary64. *)
Definition pow_by_log (x w : float) : float :=
  match exact_float x, exact_float w with
  | XFin mx ex, XFin mw ew =>
      let l := ln_scaled mx ex in
      let t := if 0 <=? ew then mw * l * 2 ^ ew else mw * l / 2 ^ (- ew) in
      let n := (2 * t + ln_2) / (2 * ln_2) in
      if 1100 <? n then infinity
      else if n <? -1200 then 0%float
      else
        let r := t - n * ln_2 in
        let y := exp_sum 60 1 (2 ^ POW_BITS) r in
        SF2Prim (binary_normalize prec emax y (n - POW_BITS) false)
  | _, _ => x
  end.

Definition reference_pow (x w : float) : float :=
  if float_is_integer w && (0 <? w)%float then pow_nearest x (float_to_Z w)
  else pow_by_log x w.

Definition reference_platform : Platform := {|
  LAST_YEAR := 2025;
  libm_pow := reference_pow;
  other_property := λ _ _, Raise OutOfModel;
  inherited_attr := userdict_attr |}.

(** A record with book value 10000 and four years of 10% ROE. *)
Definition sample (code : string) (price : value) (more : list (string * value)) : Stock :=
  list_to_map
    ([ ("code", VStr code); ("title", VStr code); ("bps", VInt 10000);
       ("ROEs", VList [VInt 10; VInt 10; VInt 10; VInt 10]);
       ("last_year_index", VInt 3); ("current_price", price) ] ++ more).

(** The pairs [year_stat] builds from a series, before any is dropped. *)
Definition aligned `{P : Platform} (last_year_index : Z) (series : list value)
    : list (Z * value) :=
  map (λ iv : Z * value, (LAST_YEAR - (last_year_index - iv.1), iv.2)) (enumerate series).

(** A five-item series with [last_year_index = 4]: index 4 falls on
    [LAST_YEAR], index 0 four years earlier. *)
Definition five_years : Stock :=
  list_to_map
    [ ("EPSs", VList [VInt 1; VInt 2; VInt 3; VInt 4; VInt 5]);
      ("PBRs", VList [VInt 1; VInt 2; VInt 3; VInt 4; VInt 5; VInt 6; VInt 7]);
      ("last_year_index", VInt 4) ].

(** The store holds no array under ['code'] ([code] is a string, §3.1 of the
    specification), so that a query on a code is a plain equality. *)
Definition code_is_scalar (d : Stock) : bool :=
  match d !! "code" with Some (VList _) => false | _ => true end.

Definition scalar_codes (st : store) : bool := forallb code_is_scalar (docs st).

(** [pow] errs by less than one unit in the last place at [x ** n]: its
    result is the nearest float to the exact power or one of that float's
    two neighbours. *)
Definition pow_faithful `{P : Platform} (x : float) (n : Z) : Prop :=
  libm_pow x (float_of_Z n) ∈
    [next_down (pow_nearest x n); pow_nearest x n; next_up (pow_nearest x n)].

(** The floats [1 + (1 * 10 / 100)] and [1 + (1 * 15 / 100)]. *)
Definition growth_10 : float := Eval vm_compute in (1 + 10 / 100)%float.
Definition growth_15 : float := Eval vm_compute in (1 + 15 / 100)%float.

Definition empty_store : store := Store [] 0.

(** A store with a single record whose price is 0 and that is not starred. *)
Definition zero_price_store : store := Store [sample "Z" (VInt 0) []] 0.

(** A flag of a record, as the routes and [save_record] read it. *)
Definition flag_on (d : Stock) (k : string) : bool := truthy (get d k (VBool false)).

Definition both_on (d : Stock) : bool := flag_on d "owned" && flag_on d "starred".

(** An entry of [records] carries the date [today]. *)
Definition dated (today : datetime) (entry : value) : bool :=
  match entry with
  | VDict kvs =>
      match assoc "date" kvs with
      | Some d => match py_eq d (VDate today) with Ok true => true | _ => false end
      | None => false
      end
  | _ => false
  end.

Definition starred_store : store :=
  Store [sample "A" (VInt 20000) [("starred", VBool true); ("note", VStr "watch")];
         sample "B" (VInt 30000) []] 7.

(** What an ingestion writes for code A: a new price, no user field. *)
Definition payload : Stock :=
  list_to_map [("code", VStr "A"); ("current_price", VInt 21000)].

(** The starred record of [starred_store], and two readings of the clock on
    one day. *)
Definition starred_A : Stock :=
  sample "A" (VInt 20000) [("starred", VBool true); ("note", VStr "watch")].

Definition morning : datetime := DateTime 2026 11 3 9 15 0 0.
Definition evening : datetime := DateTime 2026 11 3 17 40 12 500.

(** Two sort keys stand in the order the listing asks for: ascending, the
    later key is not smaller than the earlier one; descending, the earlier
    key is not smaller than the later one. *)
Definition in_order (ascending : bool) (earlier later : value) : Prop :=
  if ascending then py_lt later earlier = Ok false else py_lt earlier later = Ok false.

(** [a] may stand before [b] in an ascending sort by key. *)
Definition before {A} (a b : value * A) : Prop := py_lt b.1 a.1 = Ok false.

(** Four records whose expected rates are positive, negative, zero and
    positive: the projected book value 25937 against prices below, above
    and at 25937. *)
Definition mixed_store : store :=
  Store [ sample "P5" (VInt 10000) []; sample "N3" (VInt 30000) [];
          sample "Z0" (VInt 25937) []; sample "P1" (VInt 20000) [] ] 0.

(** The same four rates in another order of storage. The two records of
    positive rate also store a field named [expected_rate], which orders
    them the other way round than the rates they compute, and one of them a
    field [rank]. *)
Definition P1 : Stock :=
  sample "P1" (VInt 20000) [("expected_rate", VInt 99); ("rank", VInt 2)].

Definition P5 : Stock := sample "P5" (VInt 10000) [("expected_rate", VInt (-7))].

Definition shuffled_store : store :=
  Store [ P1; sample "N3" (VInt 30000) []; sample "Z0" (VInt 25937) []; P5 ] 0.

Definition codes (l : list Stock) : list value := map (λ s, get s "code" VNone) l.

(** The orderable values, by kind, as [order_cmp] tells them apart. *)
Inductive okey :=
| KNum (x : xnum)
| KStr (s : string)
| KDate (fields : list Z)
| KOid (n : Z)
| KEmptyTuple
| KEmptyFrozenset.

Definition okey_of (v : value) : option okey :=
  match v with
  | VBool b => Some (KNum (XFin (Z.b2z b) 0))
  | VInt z => Some (KNum (XFin z 0))
  | VFloat f => Some (KNum (exact_float f))
  | VStr s => Some (KStr s)
  | VDate d => Some (KDate (datetime_fields d))
  | VOid n => Some (KOid n)
  | VTuple [] => Some KEmptyTuple
  | VFrozenset [] => Some KEmptyFrozenset
  | _ => None
  end.

Definition okey_cmp (a b : okey) : option (option comparison) :=
  match a, b with
  | KNum x, KNum y => Some (xcompare x y)
  | KStr s, KStr t => Some (Some (String.compare s t))
  | KDate d, KDate e => Some (Some (lex_compare d e))
  | KOid m, KOid n => Some (Some (Z.compare m n))
  | KEmptyTuple, KEmptyTuple => Some (Some Eq)
  | KEmptyFrozenset, KEmptyFrozenset => Some (Some Eq)
  | _, _ => None
  end.

(** Record [a] may stand before record [b] in a listing sorted by
    [order_by]: both have a sort key, and the keys stand in the order that
    [ordering] asks for. *)
Definition listed_in_order `{P : Platform} (order_by ordering : string) (a b : Stock) : Prop :=
  ∃ ka kb,
    attr_or_key_getter order_by a = Ok ka
    ∧ attr_or_key_getter order_by b = Ok kb
    ∧ in_order (String.eqb ordering "asc") ka kb.

(** ** app.py: the routes that edit one field of a record

    The three routes that take a number read it with [float]; their
    argument here is that reading when the form has the field, and the
    default 0 is read as 0.0. A field that does not read as a float is left
    out. *)
Definition stock_my_price (st : store) (code : string) (my_price : option float)
    : result (store * response) :=
  let stock := stock_by_code st (VStr code) in
  let stock := <["my_price" := VFloat (default 0%float my_price)]> stock in
  r ← save_stock st StockInstance stock;
  Ok (r.1, Redirect "stock_refresh" (Some code)).

Definition stock_adjusted_future_roe (st : store) (code : string)
    (adjusted_future_roe : option float) : result (store * response) :=
  let stock := stock_by_code st (VStr code) in
  let stock :=
    <["adjusted_future_roe" := VFloat (default 0%float adjusted_future_roe)]> stock in
  r ← save_stock st StockInstance stock;
  Ok (r.1, Redirect "stock_refresh" (Some code)).

Definition stock_adjusted_future_pbr (st : store) (code : string)
    (adjusted_future_pbr : option float) : result (store * response) :=
  let stock := stock_by_code st (VStr code) in
  let stock :=
    <["adjusted_future_pbr" := VFloat (default 0%float adjusted_future_pbr)]> stock in
  r ← save_stock st StockInstance stock;
  Ok (r.1, Redirect "stock_refresh" (Some code)).

Definition stock_clear_adjusted_future_pbr (st : store) (code : string)
    : result (store * response) :=
  let stock := stock_by_code st (VStr code) in
  let stock := <["adjusted_future_pbr" := VInt 0]> stock in
  r ← save_stock st StockInstance stock;
  Ok (r.1, Redirect "stock_refresh" (Some code)).

(** [note] is the form's field, when it has one. *)
Definition stock_update_note (st : store) (code : string) (note : option string)
    : result (store * response) :=
  let stock := stock_by_code st (VStr code) in
  let stock := <["note" := VStr (default "" note)]> stock in
  r ← save_stock st StockInstance stock;
  Ok (r.1, Redirect "stock" (Some code)).

Definition stock_clear_adjusted_future_roe (st : store) (code : string)
    : result (store * response) :=
  let stock := stock_by_code st (VStr code) in
  let stock := <["adjusted_future_roe" := VInt 0]> stock in
  r ← save_stock st StockInstance stock;
  Ok (r.1, Redirect "stock_refresh" (Some code)).

(** A real number: a bool, an int, or a float other than NaN. *)
Definition real (v : value) : bool :=
  match v with
  | VBool _ | VInt _ => true
  | VFloat f => match exact_float f with XNaN => false | _ => true end
  | _ => false
  end.

Definition is_int (v : value) : bool :=
  match v with VInt _ => true | _ => false end.

(** One year's growth of [ten_year_prices] on a float. *)
Definition grow (price : float) : float := (price + price * 0.15)%float.

(** The computation ends with the exception [e]. *)
Definition raises {A} (e : exn) (r : result A) : bool :=
  match r with Raise e' => bool_decide (e' = e) | Ok _ => false end.

(** The store [st'] holds the record [d] of [st], found under [code], with
    [field] set to [v], in its place among the same other records. *)
Definition stored_with (st st' : store) (code : string) (d : Stock)
    (field : string) (v : value) : Prop :=
  stock_by_code st' (VStr code) = <[field := v]> d
  ∧ ∃ pre post,
      docs st = pre ++ d :: post
      ∧ Forall (λ x, x !! "code" ≠ Some (VStr code)) pre
      ∧ docs st' = pre ++ <[field := v]> d :: post.

(** ** Sample records for the runs on the reference platform *)

(** Five ratios of which the last is an estimate for next year. *)
Definition pbr_sample : Stock :=
  list_to_map
    [ ("PBRs", VList [VFloat 1.5; VInt 2; VFloat 0.8; VInt 0; VInt 3]);
      ("last_year_index", VInt 3) ].

Definition falling : Stock := list_to_map [("price_diff", VInt (-150))].

Definition priced : Stock := list_to_map [("my_price", VFloat 100)].

(** Six ROEs, the fifth of them for [LAST_YEAR]. *)
Definition six_years : Stock :=
  list_to_map
    [ ("ROEs", VList [VInt 1; VInt 2; VInt 3; VInt 4; VInt 5; VInt 6]);
      ("last_year_index", VInt 4) ].

(** Three EPSs of which only two are past. *)
Definition young : Stock :=
  list_to_map
    [ ("EPSs", VList [VInt 100; VInt 200; VInt 300]); ("last_year_index", VInt 1) ].

(** A record with a book value and a price, and nothing else. *)
Definition bare : Stock :=
  list_to_map [("bps", VInt 10000); ("current_price", VInt 5000)].

Definition uneven : Stock :=
  list_to_map [("ROEs", VList [VInt 10; VInt 0; VInt 7; VInt 12; VInt 9])].

Definition scored : Stock :=
  list_to_map
    [ ("NPs", VList [VInt 100; VInt (-5); VInt 30]);
      ("CFOs", VList [VInt 10; VInt 20; VInt (-1)]);
      ("TIs", VList [VInt 500; VInt 500; VInt 500]);
      ("last_year_index", VInt 2) ].

Definition unpriced : Stock := list_to_map [("bps", VInt 10000)].

(** A store with one short record, the same without its title, and a
    flagged record with a snapshot of the day before [morning]. *)
Definition noted : Stock :=
  list_to_map [("code", VStr "A"); ("title", VStr "Alpha"); ("note", VStr "old")].

Definition noted_store : store := Store [noted] 1.

Definition untitled : Stock := list_to_map [("code", VStr "A"); ("note", VStr "old")].

Definition untitled_store : store := Store [untitled] 1.

Definition yesterday : datetime := DateTime 2026 11 2 0 0 0 0.

Definition flagged : Stock :=
  sample "A" (VInt 20000)
    [("owned", VBool true); ("records", VList [VDict [("date", VDate yesterday)]])].


(** The entry of [records] that the specification gives for a day: the
    date, no buy and no sell, and the record's book value, current price,
    future ROE, ROE, PBR and expected rate. *)
Definition day_entry (today : datetime) (s : Stock) (future_roe expected_rate : value)
    : value :=
  VDict
    [ ("date", VDate today); ("buy", VInt 0); ("sell", VInt 0);
      ("bps", get s "bps" (VInt 0));
      ("current_price", current_price s);
      ("future_roe", future_roe);
      ("roe", get s "roe" (VInt 0));
      ("pbr", get s "pbr" (VInt 0));
      ("expected_rate", expected_rate) ].
(** ** Facts about the runtime *)

Lemma bind_Ok {A B} (m : result A) (f : A → result B) (b : B) :
  m ≫= f = Ok b → ∃ a, m = Ok a ∧ f a = Ok b.
Proof. destruct m as [a|e]; [eauto | discriminate]. Qed.

Lemma mapR_pure {A B} (f : A → result B) (g : A → B) (l : list A) :
  (∀ x, x ∈ l → f x = Ok (g x)) → mapR f l = Ok (map g l).
Proof.
  induction l as [|x l IH]; intros Hf; [reflexivity|].
  cbn. rewrite (Hf x) by left. cbn. rewrite IH; [reflexivity|].
  intros y Hy. apply Hf. now right.
Qed.

Lemma xcompare_int (a b : Z) : xcompare (XFin a 0) (XFin b 0) = Some (a ?= b).
Proof.
  unfold xcompare. rewrite Z.min_id, Z.sub_diag. cbn [Z.pow].
  now rewrite !Z.mul_1_r.
Qed.

Lemma py_le_int (a b : Z) : py_le (VInt a) (VInt b) = Ok (a <=? b).
Proof.
  unfold py_le, order_cmp. cbn -[xcompare]. rewrite xcompare_int. cbn.
  unfold Z.leb. now destruct (a ?= b).
Qed.

Lemma py_ge_int (a b : Z) : py_ge (VInt a) (VInt b) = Ok (a >=? b).
Proof.
  unfold py_ge, order_cmp. cbn -[xcompare]. rewrite xcompare_int. cbn.
  unfold Z.geb. now destruct (a ?= b).
Qed.

Lemma py_lt_int (a b : Z) : py_lt (VInt a) (VInt b) = Ok (a <? b).
Proof.
  unfold py_lt, order_cmp. cbn -[xcompare]. rewrite xcompare_int. cbn.
  unfold Z.ltb. now destruct (a ?= b).
Qed.

Lemma py_gt_int (a b : Z) : py_gt (VInt a) (VInt b) = Ok (a >? b).
Proof.
  unfold py_gt, order_cmp. cbn -[xcompare]. rewrite xcompare_int. cbn.
  unfold Z.gtb. now destruct (a ?= b).
Qed.

Lemma py_sub_int (a b : Z) : py_sub (VInt a) (VInt b) = Ok (VInt (a - b)).
Proof. reflexivity. Qed.

(** ** Year alignment *)

Section YearStat.
Context {P : Platform}.

Lemma year_rows (n : Z) (exclude_future : bool) (el : list (Z * value)) :
  mapR (λ iv : Z * value,
      let '(idx, value) := iv in
      keep ← (if negb exclude_future then Ok true
              else y ← (d ← py_sub (VInt n) (VInt idx); py_sub (VInt LAST_YEAR) d);
                   py_le y (VInt LAST_YEAR));
      if (keep : bool)
      then y ← (d ← py_sub (VInt n) (VInt idx); py_sub (VInt LAST_YEAR) d); Ok (Some (y, value))
      else Ok None) el
  = Ok (map (λ iv : Z * value,
         if negb exclude_future || (LAST_YEAR - (n - iv.1) <=? LAST_YEAR)
         then Some (VInt (LAST_YEAR - (n - iv.1)), iv.2) else None) el).
Proof.
  apply mapR_pure. intros [idx v] _.
  destruct exclude_future; cbn -[py_le Z.sub Z.leb]; [|reflexivity].
  rewrite py_le_int. cbn -[Z.sub Z.leb]. now destruct (_ <=? _).
Qed.

Lemma somes_rows (n : Z) (exclude_future : bool) (el : list (Z * value)) :
  somes (map (λ iv : Z * value,
         if negb exclude_future || (LAST_YEAR - (n - iv.1) <=? LAST_YEAR)
         then Some (VInt (LAST_YEAR - (n - iv.1)), iv.2) else None) el)
  = map (λ p : Z * value, (VInt p.1, p.2))
      (filter (λ p : Z * value, exclude_future = true → p.1 ≤ LAST_YEAR)
         (map (λ iv : Z * value, (LAST_YEAR - (n - iv.1), iv.2)) el)).
Proof.
  destruct exclude_future; cbn [negb orb];
    (induction el as [|[idx v] el IH]; [reflexivity|]);
    cbn [map somes fst snd]; rewrite filter_cons; cbn [fst snd].
  - destruct (Z.leb_spec (LAST_YEAR - (n - idx)) LAST_YEAR) as [Hle|Hgt].
    + rewrite decide_True by auto. cbn [map somes fst snd]. now rewrite IH.
    + rewrite decide_False by (intros H; specialize (H eq_refl); lia). apply IH.
  - rewrite decide_True by discriminate. cbn [map somes fst snd]. now rewrite IH.
Qed.

(** C3. [year_stat] answers the single pair (0, 0) when the series is absent
    or empty. On a series with items it fails (an assertion) when
    [last_year_index] is absent, and with [last_year_index = n] it pairs the
    item at index [i] with the year [LAST_YEAR - (n - i)], keeping, when
    [exclude_future] is set, only the pairs whose year is at most
    [LAST_YEAR]. *)
Theorem year_stat_alignment (s : Stock) (stat : string) (exclude_future : bool) :
  ((s !! stat = None ∨ s !! stat = Some (VList [])) →
     year_stat s stat exclude_future = Ok [(VInt 0, VInt 0)])
  ∧ (∀ x l, s !! stat = Some (VList (x :: l)) →
       (s !! "last_year_index" = None →
          year_stat s stat exclude_future = Raise AssertionError)
     ∧ (∀ n, s !! "last_year_index" = Some (VInt n) →
          year_stat s stat exclude_future =
            Ok (map (λ p : Z * value, (VInt p.1, p.2))
                  (filter (λ p : Z * value, exclude_future = true → p.1 ≤ LAST_YEAR)
                     (aligned n (x :: l)))))).
Proof.
  split.
  - intros [H|H]; unfold year_stat, get; rewrite H; reflexivity.
  - intros x l Hs. split.
    + intros Hn. unfold year_stat, get. rewrite Hs, Hn. reflexivity.
    + intros n Hn. unfold year_stat, get. rewrite Hs, Hn.
      cbn [truthy negb py_iter]. cbn [mbind result_bind].
      rewrite year_rows. cbn [mbind result_bind].
      now rewrite somes_rows.
Qed.

End YearStat.


(** ** Looking a record up by its code *)

Lemma bson_eqb_str (v : value) (c : string) : bson_eqb v (VStr c) = true ↔ v = VStr c.
Proof.
  destruct v; cbn; try (split; [discriminate | discriminate]).
  rewrite String.eqb_eq. split; congruence.
Qed.

Lemma matches_code (d : Stock) (c : string) :
  code_is_scalar d = true →
  matches (QEq "code" (VStr c)) d = true ↔ d !! "code" = Some (VStr c).
Proof.
  unfold code_is_scalar. cbn [matches]. unfold field_matches.
  destruct (d !! "code") as [v|] eqn:E; [|intros _; split; discriminate].
  destruct v; intros Hs; try discriminate Hs;
    (rewrite bson_eqb_str; split; congruence).
Qed.

Lemma first_match_here (f : Stock → bool) (pre post : list Stock) (d : Stock) :
  Forall (λ x, f x = false) pre → f d = true → first_match f (pre ++ d :: post) = Some d.
Proof.
  induction 1 as [|x pre Hx _ IH]; intros Hd; cbn.
  - now rewrite Hd.
  - rewrite Hx. now apply IH.
Qed.

Lemma first_match_none (f : Stock → bool) (l : list Stock) :
  Forall (λ x, f x = false) l → first_match f l = None.
Proof. induction 1 as [|x l Hx _ IH]; cbn; [reflexivity|now rewrite Hx]. Qed.

Lemma first_match_split (f : Stock → bool) (l : list Stock) (d : Stock) :
  first_match f l = Some d →
  ∃ pre post, l = pre ++ d :: post ∧ Forall (λ x, f x = false) pre ∧ f d = true.
Proof.
  induction l as [|x l IH]; cbn; [discriminate|].
  destruct (f x) eqn:Hx.
  - intros [= ->]. exists [], l. auto.
  - intros Hl. destruct (IH Hl) as (pre & post & -> & Hpre & Hd).
    exists (x :: pre), post. auto.
Qed.

Lemma scalar_codes_Forall (st : store) :
  scalar_codes st = true → Forall (λ d, code_is_scalar d = true) (docs st).
Proof.
  unfold scalar_codes. induction (docs st) as [|d l IH]; cbn; [constructor|].
  intros [Hd Hl]%andb_prop. constructor; auto.
Qed.

Lemma no_code_no_match (c : string) (l : list Stock) :
  Forall (λ d, code_is_scalar d = true) l →
  Forall (λ x, x !! "code" ≠ Some (VStr c)) l →
  Forall (λ x, matches (QEq "code" (VStr c)) x = false) l.
Proof.
  intros Hs Hn. induction Hs as [|d l Hd _ IH]; [constructor|].
  inversion Hn; subst. constructor; [|auto].
  destruct (matches _ d) eqn:E; [|reflexivity].
  apply matches_code in E; [contradiction | assumption].
Qed.

(** C5 (as amended). Over a store whose codes are not arrays,
    [stock_by_code(code)] wraps the first record, in the store's order,
    whose [code] field equals the given code; when no record has that code
    it does not fail: it returns an instance with no field at all. *)
Theorem stock_by_code_first_or_empty (st : store) (c : string) :
  scalar_codes st = true →
  (∀ pre d post, docs st = pre ++ d :: post →
     Forall (λ x, x !! "code" ≠ Some (VStr c)) pre →
     d !! "code" = Some (VStr c) →
     stock_by_code st (VStr c) = d)
  ∧ (Forall (λ x, x !! "code" ≠ Some (VStr c)) (docs st) →
     stock_by_code st (VStr c) = ∅).
Proof.
  intros Hs. apply scalar_codes_Forall in Hs. split.
  - intros pre d post Hl Hpre Hd. unfold stock_by_code, find_one.
    rewrite Hl in *. apply Forall_app in Hs as [Hs1 Hs2].
    inversion Hs2; subst.
    rewrite first_match_here; [reflexivity | | ].
    + now apply no_code_no_match.
    + now apply matches_code.
  - intros Hn. unfold stock_by_code, find_one.
    rewrite first_match_none; [reflexivity|]. now apply no_code_no_match.
Qed.



(** ** The expected rate *)

Lemma py_sub_float_1 (r : float) : py_sub (VFloat r) (VInt 1) = Ok (VFloat (r - 1)%float).
Proof. reflexivity. Qed.

Lemma py_mul_float_100 (r : float) : py_mul (VFloat r) (VInt 100) = Ok (VFloat (r * 100)%float).
Proof. reflexivity. Qed.

Lemma py_truediv_by_0 (b : value) :
  is_Some (as_num b) → py_truediv b (VInt 0) = Raise ZeroDivisionError.
Proof.
  intros [n Hn]. unfold py_truediv. rewrite Hn. now destruct n.
Qed.

Section ExpectedRate.
Context {P : Platform}.

(** C9. [calc_expected_rate] takes [current_price] for the price whenever
    the supplied price is absent or falsy; with [q] the float quotient of
    [calc_bps(future)] by the price and [e] the float [1.0 / future], it
    returns [(q ** e - 1) * 100]; and when the supplied price is absent or
    zero and [current_price] is 0, the division raises
    [ZeroDivisionError], for the int 0 and, under a whole value that a float
    holds, for a float zero. *)
Theorem calc_expected_rate_cases (s : Stock) (calc_bps : value → result value)
    (future price : value) :
  (truthy price = false →
     calc_expected_rate s calc_bps future price
     = calc_expected_rate s calc_bps future (current_price s))
  ∧ (∀ b q e r,
       calc_bps future = Ok b →
       py_truediv b (if truthy price then price else current_price s) = Ok (VFloat q) →
       py_truediv (VFloat 1) future = Ok (VFloat e) →
       py_pow (VFloat q) (VFloat e) = Ok (VFloat r) →
       calc_expected_rate s calc_bps future price = Ok (VFloat ((r - 1) * 100)%float))
  ∧ (∀ b, truthy price = false → current_price s = VInt 0 →
       calc_bps future = Ok b → is_Some (as_num b) →
       calc_expected_rate s calc_bps future price = Raise ZeroDivisionError)
  ∧ (∀ n z, truthy price = false → current_price s = VFloat z →
       (z =? 0)%float = true →
       calc_bps future = Ok (VInt n) → is_infinity (float_of_Z n) = false →
       calc_expected_rate s calc_bps future price = Raise ZeroDivisionError).
Proof.
  split; [|split; [|split]].
  - intros Hp. unfold calc_expected_rate. rewrite Hp. cbn [negb].
    now destruct (truthy (current_price s)).
  - intros b q e r Hb Hq He Hr. unfold calc_expected_rate.
    rewrite Hb. cbn [mbind result_bind].
    destruct (truthy price); cbn [negb]; rewrite Hq; cbn [mbind result_bind];
      rewrite He; cbn [mbind result_bind]; rewrite Hr; cbn [mbind result_bind];
      rewrite py_sub_float_1; cbn [mbind result_bind]; apply py_mul_float_100.
  - intros b Hp H0 Hb Hnum. unfold calc_expected_rate.
    rewrite Hp, H0, Hb. cbn [negb mbind result_bind].
    now rewrite py_truediv_by_0.
  - intros n z Hp Hz H0 Hb Hfin. unfold calc_expected_rate.
    rewrite Hp, Hz, Hb. cbn [negb mbind result_bind py_truediv as_num arith].
    unfold float_of_int. rewrite Hfin. cbn [mbind result_bind]. now rewrite H0.
Qed.

End ExpectedRate.


(** ** The projected book value and the invest price *)

Section Projection.
Context {P : Platform}.

Lemma pow_faithful_cases (x : float) (n : Z) (a b c : float) :
  pow_faithful x n →
  next_down (pow_nearest x n) = a → pow_nearest x n = b → next_up (pow_nearest x n) = c →
  libm_pow x (float_of_Z n) = a ∨ libm_pow x (float_of_Z n) = b ∨ libm_pow x (float_of_Z n) = c.
Proof.
  unfold pow_faithful. intros H <- <- <-.
  rewrite !elem_of_cons, elem_of_nil in H. tauto.
Qed.

Lemma growth_pow (x : float) (n : Z) :
  (x =? 0)%float = false → (x <? 0)%float = false → (abs x =? 1)%float = false →
  is_nan x = false → is_infinity x = false →
  (float_of_Z n =? 0)%float = false → is_nan (float_of_Z n) = false →
  is_infinity (float_of_Z n) = false → abs x = x →
  py_pow (VFloat x) (VInt n) =
    if is_infinity (libm_pow x (float_of_Z n)) then Raise OverflowError
    else Ok (VFloat (libm_pow x (float_of_Z n))).
Proof.
  intros H0 Hneg H1 Hnan Hinf Hn0 Hnnan Hninf Habs.
  cbn [py_pow as_num arith]. unfold float_of_int. rewrite Hninf.
  cbn [mbind result_bind]. unfold float_pow.
  rewrite Hn0, Hnan, Hnnan, Hninf, Hinf, H0, Hneg. cbn [andb].
  now rewrite H1, Habs.
Qed.

Lemma growth_10_rate (v : value) :
  v ∈ [VInt 10; VFloat 10] →
  py_gt v (VInt 0) = Ok true
  ∧ (t ← py_mul (VInt 1) v; t ← py_truediv t (VInt 100); py_add (VInt 1) t)
    = Ok (VFloat growth_10).
Proof.
  rewrite !elem_of_cons, elem_of_nil.
  intros [-> | [-> | []]]; split; vm_compute; reflexivity.
Qed.

Lemma growth_15_rate :
  (t ← py_mul (VInt 1) (VInt TARGET_RATE); t ← py_truediv t (VInt 100); py_add (VInt 1) t)
  = Ok (VFloat growth_15).
Proof. vm_compute. reflexivity. Qed.

(** C2 (as amended). With [pow] accurate to one unit in the last place at
    the two powers taken: a record with [bps = 10000], no
    [adjusted_future_roe] override and [future_roe = 10] has
    [calc_future_bps(10) = int(10000 * 1.10 ** 10) = 25937]; and a record
    whose [future_bps] is 25937 has
    [invest_price = int(25937 / 1.15 ** 10) = 6411]. *)
Theorem future_bps_and_invest_price (s : Stock) :
  (∀ v, pow_faithful growth_10 10 →
     s !! "bps" = Some (VInt 10000) →
     truthy (get s "adjusted_future_roe" (VInt 0)) = false →
     future_roe s = Ok v → v ∈ [VInt 10; VFloat 10] →
     calc_future_bps s (VInt 10) = Ok (VInt 25937))
  ∧ (pow_faithful growth_15 10 →
     future_bps s = Ok (VInt 25937) →
     invest_price s = Ok (VInt 6411)).
Proof.
  split.
  - intros v Hpow Hbps Hadj Hroe Hv.
    destruct (growth_10_rate v Hv) as [Hpos Hrate].
    unfold calc_future_bps, calculable, get in *. rewrite Hbps.
    rewrite py_gt_int. cbn [mbind result_bind negb Z.gtb Z.compare].
    rewrite Hadj, Hroe. cbn [mbind result_bind]. rewrite Hpos. cbn [mbind result_bind negb].
    apply bind_Ok in Hrate as (t1 & Ht1 & Hrate). rewrite Ht1. cbn [mbind result_bind].
    apply bind_Ok in Hrate as (t2 & Ht2 & Hrate). rewrite Ht2. cbn [mbind result_bind].
    rewrite Hrate. cbn [mbind result_bind].
    rewrite growth_pow by (vm_compute; reflexivity).
    eapply pow_faithful_cases in Hpow; [| vm_compute; reflexivity ..].
    destruct Hpow as [-> | [-> | ->]]; vm_compute; reflexivity.
  - intros Hpow Hbps. unfold invest_price, future_bps in *. rewrite Hbps.
    cbn [mbind result_bind]. pose proof growth_15_rate as Hrate.
    apply bind_Ok in Hrate as (t1 & Ht1 & Hrate). rewrite Ht1. cbn [mbind result_bind].
    apply bind_Ok in Hrate as (t2 & Ht2 & Hrate). rewrite Ht2. cbn [mbind result_bind].
    rewrite Hrate. cbn [mbind result_bind].
    change (VInt FUTURE) with (VInt 10).
    rewrite growth_pow by (vm_compute; reflexivity).
    eapply pow_faithful_cases in Hpow; [| vm_compute; reflexivity ..].
    destruct Hpow as [-> | [-> | ->]]; vm_compute; reflexivity.
Qed.

End Projection.

(** ** Comprehensions with a fallible condition *)

Ltac inv_bind H :=
  repeat match type of H with
    | (_ ≫= _) = Ok _ =>
        let a := fresh "a" in
        let Ha := fresh "H" a in
        apply bind_Ok in H as (a & Ha & H)
    end.

Lemma filterR_Ok {A} (f : A → result bool) (l r : list A) :
  filterR f l = Ok r →
  r = filter (λ x, f x = Ok true) l ∧ Forall (λ x, ∃ c, f x = Ok c) l.
Proof.
  revert r. induction l as [|x l IH]; intros r H; cbn [filterR] in H.
  - injection H as <-. split; [reflexivity | constructor].
  - inv_bind H. injection H as <-. destruct (IH _ Ha0) as [-> HF].
    split; [|constructor; eauto].
    destruct a.
    + now rewrite filter_cons_True.
    + rewrite filter_cons_False; [reflexivity | congruence].
Qed.

Lemma filterR_raise_first {A} (f : A → result bool) (pre post : list A) (x : A) (e : exn) :
  Forall (λ y, ∃ c, f y = Ok c) pre → f x = Raise e →
  filterR f (pre ++ x :: post) = Raise e.
Proof.
  induction 1 as [|y pre [c Hy] _ IH]; intros Hx; cbn.
  - now rewrite Hx.
  - rewrite Hy. cbn. now rewrite IH.
Qed.

Lemma filterR_raises {A} (f : A → result bool) (l : list A) (x : A) (e : exn) :
  x ∈ l → f x = Raise e → ∃ e', filterR f l = Raise e'.
Proof.
  intros Hin Hx. induction Hin as [x l | x y l _ IH]; cbn.
  - rewrite Hx. eauto.
  - destruct (f y) as [c|e1]; cbn; [|eauto].
    destruct (IH Hx) as [e' ->]. eauto.
Qed.

(** ** A record without a price *)

Section ZeroPrice.
Context {P : Platform}.

Lemma py_int_VInt (v b : value) : py_int v = Ok b → ∃ n, b = VInt n.
Proof.
  destruct v; cbn; try discriminate; try (intros [= <-]; eauto).
  unfold float_trunc. destruct (exact_float f); try discriminate.
  intros [= <-]. eauto.
Qed.

Lemma calc_future_bps_int (s : Stock) (future b : value) :
  calc_future_bps s future = Ok b → ∃ n, b = VInt n.
Proof.
  unfold calc_future_bps. intros H. apply bind_Ok in H as (c & _ & H).
  destruct c; cbn [negb] in H.
  - inv_bind H. eapply py_int_VInt, H.
  - injection H as <-. eauto.
Qed.

Lemma no_price (s : Stock) :
  s !! "current_price" = None ∨ s !! "current_price" = Some (VInt 0) →
  current_price s = VInt 0.
Proof. unfold current_price, get. now intros [-> | ->]. Qed.

Lemma expected_rate_no_price (s : Stock) :
  current_price s = VInt 0 →
  (∃ e, expected_rate s = Raise e)
  ∧ (∀ b, calc_future_bps s (VInt FUTURE) = Ok b → expected_rate s = Raise ZeroDivisionError).
Proof.
  intros H0.
  assert (∀ b, calc_future_bps s (VInt FUTURE) = Ok b →
               expected_rate s = Raise ZeroDivisionError) as Hdiv.
  { intros b Hb. destruct (calc_future_bps_int _ _ _ Hb) as [n ->].
    unfold expected_rate, calc_expected_rate. rewrite H0, Hb. reflexivity. }
  split; [|exact Hdiv].
  destruct (calc_future_bps s (VInt FUTURE)) as [b|e] eqn:Hb; [eauto|].
  exists e. unfold expected_rate, calc_expected_rate. now rewrite Hb.
Qed.

(** C10 (as amended). [current_price] is 0 when the field is absent, and
    [all_stocks] evaluates [expected_rate] on every record its query
    fetches. So a call whose query (the [find] argument, or the whole
    collection without one) fetches a record with [current_price] absent or
    0 raises and returns no list; the error is [ZeroDivisionError] when
    that record's projected book value computes and the records fetched
    before it pass the filter's test without an error. A record the query
    leaves out is not evaluated. *)
Theorem all_stocks_raises_on_fetched_zero_price (st : store) (order_by ordering : string)
    (find_ : option query) (filter_bad : bool) (d : Stock) :
  d ∈ find st find_ →
  d !! "current_price" = None ∨ d !! "current_price" = Some (VInt 0) →
  current_price d = VInt 0
  ∧ (∃ e, all_stocks st order_by ordering find_ filter_bad = Raise e)
  ∧ (∀ pre post b,
       find st find_ = pre ++ d :: post →
       Forall (λ x, ∃ c, filter_func filter_bad x = Ok c) pre →
       calc_future_bps d (VInt FUTURE) = Ok b →
       all_stocks st order_by ordering find_ filter_bad = Raise ZeroDivisionError).
Proof.
  intros Hin Hp. apply no_price in Hp.
  destruct (expected_rate_no_price d Hp) as [[e He] Hdiv].
  split; [exact Hp|]. split.
  - destruct (filterR_raises (filter_func filter_bad) _ d e Hin) as [e' He'].
    + unfold filter_func. now rewrite He.
    + exists e'. unfold all_stocks. now rewrite He'.
  - intros pre post b Hl Hpre Hb. unfold all_stocks. rewrite Hl.
    rewrite (filterR_raise_first _ pre post d ZeroDivisionError Hpre); [reflexivity|].
    unfold filter_func. now rewrite (Hdiv b Hb).
Qed.

End ZeroPrice.

(** ** The maintenance route *)

Section Fill.
Context {P : Platform}.

Lemma getattr_fill_snowball_stat (s : Stock) :
  getattr s "fill_snowball_stat" =
    match inherited_attr "fill_snowball_stat" s with
    | Some v => Ok v
    | None => Raise AttributeError
    end.
Proof. reflexivity. Qed.

(** C4 (what the code does). [/stocks/fill] calls [fill_snowball_stat] on
    the stocks of the default listing. Class [Stock] defines no such
    attribute (the snapshot operation is [save_record]); where its bases
    define none either, the route raises [AttributeError] at the first
    stock and redirects only when the listing is empty. No snapshot is
    taken: the store is not written. *)
Theorem stocks_fill_calls_a_missing_method (st : store) :
  (∀ s, inherited_attr "fill_snowball_stat" s = None) →
  (∀ s l, all_stocks st "title" "asc" None true = Ok (s :: l) →
     stocks_fill_snowball_stats st = Raise AttributeError)
  ∧ (all_stocks st "title" "asc" None true = Ok [] →
     stocks_fill_snowball_stats st = Ok (Redirect "stocks" None)).
Proof.
  intros Hbase. split.
  - intros s l Hl. unfold stocks_fill_snowball_stats. rewrite Hl.
    cbn [mbind result_bind mapR]. rewrite getattr_fill_snowball_stat, Hbase.
    reflexivity.
  - intros Hl. unfold stocks_fill_snowball_stats. now rewrite Hl.
Qed.

End Fill.

(** ** Saving a record *)

Lemma first_match_none_inv (f : Stock → bool) (l : list Stock) :
  first_match f l = None → Forall (λ x, f x = false) l.
Proof.
  induction l as [|x l IH]; cbn; [constructor|].
  destruct (f x) eqn:Hx; [discriminate|]. constructor; auto.
Qed.

Lemma update_first_here (f : Stock → bool) (g : Stock → Stock)
    (pre post : list Stock) (d : Stock) :
  Forall (λ x, f x = false) pre → f d = true →
  update_first f g (pre ++ d :: post) = pre ++ g d :: post.
Proof.
  induction 1 as [|x pre Hx _ IH]; intros Hd; cbn.
  - now rewrite Hd.
  - rewrite Hx. now rewrite IH.
Qed.

Lemma match_no_code (c : string) (l : list Stock) :
  Forall (λ d, code_is_scalar d = true) l →
  Forall (λ x, matches (QEq "code" (VStr c)) x = false) l →
  Forall (λ x, x !! "code" ≠ Some (VStr c)) l.
Proof.
  intros Hs Hn. induction Hs as [|d l Hd _ IH]; [constructor|].
  inversion Hn as [|? ? Hm Hn']; subst. constructor; [|auto].
  intros Hc. apply matches_code in Hc; [congruence | assumption].
Qed.

Lemma has_code_scalar (d : Stock) (c : string) :
  d !! "code" = Some (VStr c) → code_is_scalar d = true.
Proof. unfold code_is_scalar. now intros ->. Qed.

Lemma scalar_codes_intro (l : list Stock) (n : Z) :
  Forall (λ d, code_is_scalar d = true) l → scalar_codes (Store l n) = true.
Proof.
  unfold scalar_codes. cbn [docs]. induction 1 as [|d l Hd _ IH]; cbn; [reflexivity|].
  now rewrite Hd, IH.
Qed.

(** What a successful [save_stock] did to the store, for a string code. *)
Lemma save_stock_inv (st st' : store) (kind : mapping_kind) (stock r : Stock)
    (c : string) :
  scalar_codes st = true →
  stock !! "code" = Some (VStr c) →
  save_stock st kind stock = Ok (st', r) →
  (∃ pre d post,
      find_one st (QEq "code" (VStr c)) = Some d
      ∧ docs st = pre ++ d :: post
      ∧ Forall (λ x, x !! "code" ≠ Some (VStr c)) pre
      ∧ d !! "code" = Some (VStr c)
      ∧ docs st' = pre ++ (stock ∪ d) :: post
      ∧ r = stock ∪ d)
  ∨ (find_one st (QEq "code" (VStr c)) = None
     ∧ Forall (λ x, x !! "code" ≠ Some (VStr c)) (docs st)
     ∧ docs st' = docs st ++ [r]
     ∧ (r = stock ∨ (stock !! "_id" = None ∧ r = <["_id" := VOid (next_oid st)]> stock))).
Proof.
  intros Hs Hc H. apply scalar_codes_Forall in Hs.
  unfold save_stock, getitem in H. rewrite Hc in H. cbn [mbind result_bind] in H.
  destruct (find_one st (QEq "code" (VStr c))) as [d|] eqn:Hf.
  - left. pose proof Hf as Hf'. unfold find_one in Hf'.
    apply first_match_split in Hf' as (pre & post & Hl & Hpre & Hd).
    rewrite Hl in Hs. apply Forall_app in Hs as [Hs1 Hs2].
    inversion Hs2 as [|? ? Hsd Hs3]; subst.
    apply matches_code in Hd as Hdc; [|assumption].
    assert (d ≠ ∅) as Hne by (intros ->; rewrite lookup_empty in Hdc; discriminate).
    rewrite bool_decide_false in H by assumption.
    destruct (print_update kind stock) as [[]|]; [|discriminate H].
    cbn [mbind result_bind] in H.
    rewrite Hdc in H. cbn [mbind result_bind] in H.
    unfold update_one in H. destruct (check_document stock); [|discriminate].
    cbn [mbind result_bind] in H. rewrite Hf in H.
    assert (update_first (matches (QEq "code" (VStr c))) (λ d, stock ∪ d) (docs st)
            = pre ++ (stock ∪ d) :: post) as Hu
      by (rewrite Hl; now apply update_first_here).
    rewrite Hu in H.
    assert (stock_by_code (Store (pre ++ (stock ∪ d) :: post) (next_oid st)) (VStr c)
            = stock ∪ d) as Hr.
    { unfold stock_by_code, find_one. cbn [docs].
      rewrite first_match_here; [reflexivity|assumption|].
      apply matches_code.
      - eapply has_code_scalar, lookup_union_Some_l, Hc.
      - eapply lookup_union_Some_l, Hc. }
    exists pre, d, post.
    destruct (stock !! "_id") as [i|], (d !! "_id") as [j|];
      try destruct (bson_eqb j i); try discriminate;
      cbn [mbind result_bind] in H; injection H as <- <-; cbn [docs];
      rewrite Hr; repeat split; try assumption; now apply match_no_code.
  - right. pose proof Hf as Hf'. unfold find_one in Hf'.
    apply first_match_none_inv in Hf'.
    pose proof (match_no_code c _ Hs Hf') as Hn.
    unfold insert_one in H. destruct (check_document stock); [|discriminate].
    cbn [mbind result_bind] in H.
    assert (∀ d' n, d' !! "code" = Some (VStr c) →
              stock_by_code (Store (docs st ++ [d']) n) (VStr c) = d') as Hr.
    { intros d' n Hd'. unfold stock_by_code, find_one. cbn [docs].
      rewrite first_match_here; [reflexivity|assumption|].
      apply matches_code; [eapply has_code_scalar|]; eassumption. }
    destruct (stock !! "_id") as [i|] eqn:Hi.
    + destruct (existsb _ _); [discriminate|]. cbn [mbind result_bind] in H.
      injection H as <- <-. cbn [docs]. rewrite Hr by assumption.
      repeat split; auto.
    + cbn [mbind result_bind] in H. injection H as <- <-. cbn [docs].
      rewrite Hr by (rewrite lookup_insert_ne; [assumption | discriminate]).
      repeat split; auto.
Qed.

Lemma save_stock_scalar (st st' : store) (kind : mapping_kind) (stock r : Stock)
    (c : string) :
  scalar_codes st = true →
  stock !! "code" = Some (VStr c) →
  save_stock st kind stock = Ok (st', r) →
  scalar_codes st' = true ∧ r = stock_by_code st' (VStr c) ∧ r !! "code" = Some (VStr c).
Proof.
  intros Hs Hc H. pose proof H as H'.
  unfold save_stock, getitem in H'. rewrite Hc in H'. cbn [mbind result_bind] in H'.
  apply bind_Ok in H' as (st2 & _ & H'). injection H' as <- <-.
  destruct (save_stock_inv _ _ _ _ _ _ Hs Hc H) as
    [(pre & d & post & _ & Hl & Hpre & Hd & Hl' & Hr) | (_ & Hn & Hl' & Hr)];
    apply scalar_codes_Forall in Hs.
  - assert ((stock ∪ d) !! "code" = Some (VStr c)) as Hu
      by (eapply lookup_union_Some_l, Hc).
    rewrite Hr. repeat split; [|assumption].
    destruct st2 as [l2 n2]. cbn [docs] in *.
    apply scalar_codes_intro. rewrite Hl', Hl in *.
    apply Forall_app in Hs as [Hs1 Hs2]. inversion Hs2; subst.
    apply Forall_app. split; [assumption|]. constructor; [|assumption].
    eapply has_code_scalar, Hu.
  - assert (stock_by_code st2 (VStr c) !! "code" = Some (VStr c)) as Hu.
    { destruct Hr as [-> | [_ ->]]; [assumption|].
      rewrite lookup_insert_ne; [assumption | discriminate]. }
    repeat split; [|assumption].
    destruct st2 as [l2 n2]. cbn [docs] in *.
    apply scalar_codes_intro. rewrite Hl'. apply Forall_app. split; [assumption|].
    constructor; [|constructor]. eapply has_code_scalar, Hu.
Qed.

Lemma save_stock_lookup (st st' : store) (kind : mapping_kind) (stock r : Stock)
    (c k : string) (v : value) :
  scalar_codes st = true →
  stock !! "code" = Some (VStr c) →
  save_stock st kind stock = Ok (st', r) →
  stock !! k = Some v → r !! k = Some v.
Proof.
  intros Hs Hc H Hk.
  destruct (save_stock_inv _ _ _ _ _ _ Hs Hc H) as
    [(pre & d & post & _ & _ & _ & _ & _ & ->) | (_ & _ & _ & [-> | [Hid ->]])].
  - eapply lookup_union_Some_l, Hk.
  - assumption.
  - rewrite lookup_insert_ne; [assumption | congruence].
Qed.

(** Printing the argument returns: it is a plain [dict], or a [Stock] with a
    title (and the code that [save_stock] has read before). *)
Lemma print_update_returns (kind : mapping_kind) (stock : Stock) (c : string) :
  stock !! "code" = Some (VStr c) →
  kind = PlainDict ∨ is_Some (stock !! "title") →
  print_update kind stock = Ok ().
Proof.
  intros Hc [-> | [t Ht]]; [reflexivity|].
  destruct kind; [reflexivity|]. unfold print_update, __str__, getitem.
  now rewrite Ht, Hc.
Qed.

Lemma save_stock_succeeds (st : store) (kind : mapping_kind) (stock : Stock) (c : string) :
  stock !! "code" = Some (VStr c) →
  check_document stock = Ok () →
  stock !! "_id" = None →
  kind = PlainDict ∨ is_Some (stock !! "title")
  ∨ find_one st (QEq "code" (VStr c)) = None →
  ∃ st' r, save_stock st kind stock = Ok (st', r).
Proof.
  intros Hc Hchk Hid Hprint. unfold save_stock, getitem. rewrite Hc. cbn [mbind result_bind].
  assert (∃ st', insert_one st stock = Ok st') as [sti Hins]
    by (unfold insert_one; rewrite Hchk, Hid; cbn; eauto).
  destruct (find_one st (QEq "code" (VStr c))) as [d|] eqn:Hf.
  - destruct (bool_decide (d = ∅)); [rewrite Hins; cbn; eauto|].
    rewrite (print_update_returns kind stock c Hc)
      by (destruct Hprint as [? | [? | ?]]; [auto | auto | discriminate]).
    cbn [mbind result_bind].
    unfold find_one in Hf. apply first_match_split in Hf as (_ & _ & _ & _ & Hd).
    cbn [matches] in Hd. unfold field_matches in Hd.
    destruct (d !! "code") as [ecode|]; [|discriminate]. cbn [mbind result_bind].
    unfold update_one. rewrite Hchk, Hid. cbn [mbind result_bind].
    destruct (find_one st (QEq "code" ecode)); cbn; eauto.
  - rewrite Hins. cbn. eauto.
Qed.

(** A [Stock] without a title cannot be printed: the update of an existing
    record fails before anything is written. *)
Lemma save_stock_untitled (st : store) (stock d : Stock) (c : string) :
  stock !! "code" = Some (VStr c) →
  stock !! "title" = None →
  find_one st (QEq "code" (VStr c)) = Some d →
  save_stock st StockInstance stock = Raise KeyError.
Proof.
  intros Hc Ht Hf. unfold save_stock, getitem. rewrite Hc. cbn [mbind result_bind].
  rewrite Hf.
  assert (d ≠ ∅) as Hne.
  { intros ->. unfold find_one in Hf.
    apply first_match_split in Hf as (_ & _ & _ & _ & Hd).
    cbn [matches] in Hd. now rewrite lookup_empty in Hd. }
  rewrite bool_decide_false by assumption.
  unfold print_update, __str__, getitem. now rewrite Ht.
Qed.

(** C6. [save_stock] on fields that include a string [code], over a store
    whose codes are not arrays. The call returns when the fields are
    encodable and carry no [_id], and they come as a plain [dict], or as a
    [Stock] with a title, or no record has the code; a [Stock] without a
    title over an existing record fails ([KeyError]) where the update is
    printed, before any write. Whenever the call returns, its result is the
    record reloaded by code from the store after the write; and either a
    record with that code existed, the first such record took the given
    fields and kept every field the input does not hold, and no other
    record changed; or none existed and the result was added as a new
    record, holding the given fields (and the [_id] the store assigned). *)
Theorem save_stock_upsert (st : store) (kind : mapping_kind) (stock : Stock) (c : string) :
  scalar_codes st = true →
  stock !! "code" = Some (VStr c) →
  (check_document stock = Ok () → stock !! "_id" = None →
     kind = PlainDict ∨ is_Some (stock !! "title")
     ∨ find_one st (QEq "code" (VStr c)) = None →
     ∃ st' r, save_stock st kind stock = Ok (st', r))
  ∧ (∀ d, kind = StockInstance → stock !! "title" = None →
       find_one st (QEq "code" (VStr c)) = Some d →
       save_stock st kind stock = Raise KeyError)
  ∧ (∀ st' r, save_stock st kind stock = Ok (st', r) →
       r = stock_by_code st' (VStr c)
       ∧ ((∃ pre d post,
             docs st = pre ++ d :: post
             ∧ Forall (λ x, x !! "code" ≠ Some (VStr c)) pre
             ∧ d !! "code" = Some (VStr c)
             ∧ docs st' = pre ++ r :: post
             ∧ (∀ k v, stock !! k = Some v → r !! k = Some v)
             ∧ (∀ k, stock !! k = None → r !! k = d !! k))
          ∨ (Forall (λ x, x !! "code" ≠ Some (VStr c)) (docs st)
             ∧ docs st' = docs st ++ [r]
             ∧ (∀ k, k ≠ "_id" → r !! k = stock !! k)))).
Proof.
  intros Hs Hc. split; [intros; eapply save_stock_succeeds; eassumption|].
  split; [intros d -> Ht Hf; eapply save_stock_untitled; eassumption|].
  intros st' r H. split; [eapply save_stock_scalar; eassumption|].
  destruct (save_stock_inv _ _ _ _ _ _ Hs Hc H) as
    [(pre & d & post & _ & Hl & Hpre & Hd & Hl' & Hr) | (_ & Hn & Hl' & Hr)].
  - left. exists pre, d, post. subst r. repeat split; try assumption.
    + intros k v Hk. eapply lookup_union_Some_l, Hk.
    + intros k Hk. now apply lookup_union_r.
  - right. repeat split; try assumption.
    intros k Hk. destruct Hr as [-> | [_ ->]]; [reflexivity|].
    now apply lookup_insert_ne.
Qed.

(** ** The flag toggle *)

Lemma union_absorb (s d : Stock) :
  (∀ k, s !! k = None → d !! k = None) → s ∪ d = s.
Proof.
  intros H. apply map_eq. intros k.
  destruct (s !! k) as [v|] eqn:E.
  - eapply lookup_union_Some_l, E.
  - apply lookup_union_None_2; auto.
Qed.

Lemma find_one_code (st : store) (c : string) (d : Stock) :
  scalar_codes st = true →
  find_one st (QEq "code" (VStr c)) = Some d → d !! "code" = Some (VStr c).
Proof.
  intros Hs Hf. apply scalar_codes_Forall in Hs. unfold find_one in Hf.
  apply first_match_split in Hf as (pre & post & Hl & _ & Hd).
  rewrite Hl in Hs. apply Forall_app in Hs as [_ Hs]. inversion Hs; subst.
  now apply matches_code.
Qed.

(** What the route writes into the loaded record before saving it. *)
Lemma toggled_fields (d : Stock) (status : string) (b : bool) :
  let s1 := <[status := VBool b]> d in
  let s2 := if String.eqb status "owned" && b then <["starred" := VBool false]> s1
            else if String.eqb status "starred" && b then <["owned" := VBool false]> s1
            else s1 in
  s2 !! status = Some (VBool b)
  ∧ (status = "owned" → b = true → s2 !! "starred" = Some (VBool false))
  ∧ (status = "starred" → b = true → s2 !! "owned" = Some (VBool false))
  ∧ (status = "owned" ∨ status = "starred" → both_on s2 = false)
  ∧ (∀ k, k ≠ status → k ≠ "owned" → k ≠ "starred" → s2 !! k = d !! k)
  ∧ (status ≠ "owned" → status ≠ "starred" → ∀ k, k ≠ status → s2 !! k = d !! k)
  ∧ (∀ k, s2 !! k = None → d !! k = None).
Proof.
  intros s1 s2. subst s1 s2.
  destruct (String.eqb_spec status "owned") as [->|Ho];
    [change (String.eqb "owned" "starred") with false
    |destruct (String.eqb_spec status "starred") as [->|Hs]];
    destruct b; cbn [andb];
    repeat split; intros;
    repeat match goal with
      | H : _ ∨ _ |- _ => destruct H
      | H : ?x = ?x → _ |- _ => specialize (H eq_refl)
      end;
    try congruence; try discriminate;
    unfold both_on, flag_on, get;
    repeat first
      [ rewrite lookup_insert_eq
      | rewrite lookup_insert_ne by congruence ];
    try reflexivity; try (cbn; now rewrite ?andb_false_r);
    repeat match goal with
      | H : <[_ := _]> _ !! _ = None |- _ => apply lookup_insert_None in H as [H ?]
      end; try assumption.
Qed.

(** A toggle keeps the two flags from being both true. *)
Lemma toggled_exclusive (d s2 : Stock) (status : string) :
  (status = "owned" ∨ status = "starred" → both_on s2 = false) →
  (status ≠ "owned" → status ≠ "starred" → ∀ k, k ≠ status → s2 !! k = d !! k) →
  both_on d = false → both_on s2 = false.
Proof.
  intros Hboth Hother Hd.
  destruct (String.eqb_spec status "owned") as [->|Ho]; [now apply Hboth; left|].
  destruct (String.eqb_spec status "starred") as [->|Hs']; [now apply Hboth; right|].
  unfold both_on, flag_on, get in *.
  rewrite !Hother by congruence. exact Hd.
Qed.

(** C7. For a record found by its code, and a flag name other than [code]
    itself: when the route returns, it redirects to the detail page, and
    the stored record has the field named by [status] set to true iff [on]
    is ["on"], and otherwise to false; setting [owned] to true sets
    [starred] to false, and setting [starred] to true sets [owned] to false;
    so after a toggle of [owned] or of [starred] the two are not both true,
    and no toggle of any field makes them both true when they were not: the
    route keeps the two flags exclusive. A toggle of any other field leaves
    every other field, [owned] and [starred] among them, as it was. *)
Theorem stock_status_toggle (st st' : store) (code status on : string)
    (resp : response) (d : Stock) :
  scalar_codes st = true →
  find_one st (QEq "code" (VStr code)) = Some d →
  status ≠ "code" →
  stock_status st code status on = Ok (st', resp) →
  resp = Redirect "stock" (Some code)
  ∧ stock_by_code st' (VStr code) !! status = Some (VBool (String.eqb on "on"))
  ∧ (status = "owned" → on = "on" →
       stock_by_code st' (VStr code) !! "starred" = Some (VBool false))
  ∧ (status = "starred" → on = "on" →
       stock_by_code st' (VStr code) !! "owned" = Some (VBool false))
  ∧ (status = "owned" ∨ status = "starred" → both_on (stock_by_code st' (VStr code)) = false)
  ∧ (∀ k, k ≠ status → k ≠ "owned" → k ≠ "starred" →
       stock_by_code st' (VStr code) !! k = d !! k)
  ∧ (status ≠ "owned" → status ≠ "starred" →
       ∀ k, k ≠ status → stock_by_code st' (VStr code) !! k = d !! k)
  ∧ (both_on d = false → both_on (stock_by_code st' (VStr code)) = false).
Proof.
  intros Hs Hf Hst H.
  pose proof (find_one_code _ _ _ Hs Hf) as Hcode.
  unfold stock_status in H. cbv zeta in H. unfold stock_by_code in H. rewrite Hf in H.
  unfold getitem in H. rewrite lookup_insert_eq in H. cbn [mbind result_bind truthy] in H.
  apply bind_Ok in H as ([st2 r] & Hsave & H). cbn [fst] in H. injection H as <- <-.
  destruct (toggled_fields d status (String.eqb on "on"))
    as (Hflag & Hown & Hstar & Hboth & Hframe & Hother & Habs).
  cbv zeta in *.
  set (s2 := if String.eqb status "owned" && String.eqb on "on"
             then <["starred" := VBool false]> (<[status := VBool (String.eqb on "on")]> d)
             else if String.eqb status "starred" && String.eqb on "on"
             then <["owned" := VBool false]> (<[status := VBool (String.eqb on "on")]> d)
             else <[status := VBool (String.eqb on "on")]> d) in *.
  assert (s2 !! "code" = Some (VStr code)) as Hc2.
  { destruct (String.eqb_spec status "owned") as [->|Ho];
      [|destruct (String.eqb_spec status "starred") as [->|Hs']].
    - rewrite Hframe; [assumption | discriminate ..].
    - rewrite Hframe; [assumption | discriminate ..].
    - rewrite Hother; [assumption ..| congruence]. }
  destruct (save_stock_scalar _ _ _ _ _ _ Hs Hc2 Hsave) as (_ & Hr & _).
  destruct (save_stock_inv _ _ _ _ _ _ Hs Hc2 Hsave) as
    [(pre & d0 & post & Hf0 & _ & _ & _ & _ & Hr0) | (Hnone & _)];
    [|congruence].
  rewrite Hf in Hf0. injection Hf0 as <-.
  rewrite (union_absorb _ _ Habs) in Hr0. rewrite <- Hr, Hr0.
  split; [reflexivity|]. split; [assumption|].
  split; [intros ? ->; now apply Hown|].
  split; [intros ? ->; now apply Hstar|].
  split; [assumption|]. split; [assumption|]. split; [assumption|].
  now apply (toggled_exclusive d s2 status).
Qed.

(** ** The daily snapshot *)

Lemma lex_compare_refl (l : list Z) : lex_compare l l = Eq.
Proof. induction l as [|x l IH]; cbn; [reflexivity|]. now rewrite Z.compare_refl. Qed.

Lemma dated_today (today : datetime) (rest : list (string * value)) :
  dated today (VDict (("date", VDate today) :: rest)) = true.
Proof. cbn -[lex_compare datetime_fields]. now rewrite lex_compare_refl. Qed.

Lemma same_day_dated (l : list value) (today : datetime) (b : bool) :
  (if 0 <? Z.of_nat (length l)
   then d ← last_date (VList l); py_eq d (VDate today)
   else Ok false) = Ok b →
  b = match last l with Some e => dated today e | None => false end.
Proof.
  destruct l as [|x l]; [cbn; intros [= <-]; reflexivity|].
  replace (0 <? Z.of_nat (length (x :: l))) with true
    by (symmetry; apply Z.ltb_lt; cbn [length]; lia).
  unfold last_date. destruct (last (x :: l)) as [e|]; [|discriminate].
  destruct e; try discriminate. cbn [dated].
  destruct (assoc "date" kvs) as [d|]; [|discriminate].
  cbn [mbind result_bind]. intros ->. now destruct b.
Qed.

Lemma filter_none {A} (f : A → bool) (l : list A) :
  Forall (λ e, f e = false) l → filter (λ e, f e = true) l = [].
Proof.
  induction 1 as [|x l Hx _ IH]; [reflexivity|].
  rewrite filter_cons_False; [assumption | congruence].
Qed.

Section Snapshot.
Context {P : Platform}.

Lemma snapshot_dated (self : Stock) (today : datetime) (snap : value) :
  snapshot self (VDate today) = Ok snap → dated today snap = true.
Proof.
  unfold snapshot. intros H. inv_bind H. injection H as <-. apply dated_today.
Qed.

(** What a successful [save_record] on a flagged record persisted. *)
Lemma save_record_inv (self s' : Stock) (st st' : store) (now : datetime) (c : string) :
  scalar_codes st = true →
  self !! "code" = Some (VStr c) →
  flag_on self "starred" || flag_on self "owned" = true →
  save_record self st now = Ok (s', st') →
  ∃ snap l,
    snapshot self (VDate (midnight now)) = Ok snap
    ∧ get self "records" (VList []) = VList l
    ∧ stock_by_code st' (VStr c) !! "records" =
        Some (VList ((if match last l with
                         | Some e => dated (midnight now) e
                         | None => false
                         end
                      then removelast l else l) ++ [snap]))
    ∧ s' = match self !! "records" with
           | Some _ =>
               <["records" := VList ((if match last l with
                                         | Some e => dated (midnight now) e
                                         | None => false
                                         end
                                      then removelast l else l) ++ [snap])]> self
           | None => self
           end
    ∧ scalar_codes st' = true.
Proof.
  intros Hs Hc Hflag H. unfold save_record in H.
  fold (flag_on self "starred") (flag_on self "owned") in H.
  replace (negb (flag_on self "starred") && negb (flag_on self "owned")) with false in H
    by (destruct (flag_on self "starred"), (flag_on self "owned"); cbn in *; congruence).
  apply bind_Ok in H as (snap & Hsnap & H).
  apply bind_Ok in H as (n & Hn & H).
  apply bind_Ok in H as (b & Hb & H).
  apply bind_Ok in H as (records' & Hrec & H).
  apply bind_Ok in H as ([st2 r] & Hsave & H). cbn [fst] in H. injection H as <- <-.
  exists snap.
  destruct (get self "records" (VList [])) as [| | | | | s | | | l | kvs | | |] eqn:Hget;
    try discriminate Hn.
  - (* a string *)
    cbn in Hn. injection Hn as <-.
    destruct (0 <? _); [discriminate Hb|].
    injection Hb as <-. discriminate Hrec.
  - (* a list *)
    exists l. cbn in Hn. injection Hn as <-.
    apply same_day_dated in Hb. rewrite <- Hb.
    assert (records' = VList ((if b then removelast l else l) ++ [snap])) as ->
      by (destruct b; cbn in Hrec; congruence).
    assert ((<["code" := get self "code" VNone]>
               (<["records" := VList ((if b then removelast l else l) ++ [snap])]> ∅) : Stock)
            !! "code" = Some (VStr c)) as Hc2
      by (rewrite lookup_insert_eq; unfold get; now rewrite Hc).
    destruct (save_stock_scalar _ _ _ _ _ _ Hs Hc2 Hsave) as (Hs2 & Hr & _).
    repeat split; try assumption; try reflexivity.
    rewrite <- Hr. eapply save_stock_lookup; [exact Hs | exact Hc2 | exact Hsave |].
    rewrite lookup_insert_ne by discriminate. apply lookup_insert_eq.
  - (* a dict *)
    cbn in Hn. injection Hn as <-.
    destruct (0 <? _); [discriminate Hb|].
    injection Hb as <-. discriminate Hrec.
Qed.

(** Two calls on one day: the second snapshot takes the place of the
    first. *)
Lemma save_record_twice (self self2 s1 s2 : Stock) (st st1 st2 : store)
    (now1 now2 : datetime) (c : string) :
  scalar_codes st = true →
  self !! "code" = Some (VStr c) → self2 !! "code" = Some (VStr c) →
  flag_on self "starred" || flag_on self "owned" = true →
  flag_on self2 "starred" || flag_on self2 "owned" = true →
  midnight now1 = midnight now2 →
  (∀ l, self !! "records" = Some (VList l) →
     Forall (λ e, dated (midnight now1) e = false) (removelast l)) →
  save_record self st now1 = Ok (s1, st1) →
  self2 = s1 ∨ self2 !! "records" = stock_by_code st1 (VStr c) !! "records" →
  save_record self2 st1 now2 = Ok (s2, st2) →
  ∃ older snap1 snap2,
    snapshot self (VDate (midnight now1)) = Ok snap1
    ∧ snapshot self2 (VDate (midnight now1)) = Ok snap2
    ∧ stock_by_code st1 (VStr c) !! "records" = Some (VList (older ++ [snap1]))
    ∧ stock_by_code st2 (VStr c) !! "records" = Some (VList (older ++ [snap2]))
    ∧ Forall (λ e, dated (midnight now1) e = false) older
    ∧ dated (midnight now1) snap2 = true
    ∧ length (filter (λ e, dated (midnight now1) e = true) (older ++ [snap2])) = 1%nat.
Proof.
  intros Hs Hc Hc2 Hf Hf2 Hday Hpre H1 Hinst H2.
  destruct (save_record_inv _ _ _ _ _ _ Hs Hc Hf H1)
    as (snap1 & l & Hsnap1 & Hl & Hst1 & Hs1 & Hscal1).
  destruct (save_record_inv _ _ _ _ _ _ Hscal1 Hc2 Hf2 H2)
    as (snap2 & l2 & Hsnap2 & Hl2 & Hst2 & _ & _).
  rewrite <- Hday in *.
  set (today := midnight now1) in *.
  set (older := if match last l with Some e => dated today e | None => false end
                then removelast l else l) in *.
  assert (Forall (λ e, dated today e = false) older) as Hold.
  { subst older. unfold get in Hl.
    destruct (self !! "records") as [v|] eqn:Hrec.
    - subst v. specialize (Hpre l eq_refl).
      destruct (last l) as [e|] eqn:Hlast;
        [|apply last_None in Hlast; subst l; constructor].
      destruct (dated today e) eqn:He; [assumption|].
      apply last_Some in Hlast as [l' ->]. rewrite removelast_last in Hpre.
      apply Forall_app. split; [assumption|]. now constructor.
    - injection Hl as <-. constructor. }
  assert (dated today snap1 = true) as Hd1 by (eapply snapshot_dated, Hsnap1).
  assert (dated today snap2 = true) as Hd2 by (eapply snapshot_dated, Hsnap2).
  assert ((if match last l2 with Some e => dated today e | None => false end
           then removelast l2 else l2) = older) as Hold2.
  { assert (self2 !! "records" = Some (VList (older ++ [snap1]))
            ∨ (self2 !! "records" = None ∧ l = [])) as [Hr | [Hr Hnil]].
    { destruct Hinst as [-> | Hr]; [|left; now rewrite Hr].
      rewrite Hs1. unfold get in Hl.
      destruct (self !! "records") as [v|] eqn:Hrec.
      - left. apply lookup_insert_eq.
      - right. split; [assumption|]. now injection Hl as <-. }
    - unfold get in Hl2. rewrite Hr in Hl2. injection Hl2 as <-.
      rewrite last_snoc, Hd1. apply removelast_last.
    - unfold get in Hl2. rewrite Hr in Hl2. injection Hl2 as <-.
      subst older. now rewrite Hnil. }
  rewrite Hold2 in Hst2.
  exists older, snap1, snap2. repeat split; try assumption.
  rewrite filter_app, (filter_none _ _ Hold), filter_cons_True by assumption.
  reflexivity.
Qed.

(** The snapshot that [save_record] builds is the entry of the
    specification, filled from the record. *)
Lemma snapshot_fields (self : Stock) (today : datetime) (snap : value) :
  snapshot self (VDate today) = Ok snap →
  ∃ froe rate,
    future_roe self = Ok froe ∧ expected_rate self = Ok rate
    ∧ snap = day_entry today self froe rate.
Proof.
  unfold snapshot. intros H.
  apply bind_Ok in H as (froe & Hfroe & H). apply bind_Ok in H as (rate & Hrate & H).
  injection H as <-. exists froe, rate. repeat split; assumption.
Qed.

(** C8. Two calls of [save_record] on the same calendar day for a record
    flagged starred or owned, the second on the same instance or on one
    that holds the records as the first call stored them (a fresh load);
    before the first call no entry of [records] other than the last is
    dated that day. When both calls return, the stored [records] end with
    one entry of that day: after the first call it holds the date, buy 0,
    sell 0 and the book value, current price, future ROE, ROE, PBR and
    expected rate of the record as the first call saw it; after the second
    call the entry at the same place, after the same older entries, holds
    those of the record as the second call saw it. None of the older
    entries is dated that day, so exactly one entry is. *)
Theorem save_record_twice_same_day (self self2 s1 s2 : Stock) (st st1 st2 : store)
    (now1 now2 : datetime) (c : string) :
  scalar_codes st = true →
  self !! "code" = Some (VStr c) → self2 !! "code" = Some (VStr c) →
  flag_on self "starred" || flag_on self "owned" = true →
  flag_on self2 "starred" || flag_on self2 "owned" = true →
  midnight now1 = midnight now2 →
  (∀ l, self !! "records" = Some (VList l) →
     Forall (λ e, dated (midnight now1) e = false) (removelast l)) →
  save_record self st now1 = Ok (s1, st1) →
  self2 = s1 ∨ self2 !! "records" = stock_by_code st1 (VStr c) !! "records" →
  save_record self2 st1 now2 = Ok (s2, st2) →
  ∃ older froe1 rate1 froe2 rate2,
    future_roe self = Ok froe1 ∧ expected_rate self = Ok rate1
    ∧ future_roe self2 = Ok froe2 ∧ expected_rate self2 = Ok rate2
    ∧ stock_by_code st1 (VStr c) !! "records"
      = Some (VList (older ++ [day_entry (midnight now1) self froe1 rate1]))
    ∧ stock_by_code st2 (VStr c) !! "records"
      = Some (VList (older ++ [day_entry (midnight now1) self2 froe2 rate2]))
    ∧ Forall (λ e, dated (midnight now1) e = false) older
    ∧ length (filter (λ e, dated (midnight now1) e = true)
                (older ++ [day_entry (midnight now1) self2 froe2 rate2])) = 1%nat.
Proof.
  intros Hs Hc Hc2 Hf Hf2 Hday Hpre H1 Hinst H2.
  destruct (save_record_twice _ _ _ _ _ _ _ _ _ _ Hs Hc Hc2 Hf Hf2 Hday Hpre H1 Hinst H2)
    as (older & snap1 & snap2 & Hsnap1 & Hsnap2 & Hst1 & Hst2 & Hold & _ & Hone).
  apply snapshot_fields in Hsnap1 as (froe1 & rate1 & Hfroe1 & Hrate1 & ->).
  apply snapshot_fields in Hsnap2 as (froe2 & rate2 & Hfroe2 & Hrate2 & ->).
  exists older, froe1, rate1, froe2, rate2. repeat split; assumption.
Qed.

End Snapshot.

(** ** Sorting *)

Lemma xcompare_antisym (a b : xnum) : xcompare b a = option_map CompOpp (xcompare a b).
Proof.
  destruct a as [|[]|m e], b as [|[]|n f]; try reflexivity.
  cbn. rewrite (Z.min_comm f e). now rewrite (Z.compare_antisym (m * _)).
Qed.

Lemma lex_compare_antisym (a b : list Z) : lex_compare b a = CompOpp (lex_compare a b).
Proof.
  revert b. induction a as [|x a IH]; intros [|y b]; try reflexivity.
  cbn. rewrite (Z.compare_antisym x y). destruct (x ?= y); cbn; auto.
Qed.

Lemma order_cmp_antisym (a b : value) :
  order_cmp b a = match order_cmp a b with
                  | Ok c => Ok (option_map CompOpp c)
                  | Raise e => Raise e
                  end.
Proof.
  destruct a as [| ? | ? | ? | | ? | ? | ? | la | ? | ? | la | la],
    b as [| ? | ? | ? | | ? | ? | ? | lb | ? | ? | lb | lb];
    try destruct la; try destruct lb;
    cbn -[xcompare String.compare lex_compare datetime_fields];
    try reflexivity;
    try (rewrite xcompare_antisym; reflexivity).
  - now rewrite String.compare_antisym.
  - now rewrite lex_compare_antisym.
  - now rewrite Z.compare_antisym.
Qed.

Lemma py_lt_asym (a b : value) : py_lt a b = Ok true → py_lt b a = Ok false.
Proof.
  unfold py_lt. rewrite (order_cmp_antisym a b).
  destruct (order_cmp a b) as [[[]|]|]; cbn; congruence.
Qed.

(** *** The order of the keys is transitive *)

Lemma order_cmp_okey (a b : value) (c : option comparison) :
  order_cmp a b = Ok c ↔
  ∃ ka kb, okey_of a = Some ka ∧ okey_of b = Some kb ∧ okey_cmp ka kb = Some c.
Proof.
  split.
  - destruct a as [| ? | ? | ? | | ? | ? | ? | la | ? | ? | la | la],
      b as [| ? | ? | ? | | ? | ? | ? | lb | ? | ? | lb | lb];
      try destruct la; try destruct lb;
      cbn -[xcompare String.compare lex_compare datetime_fields];
      try discriminate; intros [= <-]; eauto.
  - intros (ka & kb & Ha & Hb & Hc).
    destruct a as [| ? | ? | ? | | ? | ? | ? | la | ? | ? | la | la],
      b as [| ? | ? | ? | | ? | ? | ? | lb | ? | ? | lb | lb];
      try destruct la; try destruct lb;
      cbn -[xcompare String.compare lex_compare datetime_fields] in *;
      try discriminate; injection Ha as <-; injection Hb as <-;
      cbn -[xcompare String.compare lex_compare datetime_fields] in Hc;
      try discriminate; now injection Hc as <-.
Qed.

Lemma mul_compare_r (n m p : Z) : 0 < p → (n * p ?= m * p) = (n ?= m).
Proof.
  intros Hp. destruct (Z.compare_spec n m).
  - subst. apply Z.compare_refl.
  - apply Z.compare_lt_iff. nia.
  - apply Z.compare_gt_iff. nia.
Qed.

Lemma scaled_compare (m1 e1 m2 e2 E : Z) :
  E ≤ Z.min e1 e2 →
  (m1 * 2 ^ (e1 - Z.min e1 e2) ?= m2 * 2 ^ (e2 - Z.min e1 e2))
  = (m1 * 2 ^ (e1 - E) ?= m2 * 2 ^ (e2 - E)).
Proof.
  intros HE. set (e := Z.min e1 e2) in *.
  assert (e ≤ e1 ∧ e ≤ e2) as [H1 H2] by (subst e; lia).
  replace (e1 - E) with ((e1 - e) + (e - E)) by lia.
  replace (e2 - E) with ((e2 - e) + (e - E)) by lia.
  rewrite !Z.pow_add_r by lia. rewrite !Z.mul_assoc.
  symmetry. apply mul_compare_r. apply Z.pow_pos_nonneg; lia.
Qed.

Lemma xfin_le (m1 e1 m2 e2 E : Z) :
  E ≤ e1 → E ≤ e2 →
  xcompare (XFin m1 e1) (XFin m2 e2) = Some (m1 * 2 ^ (e1 - E) ?= m2 * 2 ^ (e2 - E)).
Proof. intros H1 H2. cbn. f_equal. apply scaled_compare. lia. Qed.

(** [a <= b] on exact numbers: [b] is not smaller than [a], no NaN
    involved. *)
Definition not_lt (c : option comparison) : Prop := c = Some Eq ∨ c = Some Gt.

Lemma xcompare_trans (a b c : xnum) :
  not_lt (xcompare b a) → not_lt (xcompare c b) → not_lt (xcompare c a).
Proof.
  unfold not_lt.
  destruct a as [|[]|m1 e1], b as [|[]|m2 e2], c as [|[]|m3 e3];
    cbn -[Z.mul Z.pow Z.min Z.sub];
    try (intros [?|?] [?|?]; (discriminate || (left; reflexivity) || (right; reflexivity)));
    try tauto.
  set (E := Z.min e1 (Z.min e2 e3)).
  change (not_lt (xcompare (XFin m2 e2) (XFin m1 e1)) →
          not_lt (xcompare (XFin m3 e3) (XFin m2 e2)) →
          not_lt (xcompare (XFin m3 e3) (XFin m1 e1))).
  rewrite (xfin_le m2 e2 m1 e1 E), (xfin_le m3 e3 m2 e2 E), (xfin_le m3 e3 m1 e1 E)
    by (subst E; lia).
  unfold not_lt. intros H1 H2.
  assert (m1 * 2 ^ (e1 - E) ≤ m2 * 2 ^ (e2 - E)) as L1.
  { destruct H1 as [H1|H1]; injection H1 as H1;
      [apply Z.compare_eq in H1 | apply Z.compare_gt_iff in H1]; lia. }
  assert (m2 * 2 ^ (e2 - E) ≤ m3 * 2 ^ (e3 - E)) as L2.
  { destruct H2 as [H2|H2]; injection H2 as H2;
      [apply Z.compare_eq in H2 | apply Z.compare_gt_iff in H2]; lia. }
  destruct (Z.compare_spec (m3 * 2 ^ (e3 - E)) (m1 * 2 ^ (e1 - E))); auto. lia.
Qed.

Lemma ascii_compare_lt_trans (a b c : ascii) :
  Ascii.compare a b = Lt → Ascii.compare b c = Lt → Ascii.compare a c = Lt.
Proof. unfold Ascii.compare. rewrite !N.compare_lt_iff. lia. Qed.

Lemma string_compare_lt_trans (a b c : string) :
  String.compare a b = Lt → String.compare b c = Lt → String.compare a c = Lt.
Proof.
  revert b c. induction a as [|x a IH]; intros [|y b] [|z c]; cbn; try congruence.
  destruct (Ascii.compare x y) eqn:Hxy, (Ascii.compare y z) eqn:Hyz; try congruence.
  - apply Ascii.compare_eq_iff in Hxy, Hyz. subst.
    replace (Ascii.compare z z) with Eq
      by (symmetry; unfold Ascii.compare; apply N.compare_refl).
    apply IH.
  - apply Ascii.compare_eq_iff in Hxy. subst. now rewrite Hyz.
  - apply Ascii.compare_eq_iff in Hyz. subst. now rewrite Hxy.
  - now rewrite (ascii_compare_lt_trans _ _ _ Hxy Hyz).
Qed.

Lemma lex_compare_eq (a b : list Z) : lex_compare a b = Eq → a = b.
Proof.
  revert b. induction a as [|x a IH]; intros [|y b]; cbn; try congruence.
  destruct (Z.compare_spec x y) as [Hxy|Hxy|Hxy]; try discriminate.
  intros Hl. subst. f_equal. auto.
Qed.

Lemma lex_compare_lt_trans (a b c : list Z) :
  lex_compare a b = Lt → lex_compare b c = Lt → lex_compare a c = Lt.
Proof.
  revert b c. induction a as [|x a IH]; intros [|y b] [|z c]; cbn; try congruence.
  destruct (Z.compare_spec x y), (Z.compare_spec y z); try congruence; subst.
  - rewrite Z.compare_refl. apply IH.
  - intros _ _. replace (y ?= z) with Lt by (symmetry; now apply Z.compare_lt_iff).
    reflexivity.
  - intros _ _. replace (x ?= z) with Lt by (symmetry; now apply Z.compare_lt_iff).
    reflexivity.
  - intros _ _. replace (x ?= z) with Lt by (symmetry; apply Z.compare_lt_iff; lia).
    reflexivity.
Qed.

(** A three-way comparison with equality, antisymmetry and a transitive
    [Lt] orders "not smaller" transitively. *)
Lemma not_lt_trans {K} (cmp : K → K → comparison) (a b c : K) :
  (∀ x y, cmp x y = Eq → x = y) →
  (∀ x y, cmp y x = CompOpp (cmp x y)) →
  (∀ x y z, cmp x y = Lt → cmp y z = Lt → cmp x z = Lt) →
  not_lt (Some (cmp b a)) → not_lt (Some (cmp c b)) → not_lt (Some (cmp c a)).
Proof.
  unfold not_lt. intros Heq Hanti Htrans H1 H2.
  destruct (cmp b a) eqn:Hba; [| destruct H1; discriminate |].
  - apply Heq in Hba. subst. exact H2.
  - destruct (cmp c b) eqn:Hcb; [| destruct H2; discriminate |].
    + apply Heq in Hcb. subst. rewrite Hba. auto.
    + assert (cmp a b = Lt) as Lab by (rewrite (Hanti b a), Hba; reflexivity).
      assert (cmp b c = Lt) as Lbc by (rewrite (Hanti c b), Hcb; reflexivity).
      pose proof (Htrans _ _ _ Lab Lbc) as Lac.
      rewrite (Hanti a c), Lac. auto.
Qed.

Lemma okey_cmp_trans (a b c : okey) (c1 c2 : option comparison) :
  okey_cmp b a = Some c1 → okey_cmp c b = Some c2 → not_lt c1 → not_lt c2 →
  ∃ c3, okey_cmp c a = Some c3 ∧ not_lt c3.
Proof.
  destruct a, b, c; cbn -[xcompare String.compare lex_compare]; try discriminate;
    intros [= <-] [= <-] H1 H2; eexists; (split; [reflexivity|]).
  - eapply xcompare_trans; eassumption.
  - eapply (not_lt_trans String.compare); try eassumption.
    + apply String.compare_eq_iff.
    + intros. apply String.compare_antisym.
    + apply string_compare_lt_trans.
  - eapply (not_lt_trans lex_compare); try eassumption.
    + apply lex_compare_eq.
    + intros. apply lex_compare_antisym.
    + apply lex_compare_lt_trans.
  - eapply (not_lt_trans Z.compare); try eassumption.
    + apply Z.compare_eq.
    + intros. apply Z.compare_antisym.
    + intros x y z. rewrite !Z.compare_lt_iff. lia.
  - assumption.
  - assumption.
Qed.

Lemma py_lt_false (a b : value) :
  ordered_key a = true → ordered_key b = true →
  py_lt b a = Ok false ↔ ∃ c, order_cmp b a = Ok c ∧ not_lt c.
Proof.
  intros Ha Hb. unfold py_lt, not_lt. split.
  - intros H. apply bind_Ok in H as (c & Hc & H). exists c. split; [assumption|].
    destruct c as [[]|]; cbn in H; try discriminate; auto.
    (* a NaN *)
    exfalso. apply order_cmp_okey in Hc as (kb & ka & Hkb & Hka & Hc).
    destruct b as [| ? | ? | ? | | ? | ? | ? | lb | ? | ? | lb | lb],
      a as [| ? | ? | ? | | ? | ? | ? | la | ? | ? | la | la];
      try destruct la; try destruct lb;
      cbn in Hkb, Hka; try discriminate;
      injection Hkb as <-; injection Hka as <-;
      cbn -[xcompare] in Hc; try discriminate; injection Hc as Hc;
      cbn in Ha, Hb;
      repeat match goal with
        | H : context [exact_float ?f] |- _ => destruct (exact_float f) as [|[]|? ?]
        end; cbn in *; discriminate.
  - intros (c & Hc & [-> | ->]); rewrite Hc; reflexivity.
Qed.

(** With no NaN among them, keys that may follow one another may do so
    transitively. *)
Lemma py_lt_false_trans (a b c : value) :
  ordered_key a = true → ordered_key b = true → ordered_key c = true →
  py_lt b a = Ok false → py_lt c b = Ok false → py_lt c a = Ok false.
Proof.
  intros Ha Hb Hc H1 H2.
  apply (py_lt_false a b Ha Hb) in H1 as (c1 & H1 & N1).
  apply (py_lt_false b c Hb Hc) in H2 as (c2 & H2 & N2).
  apply order_cmp_okey in H1 as (kb & ka & Hkb & Hka & H1).
  apply order_cmp_okey in H2 as (kc & kb' & Hkc & Hkb' & H2).
  rewrite Hkb in Hkb'. injection Hkb' as <-.
  destruct (okey_cmp_trans _ _ _ _ _ H1 H2 N1 N2) as (c3 & H3 & N3).
  apply (py_lt_false a c Ha Hc). exists c3. split; [|assumption].
  apply order_cmp_okey. eauto.
Qed.

Lemma StronglySorted_impl_on {A} (R R' : relation A) (l : list A) :
  (∀ a b, a ∈ l → b ∈ l → R a b → R' a b) →
  StronglySorted R l → StronglySorted R' l.
Proof.
  intros Himpl Hs. induction Hs as [|a l Hl IH Ha]; [constructor|].
  constructor.
  - apply IH. intros x y Hx Hy. apply Himpl; now right.
  - rewrite Forall_forall in Ha |- *. intros b Hb.
    apply Himpl; [left | now right | now apply Ha].
Qed.

Lemma Sorted_StronglySorted_on {A} (R : relation A) (l : list A) :
  (∀ a b c, a ∈ l → b ∈ l → c ∈ l → R a b → R b c → R a c) →
  Sorted R l → StronglySorted R l.
Proof.
  intros Htrans Hs. induction Hs as [|a l Hl IH Ha]; [constructor|].
  assert (StronglySorted R l) as Hss.
  { apply IH. intros x y z Hx Hy Hz. apply Htrans; now right. }
  constructor; [assumption|].
  destruct Ha as [|b l' Hab]; [constructor|].
  inversion Hss as [|? ? _ Hbl]; subst. constructor; [assumption|].
  rewrite Forall_forall in Hbl |- *. intros c Hc.
  apply (Htrans a b c); [left | right; left | right; now right | assumption | now apply Hbl].
Qed.

Section SortedFacts.
Context {A : Type}.
Implicit Types (x : value * A) (l r : list (value * A)).

Lemma insert_sorted_perm x l r : insert_sorted x l = Ok r → r ≡ₚ x :: l.
Proof.
  revert r. induction l as [|y l IH]; cbn; intros r H.
  - now injection H as <-.
  - apply bind_Ok in H as (c & Hc & H). destruct c.
    + now injection H as <-.
    + apply bind_Ok in H as (r' & Hr' & H). injection H as <-.
      rewrite (IH _ Hr'). apply Permutation_swap.
Qed.

Lemma insert_sorted_hd a x l r :
  insert_sorted x l = Ok r → before a x → HdRel before a l → HdRel before a r.
Proof.
  destruct l as [|y l]; cbn; intros H Hx Hl.
  - injection H as <-. now constructor.
  - apply bind_Ok in H as (c & Hc & H). destruct c.
    + injection H as <-. now constructor.
    + apply bind_Ok in H as (r' & Hr' & H). injection H as <-.
      constructor. now inversion Hl.
Qed.

Lemma insert_sorted_Sorted x l r :
  Sorted before l → insert_sorted x l = Ok r → Sorted before r.
Proof.
  revert r. induction l as [|y l IH]; cbn; intros r Hl H.
  - injection H as <-. repeat constructor.
  - apply bind_Ok in H as (c & Hc & H). inversion Hl as [|? ? Hl' Hy]; subst.
    destruct c.
    + injection H as <-. constructor; [assumption|].
      constructor. now apply py_lt_asym.
    + apply bind_Ok in H as (r' & Hr' & H). injection H as <-.
      constructor; [now apply IH|].
      eapply insert_sorted_hd; [eassumption | exact Hc | assumption].
Qed.

Lemma sort_into_spec acc l r :
  Sorted before acc → sort_into acc l = Ok r → r ≡ₚ acc ++ l ∧ Sorted before r.
Proof.
  revert acc r. induction l as [|x l IH]; cbn; intros acc r Hacc H.
  - injection H as <-. now rewrite app_nil_r.
  - apply bind_Ok in H as (acc' & Hins & H).
    destruct (IH _ _ (insert_sorted_Sorted _ _ _ Hacc Hins) H) as [Hp Hsorted].
    split; [|assumption].
    rewrite Hp, (insert_sorted_perm _ _ _ Hins). cbn [app]. apply Permutation_middle.
Qed.

Lemma Sorted_snoc (R : relation (value * A)) l x :
  Sorted R l → (∀ y, last l = Some y → R y x) → Sorted R (l ++ [x]).
Proof.
  induction 1 as [|y l Hl IH Hy]; intros Hlast; cbn.
  - repeat constructor.
  - constructor.
    + apply IH. intros z Hz. apply Hlast. destruct l; [discriminate|exact Hz].
    + destruct l as [|z l]; cbn.
      * constructor. now apply Hlast.
      * constructor. now inversion Hy.
Qed.

Lemma Sorted_rev (R : relation (value * A)) l :
  Sorted R l → Sorted (flip R) (rev l).
Proof.
  induction 1 as [|y l Hl IH Hy]; cbn; [constructor|].
  apply Sorted_snoc; [assumption|].
  intros z Hz. destruct l as [|w l]; [discriminate|].
  cbn [rev] in Hz. rewrite last_snoc in Hz. injection Hz as <-.
  now inversion Hy.
Qed.

Lemma keyed_spec (key : A → result value) (items : list A) keyed :
  mapR (λ it : A, k ← key it; Ok (k, it)) items = Ok keyed →
  map snd keyed = items ∧ Forall (λ p, key p.2 = Ok p.1) keyed.
Proof.
  revert keyed. induction items as [|it items IH]; cbn; intros keyed H.
  - injection H as <-. split; [reflexivity|constructor].
  - apply bind_Ok in H as (p & Hp & H). apply bind_Ok in Hp as (k & Hk & Hp).
    injection Hp as <-. apply bind_Ok in H as (ps & Hps & H). injection H as <-.
    destruct (IH _ Hps) as [<- HF]. split; [reflexivity|]. now constructor.
Qed.

Lemma Sorted_keys (key : A → result value) (R : relation value) l :
  Forall (λ p, key p.2 = Ok p.1) l →
  Sorted (λ p q, R p.1 q.1) l →
  Sorted (λ a b, ∃ ka kb, key a = Ok ka ∧ key b = Ok kb ∧ R ka kb) (map snd l).
Proof.
  intros HF Hs. induction Hs as [|p l Hl IH Hp]; cbn; [constructor|].
  inversion HF as [|? ? Hkp HF']; subst. constructor; [now apply IH|].
  destruct l as [|q l]; cbn; [constructor|].
  inversion HF' as [|? ? Hkq _]; subst. inversion Hp; subst.
  constructor. eauto.
Qed.

Lemma in_order_trans (ascending : bool) (ka kb kc : value) :
  ordered_key ka = true → ordered_key kb = true → ordered_key kc = true →
  in_order ascending ka kb → in_order ascending kb kc → in_order ascending ka kc.
Proof.
  intros Ha Hb Hc. unfold in_order. destruct ascending.
  - now apply (py_lt_false_trans ka kb kc).
  - intros H1 H2. now apply (py_lt_false_trans kc kb ka).
Qed.

(** What [sorted] returns: the items rearranged, every item in order with
    every later one by their keys, none of which is NaN. *)
Lemma py_sorted_spec (key : A → result value) (reverse : bool) (items result : list A) :
  py_sorted key reverse items = Ok result →
  result ≡ₚ items
  ∧ Forall (λ a, ∃ k, key a = Ok k ∧ ordered_key k = true) result
  ∧ StronglySorted
      (λ a b, ∃ ka kb, key a = Ok ka ∧ key b = Ok kb ∧ in_order (negb reverse) ka kb)
      result.
Proof.
  unfold py_sorted. intros H.
  apply bind_Ok in H as (keyed & Hkeyed & H).
  destruct (forallb _ keyed) eqn:Hord; [|discriminate]. cbn [negb] in H.
  apply bind_Ok in H as (r & Hr & H). injection H as <-.
  destruct (keyed_spec _ _ _ Hkeyed) as [Hitems Hkeys].
  destruct (sort_into_spec [] _ r (Sorted_nil _) Hr) as [Hperm Hsorted].
  cbn [app] in Hperm.
  assert (Forall (λ p : value * A, key p.2 = Ok p.1 ∧ ordered_key p.1 = true) keyed) as Hk.
  { rewrite forallb_forall in Hord. rewrite Forall_forall in Hkeys |- *.
    intros p Hp. split; [now apply Hkeys|]. apply Hord. now apply list_elem_of_In. }
  set (r' := if reverse then rev r else r) in *.
  assert (r' ≡ₚ keyed) as Hp'.
  { subst r'. destruct reverse; [|exact Hperm].
    transitivity r; [symmetry; apply Permutation_rev|].
    rewrite Hperm. symmetry. apply Permutation_rev. }
  assert (Forall (λ a, ∃ k, key a = Ok k ∧ ordered_key k = true) (map snd r')) as Hres.
  { rewrite Hp'. rewrite Forall_forall in Hk. rewrite Forall_forall. intros a Ha.
    apply list_elem_of_fmap in Ha as (p & -> & Hp). exists p.1. now apply Hk. }
  split; [rewrite <- Hitems; now apply Permutation_map|]. split; [exact Hres|].
  apply Sorted_StronglySorted_on.
  - intros a b c Ha Hb Hc (ka & kb & Hka & Hkb & Hab) (kb' & kc & Hkb' & Hkc & Hbc).
    rewrite Hkb in Hkb'. injection Hkb' as <-.
    rewrite Forall_forall in Hres.
    destruct (Hres a Ha) as (ka' & Hka' & Oa), (Hres b Hb) as (kb' & Hkb' & Ob),
      (Hres c Hc) as (kc' & Hkc' & Oc).
    rewrite Hka in Hka'. rewrite Hkb in Hkb'. rewrite Hkc in Hkc'.
    injection Hka' as <-. injection Hkb' as <-. injection Hkc' as <-.
    exists ka, kc. repeat split; try assumption.
    now apply (in_order_trans _ ka kb kc).
  - assert (Forall (λ p : value * A, key p.2 = Ok p.1) r') as Hk'.
    { rewrite Hp'. eapply Forall_impl; [exact Hk|]. now intros p [? _]. }
    subst r'. destruct reverse; cbn [negb in_order].
    + apply (Sorted_keys key (λ ka kb, py_lt ka kb = Ok false)); [exact Hk'|].
      apply Sorted_rev in Hsorted. exact Hsorted.
    + apply (Sorted_keys key (λ ka kb, py_lt kb ka = Ok false)); [exact Hk'|].
      exact Hsorted.
Qed.

End SortedFacts.

(** ** The listing *)

Section Listing.
Context {P : Platform}.

Lemma zero_rate_fails_both (rate : value) (filter_bad : bool) :
  py_eq rate (VInt 0) = Ok true →
  (if filter_bad then py_gt rate (VInt 0) else py_lt rate (VInt 0)) = Ok false.
Proof.
  unfold py_gt, py_lt.
  destruct rate; cbn -[xcompare]; try discriminate;
    destruct (xcompare _ _) as [[]|]; cbn; try discriminate;
    destruct filter_bad; reflexivity.
Qed.

(** The key under the name of an embedded property is what the property
    computes; a stored field of the same name is not read. *)
Lemma getattr_property (order_by : string) (property : Stock → result value) (s : Stock) :
  assoc order_by stock_properties = Some property →
  getattr s order_by = property s.
Proof. intros H. unfold getattr. now rewrite H. Qed.

Lemma expected_rate_key (s : Stock) (rate : value) :
  expected_rate s = Ok rate → attr_or_key_getter "expected_rate" s = Ok rate.
Proof.
  intros H. unfold attr_or_key_getter.
  rewrite (getattr_property "expected_rate" expected_rate s eq_refl). now rewrite H.
Qed.

(** The key under a name that is no attribute of a [Stock] is the stored
    field, or 0. *)
Lemma raw_field_key (order_by : string) (s : Stock) :
  assoc order_by stock_properties = None →
  mem order_by stock_abstract_properties = false →
  mem order_by stock_methods = false →
  inherited_attr order_by s = None →
  attr_or_key_getter order_by s = Ok (get s order_by (VInt 0)).
Proof.
  intros H1 H2 H3 H4. unfold attr_or_key_getter, getattr. now rewrite H1, H2, H3, H4.
Qed.

(** C1. Whenever [all_stocks] returns a list: the list is a rearrangement
    of the fetched records that pass the filter, kept with their
    multiplicity; every fetched record has an expected rate, and passes the
    filter exactly when that rate is greater than 0 ([filter_bad] true) or
    less than 0 ([filter_bad] false), so a record whose rate equals 0 is in
    neither listing; every record stands in order with every later one,
    ascending when [ordering] is ["asc"] and descending otherwise; and the
    sort key of a record is the attribute of that name when the lookup
    finds one, else the raw field, else 0. The attribute under the name of
    a computed property is what the property computes: under
    ["expected_rate"] the list is in the order of the computed expected
    rates, whatever field of that name the records store; and under a name
    that is no attribute of a [Stock] it is in the order of the stored
    fields, 0 standing for an absent one. *)
Theorem all_stocks_filters_then_sorts (st : store) (order_by ordering : string)
    (find_ : option query) (filter_bad : bool) (result : list Stock) :
  all_stocks st order_by ordering find_ filter_bad = Ok result →
  result ≡ₚ filter (λ s, filter_func filter_bad s = Ok true) (find st find_)
  ∧ (∀ s, s ∈ find st find_ →
       ∃ rate, expected_rate s = Ok rate
         ∧ filter_func filter_bad s
           = (if filter_bad then py_gt rate (VInt 0) else py_lt rate (VInt 0)))
  ∧ (∀ s rate, expected_rate s = Ok rate → py_eq rate (VInt 0) = Ok true → s ∉ result)
  ∧ StronglySorted (listed_in_order order_by ordering) result
  ∧ (∀ s v, getattr s order_by = Ok v → attr_or_key_getter order_by s = Ok v)
  ∧ (∀ s, getattr s order_by = Raise AttributeError →
       attr_or_key_getter order_by s
       = Ok (match s !! order_by with Some v => v | None => VInt 0 end))
  ∧ (∀ property, assoc order_by stock_properties = Some property →
       ∀ s, getattr s order_by = property s)
  ∧ (order_by = "expected_rate" →
       StronglySorted
         (λ a b, ∃ ra rb, expected_rate a = Ok ra ∧ expected_rate b = Ok rb
                   ∧ in_order (String.eqb ordering "asc") ra rb) result)
  ∧ (assoc order_by stock_properties = None →
     mem order_by stock_abstract_properties = false →
     mem order_by stock_methods = false →
     (∀ s, inherited_attr order_by s = None) →
     StronglySorted
       (λ a b, in_order (String.eqb ordering "asc")
                 (get a order_by (VInt 0)) (get b order_by (VInt 0))) result).
Proof.
  intros H. unfold all_stocks in H.
  apply bind_Ok in H as (stocks & Hfilter & Hsort).
  apply filterR_Ok in Hfilter as [-> Hall].
  apply py_sorted_spec in Hsort as (Hperm & _ & Hsorted).
  rewrite negb_involutive in Hsorted.
  assert (∀ s, s ∈ find st find_ →
            ∃ rate, expected_rate s = Ok rate
              ∧ filter_func filter_bad s
                = (if filter_bad then py_gt rate (VInt 0) else py_lt rate (VInt 0)))
    as Hrate.
  { intros s Hs. rewrite Forall_forall in Hall.
    destruct (Hall s Hs) as [c Hc]. unfold filter_func in Hc |- *.
    apply bind_Ok in Hc as (rate & Hrate & _). exists rate.
    split; [exact Hrate|]. now rewrite Hrate. }
  split; [exact Hperm|].
  split; [exact Hrate|].
  split; [|split; [exact Hsorted|split; [|split; [|split; [|split]]]]].
  - intros s rate Hr Hzero Hin. rewrite Hperm in Hin.
    apply list_elem_of_filter in Hin as [Hpass _].
    unfold filter_func in Hpass. rewrite Hr in Hpass. cbn [mbind result_bind] in Hpass.
    rewrite (zero_rate_fails_both rate filter_bad Hzero) in Hpass. discriminate Hpass.
  - intros s v Hv. unfold attr_or_key_getter. now rewrite Hv.
  - intros s Hs. unfold attr_or_key_getter. now rewrite Hs.
  - intros property Hp s. now apply getattr_property.
  - intros ->. eapply StronglySorted_impl_on; [|exact Hsorted].
    intros a b Ha Hb (ka & kb & Hka & Hkb & Hord).
    assert (∀ s k, s ∈ result → attr_or_key_getter "expected_rate" s = Ok k →
              expected_rate s = Ok k) as Hkey.
    { intros s k Hs Hk. rewrite Hperm in Hs. apply list_elem_of_filter in Hs as [_ Hs].
      destruct (Hrate s Hs) as (rate & Hr & _).
      rewrite (expected_rate_key s rate Hr) in Hk. congruence. }
    exists ka, kb. repeat split; auto.
  - intros H1 H2 H3 H4. eapply StronglySorted_impl_on; [|exact Hsorted].
    intros a b _ _ (ka & kb & Hka & Hkb & Hord).
    rewrite (raw_field_key order_by a H1 H2 H3 (H4 a)) in Hka.
    rewrite (raw_field_key order_by b H1 H2 H3 (H4 b)) in Hkb.
    injection Hka as <-. injection Hkb as <-. exact Hord.
Qed.

End Listing.

(** ** The smallest and the largest of a list *)

Lemma xcompare_refl (x : xnum) : x ≠ XNaN → xcompare x x = Some Eq.
Proof.
  destruct x as [|[]|m e]; intros H; try reflexivity; [congruence|].
  cbn. now rewrite Z.compare_refl.
Qed.

Lemma real_okey (v : value) :
  real v = true → ∃ x, okey_of v = Some (KNum x) ∧ x ≠ XNaN.
Proof.
  destruct v; cbn; try discriminate; intros H; eexists; (split; [reflexivity|]);
    try discriminate.
  destruct (exact_float f); congruence.
Qed.

Lemma real_ordered (v : value) : real v = true → ordered_key v = true.
Proof. destruct v; cbn; congruence. Qed.

Lemma real_cmp (a b : value) :
  real a = true → real b = true → ∃ c, order_cmp a b = Ok (Some c).
Proof.
  intros Ha Hb.
  destruct (real_okey a Ha) as (x & Hx & Nx), (real_okey b Hb) as (y & Hy & Ny).
  destruct (xcompare x y) as [c|] eqn:Hc.
  - exists c. apply order_cmp_okey. exists (KNum x), (KNum y). cbn. now rewrite Hc.
  - destruct x as [|[]|], y as [|[]|]; cbn in Hc; congruence.
Qed.

Lemma py_lt_real (a b : value) :
  real a = true → real b = true → ∃ c, py_lt a b = Ok c.
Proof.
  intros Ha Hb. destruct (real_cmp a b Ha Hb) as [c Hc].
  unfold py_lt. rewrite Hc. cbn. eauto.
Qed.

Lemma py_lt_irrefl (a : value) : real a = true → py_lt a a = Ok false.
Proof.
  intros Ha. destruct (real_okey a Ha) as (x & Hx & Nx).
  assert (order_cmp a a = Ok (Some Eq)) as H.
  { apply order_cmp_okey. exists (KNum x), (KNum x). cbn -[xcompare].
    now rewrite xcompare_refl. }
  unfold py_lt. now rewrite H.
Qed.

Lemma py_gt_lt (a b : value) : py_gt a b = py_lt b a.
Proof.
  unfold py_gt, py_lt. rewrite (order_cmp_antisym a b).
  destruct (order_cmp a b) as [[[]|]|]; reflexivity.
Qed.

Lemma py_le_not_lt (a b : value) :
  real a = true → real b = true → py_lt b a = Ok false → py_le a b = Ok true.
Proof.
  intros Ha Hb. destruct (real_cmp a b Ha Hb) as [c Hc].
  unfold py_lt, py_le. rewrite (order_cmp_antisym a b), Hc.
  destruct c; cbn; congruence.
Qed.

(** A number greater than 0 is real. *)
Lemma positive_real (v : value) : py_gt v (VInt 0) = Ok true → real v = true.
Proof.
  unfold py_gt.
  destruct v as [| ? | ? | f | | ? | ? | ? | ? | ? | ? | l | l]; try destruct l;
    cbn -[xcompare]; try discriminate; try reflexivity.
  destruct (exact_float f) as [|[]|]; cbn; congruence.
Qed.

(** What [min] returns on real numbers: an item that no item is smaller
    than. *)
Lemma extremum_lt (l : list value) (best r : value) :
  real best = true → Forall (λ x, real x = true) l →
  extremum py_lt best l = Ok r →
  r ∈ best :: l ∧ real r = true ∧ py_lt best r = Ok false
  ∧ Forall (λ x, py_lt x r = Ok false) l.
Proof.
  revert best. induction l as [|x l IH]; intros best Hb Hl H; cbn [extremum] in H.
  - injection H as <-. repeat split; [left | assumption | now apply py_lt_irrefl | constructor].
  - inversion Hl as [|? ? Hx Hl']; subst.
    apply bind_Ok in H as (c & Hc & H).
    assert (real (if c then x else best) = true) as Hb' by now destruct c.
    destruct (IH _ Hb' Hl' H) as (Hin & Hr & Hle & Hall).
    pose proof (real_ordered _ Hr). pose proof (real_ordered _ Hx).
    pose proof (real_ordered _ Hb).
    destruct c.
    + apply py_lt_asym in Hc.
      repeat split; [| assumption | | constructor; assumption].
      * right. assumption.
      * now apply (py_lt_false_trans r x best).
    + repeat split; [| assumption | assumption | constructor; [|assumption]].
      * apply elem_of_cons in Hin as [-> | Hin]; [left | right; now right].
      * now apply (py_lt_false_trans r best x).
Qed.

(** What [max] returns on real numbers: an item that is smaller than no
    item. *)
Lemma extremum_gt (l : list value) (best r : value) :
  real best = true → Forall (λ x, real x = true) l →
  extremum py_gt best l = Ok r →
  r ∈ best :: l ∧ real r = true ∧ py_lt r best = Ok false
  ∧ Forall (λ x, py_lt r x = Ok false) l.
Proof.
  revert best. induction l as [|x l IH]; intros best Hb Hl H; cbn [extremum] in H.
  - injection H as <-. repeat split; [left | assumption | now apply py_lt_irrefl | constructor].
  - inversion Hl as [|? ? Hx Hl']; subst.
    apply bind_Ok in H as (c & Hc & H). rewrite py_gt_lt in Hc.
    assert (real (if c then x else best) = true) as Hb' by now destruct c.
    destruct (IH _ Hb' Hl' H) as (Hin & Hr & Hle & Hall).
    pose proof (real_ordered _ Hr). pose proof (real_ordered _ Hx).
    pose proof (real_ordered _ Hb).
    destruct c.
    + apply py_lt_asym in Hc.
      repeat split; [| assumption | | constructor; assumption].
      * right. assumption.
      * now apply (py_lt_false_trans best x r).
    + repeat split; [| assumption | assumption | constructor; [|assumption]].
      * apply elem_of_cons in Hin as [-> | Hin]; [left | right; now right].
      * now apply (py_lt_false_trans x best r).
Qed.

Lemma extremum_total (better : value → value → result bool) (l : list value) (best : value) :
  (∀ a b, real a = true → real b = true → ∃ c, better a b = Ok c) →
  real best = true → Forall (λ x, real x = true) l →
  ∃ r, extremum better best l = Ok r.
Proof.
  intros Hbetter. revert best. induction l as [|x l IH]; intros best Hb Hl; cbn; [eauto|].
  inversion Hl as [|? ? Hx Hl']; subst.
  destruct (Hbetter x best Hx Hb) as [c ->]. cbn.
  apply IH; [now destruct c | assumption].
Qed.

Lemma py_min_spec (l : list value) (r : value) :
  Forall (λ x, real x = true) l → py_min l = Ok r →
  r ∈ l ∧ Forall (λ x, py_lt x r = Ok false) l.
Proof.
  destruct l as [|x l]; [discriminate|]. intros Hl H.
  inversion Hl as [|? ? Hx Hl']; subst.
  destruct (extremum_lt l x r Hx Hl' H) as (Hin & _ & Hle & Hall).
  split; [assumption | now constructor].
Qed.

Lemma py_max_spec (l : list value) (r : value) :
  Forall (λ x, real x = true) l → py_max l = Ok r →
  r ∈ l ∧ Forall (λ x, py_lt r x = Ok false) l.
Proof.
  destruct l as [|x l]; [discriminate|]. intros Hl H.
  inversion Hl as [|? ? Hx Hl']; subst.
  destruct (extremum_gt l x r Hx Hl' H) as (Hin & _ & Hle & Hall).
  split; [assumption | now constructor].
Qed.

Lemma py_min_total (l : list value) :
  Forall (λ x, real x = true) l → l ≠ [] → ∃ r, py_min l = Ok r.
Proof.
  destruct l as [|x l]; [congruence|]. intros Hl _.
  inversion Hl; subst. apply extremum_total; auto using py_lt_real.
Qed.

Lemma py_max_total (l : list value) :
  Forall (λ x, real x = true) l → l ≠ [] → ∃ r, py_max l = Ok r.
Proof.
  destruct l as [|x l]; [congruence|]. intros Hl _.
  inversion Hl; subst. apply extremum_total; [|assumption ..].
  intros a b Ha Hb. rewrite py_gt_lt. now apply py_lt_real.
Qed.

(** ** The range of the price-to-book ratios *)

Section PbrRange.
Context {P : Platform}.

(** The ratios that [low_pbr], [high_pbr] and [calculable_pbr_count] keep. *)
Lemma positive_rows (rows kept : list (value * value)) :
  filterR (λ year_pbr : value * value, py_gt year_pbr.2 (VInt 0)) rows = Ok kept →
  Forall (λ x, real x = true ∧ py_gt x (VInt 0) = Ok true) (map snd kept)
  ∧ (∀ x, x ∈ map snd kept → x ∈ map snd rows).
Proof.
  intros H. apply filterR_Ok in H as [-> _]. split.
  - apply Forall_forall. intros x Hx.
    apply list_elem_of_fmap in Hx as (p & -> & Hp).
    apply list_elem_of_filter in Hp as [Hp _]. split; [now apply positive_real | assumption].
  - intros x Hx. apply list_elem_of_fmap in Hx as (p & -> & Hp).
    apply list_elem_of_filter in Hp as [_ Hp]. apply list_elem_of_fmap. eauto.
Qed.

(** X1. Whenever [low_pbr] and [high_pbr] both return, the low ratio is at
    most the high one. *)
Theorem low_pbr_at_most_high_pbr (s : Stock) (lo hi : value) :
  low_pbr s = Ok lo → high_pbr s = Ok hi → py_le lo hi = Ok true.
Proof.
  unfold low_pbr, high_pbr. intros Hlo Hhi.
  destruct (year_stat s "PBRs" true) as [rows|e]; cbn [mbind result_bind] in *.
  2: { destruct e; cbn in *; try discriminate.
       injection Hlo as <-. injection Hhi as <-. reflexivity. }
  destruct (filterR _ rows) as [kept|e] eqn:Hkept; cbn [mbind result_bind] in *.
  2: { destruct e; cbn in *; try discriminate.
       injection Hlo as <-. injection Hhi as <-. reflexivity. }
  apply positive_rows in Hkept as [Hreal _].
  assert (Forall (λ x, real x = true) (map snd kept)) as Hr
    by (eapply Forall_impl; [exact Hreal|]; now intros ? [? _]).
  destruct (map snd kept) as [|x l] eqn:Hl.
  - cbn in Hlo, Hhi. injection Hlo as <-. injection Hhi as <-. reflexivity.
  - destruct (py_min_total (x :: l) Hr ltac:(discriminate)) as [lo' Hmin].
    destruct (py_max_total (x :: l) Hr ltac:(discriminate)) as [hi' Hmax].
    rewrite Hmin in Hlo. rewrite Hmax in Hhi. cbn in Hlo, Hhi.
    injection Hlo as <-. injection Hhi as <-.
    destruct (py_min_spec _ _ Hr Hmin) as [Hin _].
    destruct (py_max_spec _ _ Hr Hmax) as [Hin' Hall].
    rewrite Forall_forall in Hall, Hr.
    apply py_le_not_lt; auto.
Qed.

(** X2. When [calculable_pbr_count] returns [n], then [low_pbr] and
    [high_pbr] return as well: 0 when [n] is 0, and otherwise two of the
    record's ratios, both greater than 0. *)
Theorem pbr_range_by_count (s : Stock) (n : Z) :
  calculable_pbr_count s = Ok (VInt n) →
  ∃ lo hi,
    low_pbr s = Ok lo ∧ high_pbr s = Ok hi
    ∧ 0 ≤ n
    ∧ (n = 0 → lo = VInt 0 ∧ hi = VInt 0)
    ∧ (0 < n →
         py_gt lo (VInt 0) = Ok true ∧ py_gt hi (VInt 0) = Ok true
         ∧ ∃ rows, year_stat s "PBRs" true = Ok rows
             ∧ lo ∈ map snd rows ∧ hi ∈ map snd rows).
Proof.
  unfold calculable_pbr_count, low_pbr, high_pbr. intros H.
  apply bind_Ok in H as (rows & Hrows & H). rewrite Hrows. cbn [mbind result_bind].
  apply bind_Ok in H as (kept & Hkept & H). rewrite Hkept. cbn [mbind result_bind].
  injection H as <-.
  apply positive_rows in Hkept as [Hpos Hsub].
  assert (Forall (λ x, real x = true) (map snd kept)) as Hr
    by (eapply Forall_impl; [exact Hpos|]; now intros ? [? _]).
  destruct kept as [|p kept].
  - exists (VInt 0), (VInt 0). cbn. repeat split; try reflexivity; lia.
  - destruct (py_min_total _ Hr ltac:(discriminate)) as [lo Hmin].
    destruct (py_max_total _ Hr ltac:(discriminate)) as [hi Hmax].
    rewrite Hmin, Hmax. exists lo, hi. cbn [try_except].
    destruct (py_min_spec _ _ Hr Hmin) as [Hin _].
    destruct (py_max_spec _ _ Hr Hmax) as [Hin' _].
    rewrite Forall_forall in Hpos.
    split; [reflexivity|]. split; [reflexivity|]. split; [lia|].
    split; [cbn [length]; lia|]. intros _.
    split; [now apply Hpos|]. split; [now apply Hpos|].
    exists rows. auto.
Qed.

End PbrRange.

(** ** The price marks *)

(** X3. Whenever [price_arrow] returns, [price_color] and [price_sign]
    return as well and the three agree: no arrow, black and no sign; an up
    arrow, red and a plus sign; or a down arrow, blue and no sign. *)
Theorem price_marks_agree (s : Stock) (a : value) :
  price_arrow s = Ok a →
  ∃ c g, price_color s = Ok c ∧ price_sign s = Ok g
    ∧ (a, c, g) ∈ [ (VStr "", VStr "black", VStr "");
                    (VStr "▲", VStr "red", VStr "+");
                    (VStr "▼", VStr "blue", VStr "") ].
Proof.
  unfold price_arrow, price_color, price_sign, py_eq, py_gt.
  destruct (get s "price_diff" VNone) as [| b | z | f | | | | | | | | l | l];
    try destruct l; cbn -[xcompare]; try discriminate;
    destruct (xcompare _ _) as [[]|]; cbn; intros [= <-];
    eexists _, _; (split; [reflexivity|]); (split; [reflexivity|]);
    rewrite !elem_of_cons; auto.
Qed.

(** X4. On a record without [price_diff] the three price marks raise
    [TypeError]: the absent value is compared with 0. *)
Theorem price_marks_need_price_diff (s : Stock) :
  s !! "price_diff" = None →
  price_arrow s = Raise TypeError
  ∧ price_color s = Raise TypeError
  ∧ price_sign s = Raise TypeError.
Proof.
  intros H. unfold price_arrow, price_color, price_sign, get. rewrite H.
  repeat split; reflexivity.
Qed.

(** ** The ten-year price table *)

Lemma ten_year_loop_years (range : list Z) (price : value) (prices l : list (Z * value)) :
  ten_year_loop range price prices = Ok l → map fst l = map fst prices ++ range.
Proof.
  revert price prices. induction range as [|i range IH]; intros price prices H;
    cbn [ten_year_loop] in H.
  - injection H as <-. now rewrite app_nil_r.
  - apply bind_Ok in H as (g & _ & H). apply bind_Ok in H as (p & _ & H).
    apply IH in H. rewrite H, map_app. cbn [map fst]. now rewrite <- app_assoc.
Qed.

(** X5. [ten_year_prices] returns no entry when [my_price] is absent or
    falsy, and otherwise, when it returns, ten entries numbered 1 to 10.
    On a float price other than 0 it returns, and entry [i] holds the price
    grown [i] times by [p + p * 0.15]. *)
Theorem ten_year_prices_table (s : Stock) :
  (∀ l, ten_year_prices s = Ok l →
     (truthy (get s "my_price" (VInt 0)) = false ∧ l = [])
     ∨ (truthy (get s "my_price" (VInt 0)) = true ∧ map fst l = seqZ 1 10))
  ∧ (∀ x, s !! "my_price" = Some (VFloat x) → (x =? 0)%float = false →
       ten_year_prices s
       = Ok (map (λ i, (i, VFloat (Nat.iter (Z.to_nat i) grow x))) (seqZ 1 10))).
Proof.
  split.
  - intros l H. unfold ten_year_prices in H.
    destruct (truthy (get s "my_price" (VInt 0))); cbn [negb] in H.
    + right. split; [reflexivity|]. now apply ten_year_loop_years in H.
    + left. split; [reflexivity|]. now injection H as <-.
  - intros x Hx H0. unfold ten_year_prices, get. rewrite Hx.
    cbn [truthy]. rewrite H0. reflexivity.
Qed.

(** ** Years in a window *)

Lemma enumerate_indices {A} (l : list A) :
  map fst (enumerate l) = seqZ 0 (Z.of_nat (length l)).
Proof.
  unfold enumerate, seqZ. rewrite Nat2Z.id.
  change (map fst (imap (λ i x, (Z.of_nat i, x)) l))
    with (fst <$> imap (λ i x, (Z.of_nat i, x)) l).
  rewrite fmap_imap.
  rewrite (imap_ext _ (λ j _, Z.of_nat j)) by reflexivity.
  rewrite imap_seq_0. apply list_fmap_ext. intros _ i _. lia.
Qed.

Lemma few_in_range (ys : list Z) (lo hi : Z) :
  NoDup ys → Forall (λ y, lo ≤ y ≤ hi) ys →
  Z.of_nat (length ys) ≤ Z.max 0 (hi - lo + 1).
Proof.
  intros Hnd Hys.
  assert (ys ⊆+ seqZ lo (hi - lo + 1)) as Hsub.
  { apply NoDup_submseteq; [assumption|]. rewrite Forall_forall in Hys.
    intros y Hy. apply elem_of_seqZ. specialize (Hys y Hy). lia. }
  apply submseteq_length in Hsub. rewrite length_seqZ in Hsub. lia.
Qed.

Lemma filter_map {A B} (g : A → B) (Q : B → Prop) `{∀ y, Decision (Q y)} (l : list A) :
  filter Q (map g l) = map g (filter (λ x, Q (g x)) l).
Proof.
  induction l as [|x l IH]; [reflexivity|].
  cbn [map]. rewrite !filter_cons. destruct (decide (Q (g x))); cbn [map]; now rewrite IH.
Qed.

Section Window.
Context {P : Platform}.

Lemma aligned_years_NoDup (n : Z) (items : list value) :
  NoDup (map fst (aligned n items)).
Proof.
  unfold aligned. rewrite map_map. cbn [fst].
  rewrite <- (map_map fst (λ i, LAST_YEAR - (n - i))), enumerate_indices.
  apply NoDup_fmap_2; [|apply NoDup_seqZ].
  intros i j. lia.
Qed.

(** [year_stat] on a series with items and a whole [last_year_index]. *)
Lemma year_stat_int (s : Stock) (stat : string) (exclude_future : bool)
    (n : Z) (x : value) (l : list value) :
  s !! stat = Some (VList (x :: l)) → s !! "last_year_index" = Some (VInt n) →
  year_stat s stat exclude_future =
    Ok (map (λ p : Z * value, (VInt p.1, p.2))
          (filter (λ p : Z * value, exclude_future = true → p.1 ≤ LAST_YEAR)
             (aligned n (x :: l)))).
Proof.
  intros Hs Hn. unfold year_stat, get. rewrite Hs, Hn.
  cbn [truthy negb py_iter]. cbn [mbind result_bind].
  rewrite year_rows. cbn [mbind result_bind].
  now rewrite somes_rows.
Qed.

Lemma year_stat_absent (s : Stock) (stat : string) (exclude_future : bool) :
  truthy (get s stat VNone) = false →
  year_stat s stat exclude_future = Ok [(VInt 0, VInt 0)].
Proof. intros H. unfold year_stat. now rewrite H. Qed.

(** What [year_stat] returns with a whole [last_year_index]: the single
    pair (0, 0), or the aligned pairs of a series with items. *)
Lemma year_stat_rows (s : Stock) (stat : string) (exclude_future : bool) (n : Z)
    (rows : list (value * value)) :
  s !! "last_year_index" = Some (VInt n) →
  year_stat s stat exclude_future = Ok rows →
  rows = [(VInt 0, VInt 0)]
  ∨ ∃ x l, s !! stat = Some (VList (x :: l))
      ∧ rows = map (λ p : Z * value, (VInt p.1, p.2))
                 (filter (λ p : Z * value, exclude_future = true → p.1 ≤ LAST_YEAR)
                    (aligned n (x :: l))).
Proof.
  intros Hn H. destruct (truthy (get s stat VNone)) eqn:Ht.
  - right. unfold get in Ht. destruct (s !! stat) as [v|] eqn:Hs; [|discriminate Ht].
    destruct v as [| | | | | | | | [|x l] | | | |];
      try (unfold year_stat, get in H; rewrite Hs, Ht, Hn in H; discriminate H);
      try discriminate Ht.
    exists x, l. split; [reflexivity|].
    rewrite (year_stat_int s stat exclude_future n x l Hs Hn) in H. now injection H.
  - left. rewrite year_stat_absent in H by assumption. now injection H.
Qed.

Lemma aligned_from (n : Z) (items : list value) (p : Z * value) :
  p ∈ aligned n items → LAST_YEAR - n ≤ p.1.
Proof.
  intros Hp. assert (p.1 ∈ map fst (aligned n items)) as Hy
    by (apply list_elem_of_fmap; eauto).
  unfold aligned in Hy. rewrite map_map in Hy. cbn [fst] in Hy.
  rewrite <- (map_map fst (λ i, LAST_YEAR - (n - i))), enumerate_indices in Hy.
  apply list_elem_of_fmap in Hy as (i & -> & Hi). apply elem_of_seqZ in Hi. lia.
Qed.

(** The rows of a window of years are no more than the years. *)
Lemma window_rows (n lo hi : Z) (items : list value) (Q : Z * value → Prop)
    `{∀ p, Decision (Q p)} :
  (∀ p, p ∈ aligned n items → Q p → lo ≤ p.1 ≤ hi) →
  Z.of_nat (length (filter Q (aligned n items))) ≤ Z.max 0 (hi - lo + 1).
Proof.
  intros HQ. rewrite <- (length_map fst). apply few_in_range.
  - eapply sublist_NoDup; [apply aligned_years_NoDup|].
    apply (fmap_sublist fst), sublist_filter.
  - apply Forall_forall. intros y Hy.
    apply list_elem_of_fmap in Hy as (p & -> & Hp).
    apply list_elem_of_filter in Hp as [Hp Hin]. auto.
Qed.

(** X6. With a whole [last_year_index], [last_four_years_roe] returns at
    most four values, each of them truthy, so [calculated_roe_count] is at
    most 4. *)
Theorem last_four_years_roe_at_most_four (s : Stock) (n : Z) (l : list value) :
  s !! "last_year_index" = Some (VInt n) →
  last_four_years_roe s = Ok l →
  (length l ≤ 4)%nat
  ∧ Forall (λ v, truthy v = true) l
  ∧ calculated_roe_count s = Ok (VInt (Z.of_nat (length l))).
Proof.
  intros Hn H. unfold calculated_roe_count. rewrite H. cbn [mbind result_bind].
  split; [|split; [|reflexivity]]; unfold last_four_years_roe in H;
    apply bind_Ok in H as (rows & Hrows & H);
    apply bind_Ok in H as (kept & Hkept & H); injection H as <-;
    apply filterR_Ok in Hkept as [-> _].
  - rewrite length_map.
    destruct (year_stat_rows _ _ _ _ _ Hn Hrows) as [-> | (x & items & _ & ->)].
    + etransitivity; [apply length_filter|]. cbn. lia.
    + rewrite filter_map, length_map, list_filter_filter.
      match goal with
      | |- (length (filter ?Q ?L) ≤ 4)%nat =>
          assert (Z.of_nat (length (filter Q L))
                  ≤ Z.max 0 (LAST_YEAR - (LAST_YEAR - 3) + 1)) as Hle;
            [apply (window_rows n (LAST_YEAR - 3) LAST_YEAR (x :: items) Q) | lia]
      end.
      intros p _ [Hp _]. cbn [fst snd] in Hp.
      destruct (truthy p.2); [|discriminate Hp]. cbn [negb] in Hp.
      rewrite py_ge_int in Hp. cbn [mbind result_bind] in Hp.
      destruct (p.1 >=? LAST_YEAR - 3) eqn:Hge; [|discriminate Hp].
      cbn [negb] in Hp. rewrite py_le_int in Hp. injection Hp as Hp.
      apply Z.leb_le in Hp. apply Z.geb_le in Hge. lia.
  - apply Forall_forall. intros v Hv.
    apply list_elem_of_fmap in Hv as (p & -> & Hp).
    apply list_elem_of_filter in Hp as [Hp _].
    destruct (truthy p.2); [reflexivity | discriminate Hp].
Qed.

(** X7. [adjusted_eps] is 0 when the record has no [EPSs], when the series
    has fewer than three items, and when [last_year_index] is below 2, so
    that fewer than three years are past; and what it returns is always an
    int. *)
Theorem adjusted_eps_needs_three_past_years (s : Stock) :
  (truthy (get s "EPSs" VNone) = false → adjusted_eps s = Ok (VInt 0))
  ∧ (∀ n items,
       s !! "EPSs" = Some (VList items) → s !! "last_year_index" = Some (VInt n) →
       Z.of_nat (length items) < 3 ∨ n < 2 →
       adjusted_eps s = Ok (VInt 0))
  ∧ (∀ v, adjusted_eps s = Ok v → ∃ z, v = VInt z).
Proof.
  split; [|split].
  - intros H. unfold adjusted_eps. now rewrite year_stat_absent.
  - intros n items Hs Hn Hfew. unfold adjusted_eps.
    destruct items as [|x items].
    + rewrite year_stat_absent; [reflexivity|]. unfold get. now rewrite Hs.
    + rewrite (year_stat_int s "EPSs" true n x items Hs Hn). cbn [mbind result_bind].
      rewrite !length_map.
      match goal with
      | |- context [Z.of_nat (length (filter ?Q ?L)) <? 3] =>
          assert (Z.of_nat (length (filter Q L)) < 3) as Hlt
      end.
      { destruct Hfew as [Hfew | Hfew].
        - pose proof (length_filter
            (λ p : Z * value, true = true → p.1 ≤ LAST_YEAR) (aligned n (x :: items))) as Hf.
          unfold aligned in Hf at 2. rewrite length_map in Hf.
          unfold enumerate in Hf. rewrite length_imap in Hf. lia.
        - pose proof (window_rows n (LAST_YEAR - n) LAST_YEAR (x :: items)
            (λ p : Z * value, true = true → p.1 ≤ LAST_YEAR)) as Hw.
          cbn [fst] in Hw.
          assert (∀ p : Z * value, p ∈ aligned n (x :: items) →
                    (true = true → p.1 ≤ LAST_YEAR) → LAST_YEAR - n ≤ p.1 ≤ LAST_YEAR) as HQ.
          { intros p Hp Hq. split; [now apply aligned_from in Hp | auto]. }
          specialize (Hw HQ). lia. }
      apply Z.ltb_lt in Hlt. now rewrite Hlt.
  - intros v H. unfold adjusted_eps in H.
    apply bind_Ok in H as (rows & _ & H).
    destruct (_ <? 3); [injection H as <-; eauto|].
    inv_bind H. eapply py_int_VInt, H.
Qed.

End Window.

(** ** Records that cannot be projected *)

Section NotCalculable.
Context {P : Platform}.

(** A zero value over a whole price other than 0 rates at -100. *)
Lemma zero_value_rate (s : Stock) (calc_bps : value → result value) (p : Z) :
  calc_bps (VInt FUTURE) = Ok (VInt 0) → current_price s = VInt p → p ≠ 0 →
  calc_expected_rate s calc_bps (VInt FUTURE) VNone = Ok (VFloat (-100)).
Proof.
  intros Hb Hp H0. unfold calc_expected_rate. cbn [truthy negb].
  rewrite Hb, Hp. cbn [mbind result_bind].
  assert (py_truediv (VInt 0) (VInt p)
          = Ok (VFloat (if p <? 0 then (- 0)%float else 0%float))) as ->.
  { cbn [py_truediv as_num arith]. unfold int_true_div.
    apply Z.eqb_neq in H0. rewrite H0. reflexivity. }
  destruct (p <? 0); vm_compute; reflexivity.
Qed.

Lemma no_roe_history (s : Stock) :
  truthy (get s "ROEs" VNone) = false →
  last_four_years_roe s = Ok [] ∧ mean_roe s = Ok (VInt 0).
Proof.
  intros H.
  assert (last_four_years_roe s = Ok []) as Hl
    by (unfold last_four_years_roe; now rewrite year_stat_absent).
  split; [exact Hl|]. unfold mean_roe. now rewrite Hl.
Qed.

(** X8. [calculable] is false, whatever else the record holds, when [bps]
    is absent or not greater than 0: the ROE series is not read. It is also
    false for a record with a [bps] that compares with 0, no ROE series, no
    [dividend_rate] and no [adjusted_future_roe]: such a record has no ROE
    of the last four years, a [mean_roe] of 0 and a [future_roe] of 0.0. *)
Theorem calculable_needs_book_value_and_roe (s : Stock) :
  (py_gt (get s "bps" (VInt 0)) (VInt 0) = Ok false → calculable s = Ok false)
  ∧ (truthy (get s "ROEs" VNone) = false →
       last_four_years_roe s = Ok []
       ∧ calculated_roe_count s = Ok (VInt 0)
       ∧ mean_roe s = Ok (VInt 0)
       ∧ (s !! "dividend_rate" = None →
            future_roe s = Ok (VFloat 0)
            ∧ (∀ c, truthy (get s "adjusted_future_roe" (VInt 0)) = false →
                 py_gt (get s "bps" (VInt 0)) (VInt 0) = Ok c →
                 calculable s = Ok false))).
Proof.
  split.
  - intros H. unfold calculable. now rewrite H.
  - intros Hroe. destruct (no_roe_history s Hroe) as [Hl Hm].
    split; [exact Hl|]. split; [unfold calculated_roe_count; now rewrite Hl|].
    split; [exact Hm|]. intros Hd.
    assert (future_roe s = Ok (VFloat 0)) as Hf.
    { unfold future_roe, dividend_tax_adjust, get. rewrite Hm, Hd. reflexivity. }
    split; [exact Hf|]. intros c Hadj Hc.
    unfold calculable. rewrite Hc. cbn [mbind result_bind].
    destruct c; cbn [negb]; [|reflexivity]. rewrite Hadj, Hf. reflexivity.
Qed.

(** X9. A record that is not calculable has a projected book value of 0;
    at a whole current price other than 0 its expected rate is then -100.0,
    so the listing of good records leaves it out and the listing of bad
    records keeps it. *)
Theorem not_calculable_rates_minus_100 (s : Stock) (p : Z) :
  calculable s = Ok false →
  (∀ future, calc_future_bps s future = Ok (VInt 0))
  ∧ future_bps s = Ok (VInt 0)
  ∧ (current_price s = VInt p → p ≠ 0 →
       expected_rate s = Ok (VFloat (-100))
       ∧ filter_func true s = Ok false
       ∧ filter_func false s = Ok true).
Proof.
  intros Hc.
  assert (∀ future, calc_future_bps s future = Ok (VInt 0)) as Hb
    by (intros future; unfold calc_future_bps; now rewrite Hc).
  split; [exact Hb|]. split; [apply Hb|]. intros Hp H0.
  assert (expected_rate s = Ok (VFloat (-100))) as Hr
    by (apply (zero_value_rate s (calc_future_bps s) p); auto).
  split; [exact Hr|]. unfold filter_func. rewrite Hr. split; reflexivity.
Qed.

(** X10. On a record without [adjusted_future_pbr], the future price by the
    adjusted PBR is 0 whenever the projected book value computes, and at a
    whole current price other than 0 the expected rate by the adjusted PBR
    is -100.0. *)
Theorem unset_adjusted_pbr_rates_minus_100 (s : Stock) (future b : value) (p : Z) :
  s !! "adjusted_future_pbr" = None →
  (calc_future_bps s future = Ok b →
     calc_future_price_adjusted_future_pbr s future = Ok (VInt 0))
  ∧ (calc_future_bps s (VInt FUTURE) = Ok b → current_price s = VInt p → p ≠ 0 →
       expected_rate_by_adjusted_future_pbr s = Ok (VFloat (-100))).
Proof.
  intros Hadj.
  assert (∀ f, calc_future_bps s f = Ok b →
            calc_future_price_adjusted_future_pbr s f = Ok (VInt 0)) as H0.
  { intros f Hb. destruct (calc_future_bps_int _ _ _ Hb) as [n ->].
    unfold calc_future_price_adjusted_future_pbr, get. rewrite Hb, Hadj.
    cbn. now rewrite Z.mul_0_r. }
  split; [apply H0|]. intros Hb Hp Hne.
  apply (zero_value_rate s _ p); auto.
Qed.

End NotCalculable.

(** ** The growth of the earnings *)

Lemma try_except_never {A} (body : result A) (e : exn) (a : A) :
  raises e (try_except body e (Ok a)) = false.
Proof.
  destruct body as [x|e']; [reflexivity|]. cbn.
  destruct (bool_decide (e' = e)) eqn:He; [reflexivity|]. cbn. exact He.
Qed.

Lemma py_eq_raises (a b : value) (e : exn) : py_eq a b = Raise e → e = OutOfModel.
Proof.
  destruct a, b; cbn -[xcompare lex_compare]; try discriminate; try congruence;
    repeat match goal with
      | |- context [exact_float ?f] => destruct (exact_float f)
      | |- context [xcompare ?x ?y] => destruct (xcompare x y) as [[]|]
      end; cbn; congruence.
Qed.

Lemma mapR_Forall2 {A B} (f : A → result B) (l : list A) (r : list B) :
  mapR f l = Ok r → Forall2 (λ x y, f x = Ok y) l r.
Proof.
  revert r. induction l as [|x l IH]; intros r H; cbn [mapR] in H.
  - injection H as <-. constructor.
  - inv_bind H. injection H as <-. constructor; auto.
Qed.

Lemma float_zero (f : float) : (f =? 0)%float = true → exact_float f = XFin 0 0.
Proof.
  rewrite FloatAxioms.eqb_spec. unfold exact_float.
  replace (Prim2SF 0) with (S754_zero false) by (vm_compute; reflexivity).
  destruct (Prim2SF f) as [s | s | | s m e]; cbn; try discriminate; try reflexivity;
    destruct s; discriminate.
Qed.

(** A division by a float fails on a zero divisor only. *)
Lemma py_truediv_float_zero (a : value) (f : float) :
  py_truediv a (VFloat f) = Raise ZeroDivisionError → (f =? 0)%float = true.
Proof.
  unfold py_truediv.
  destruct (as_num a) as [[x | x |]|]; cbn [as_num]; try discriminate;
    cbn [arith mbind result_bind]; unfold float_of_int;
    repeat match goal with
      | |- context [is_infinity ?f] => destruct (is_infinity f)
      end; cbn [mbind result_bind]; try discriminate;
    destruct (f =? 0)%float; (reflexivity || discriminate).
Qed.

(** A quotient is a float or a complex number. *)
Lemma py_truediv_kind (a b q : value) :
  py_truediv a b = Ok q → (∃ f, q = VFloat f) ∨ q = VComplex.
Proof.
  unfold py_truediv.
  destruct (as_num a) as [[x | x |]|], (as_num b) as [[y | y |]|]; try discriminate;
    cbn [arith mbind result_bind]; unfold float_of_int, int_true_div;
    repeat first
      [ progress cbn [mbind result_bind]
      | match goal with
        | |- context [if ?c then _ else _] => destruct c
        end ];
    try discriminate; intros [= <-]; eauto.
Qed.

Lemma mean_of_floats (data : list value) (m : value) :
  Forall (λ t, (∃ f, t = VFloat f) ∨ t = VComplex) data →
  mean data = Ok m → ∃ f, m = VFloat f.
Proof.
  intros Hdata H. unfold mean in H. destruct data as [|x data]; [discriminate|].
  apply bind_Ok in H as (terms & Hterms & H).
  assert (existsb snd terms = true) as Hex.
  { apply mapR_Forall2 in Hterms. inversion Hterms as [|? t ? terms' Hx _]; subst.
    inversion Hdata as [|? ? [[f ->] | ->] _]; subst; cbn in Hx; [|discriminate].
    destruct (exact_float f); try discriminate. now injection Hx as <-. }
  rewrite Hex in H. unfold signed_ratio in H.
  destruct (is_infinity _); [discriminate|]. injection H as <-. eauto.
Qed.

Section Growth.
Context {P : Platform}.

(** What [eps_growth] returns is the int 0 of its handler or a float. *)
Lemma eps_growth_result (s : Stock) (g : value) :
  eps_growth s = Ok g → g = VInt 0 ∨ ∃ f, g = VFloat f.
Proof.
  unfold eps_growth. intros H.
  match type of H with
  | try_except ?body _ _ = _ => destruct body as [g'|e] eqn:Hbody
  end.
  2: { destruct e; cbn in H; try discriminate. injection H as <-. now left. }
  cbn in H. injection H as ->. right.
  apply bind_Ok in Hbody as (xs & _ & H). apply bind_Ok in H as (ys & _ & H).
  apply bind_Ok in H as (terms & Hterms & H). apply bind_Ok in H as (m & Hm & H).
  assert (Forall (λ t, (∃ f, t = VFloat f) ∨ t = VComplex) terms) as Hkind.
  { apply mapR_Forall2 in Hterms. clear -Hterms.
    induction Hterms as [|xy t l r Ht _ IH]; constructor; [|assumption].
    apply bind_Ok in Ht as (q & Hq & Ht).
    apply py_truediv_kind in Hq as [[f ->] | ->]; cbn in Ht; injection Ht as <-; eauto. }
  destruct (mean_of_floats _ _ Hkind Hm) as [f ->].
  cbn in H. injection H as <-. eauto.
Qed.

(** X11. [eps_growth] on the edges of its input: a record without [EPSs]
    has growth 0 (the default series is 0, 0, and the division by zero is
    caught); a series of one item or none fails with [StatisticsError],
    which is not caught; a series that starts with a whole 0 followed by a
    number has growth 0; and whatever it returns is the int 0 or a float. *)
Theorem eps_growth_edges (s : Stock) :
  (s !! "EPSs" = None → eps_growth s = Ok (VInt 0))
  ∧ (∀ l, s !! "EPSs" = Some (VList l) → (length l ≤ 1)%nat →
       eps_growth s = Raise StatisticsError)
  ∧ (∀ y rest, s !! "EPSs" = Some (VList (VInt 0 :: y :: rest)) → is_Some (as_num y) →
       eps_growth s = Ok (VInt 0))
  ∧ (∀ g, eps_growth s = Ok g → g = VInt 0 ∨ ∃ f, g = VFloat f).
Proof.
  split; [|split; [|split; [|apply eps_growth_result]]].
  - intros H. unfold eps_growth, get. rewrite H. reflexivity.
  - intros l H Hl. unfold eps_growth, get. rewrite H.
    destruct l as [|x [|y l]]; [reflexivity | reflexivity | cbn in Hl; lia].
  - intros y rest H Hy. unfold eps_growth, get. rewrite H.
    cbn [slice_but_last slice_from_1 mbind result_bind tail].
    change (removelast (VInt 0 :: y :: rest)) with (VInt 0 :: removelast (y :: rest)).
    cbn [zip zip_with mapR fst snd]. rewrite (py_truediv_by_0 y Hy). reflexivity.
Qed.

Lemma mapR_mean_term_raises (data : list value) (e : exn) :
  mapR mean_term data = Raise e → e ≠ ZeroDivisionError.
Proof.
  induction data as [|x data IH]; [discriminate|]. cbn [mapR].
  destruct (mean_term x) as [t|e'] eqn:Hx; cbn [mbind result_bind].
  - destruct (mapR mean_term data); cbn; [discriminate|].
    intros [= <-]. now apply IH.
  - intros [= <-]. unfold mean_term in Hx.
    destruct (as_num x) as [[| f |]|]; try discriminate; try congruence.
    destruct (exact_float f); congruence.
Qed.

Lemma mean_never_divides_by_zero (data : list value) :
  raises ZeroDivisionError (mean data) = false.
Proof.
  unfold mean. destruct data as [|x data]; [reflexivity|].
  destruct (mapR mean_term (x :: data)) as [terms|e] eqn:H; cbn [mbind result_bind].
  - unfold signed_ratio.
    repeat match goal with
      | |- context [if ?c then _ else _] => destruct c
      end; reflexivity.
  - apply mapR_mean_term_raises in H. cbn. now apply bool_decide_eq_false.
Qed.

Lemma mean_per_never_divides_by_zero (s : Stock) :
  raises ZeroDivisionError (mean_per s) = false.
Proof.
  unfold mean_per. destruct (py_len _) as [n|e] eqn:Hn; cbn [mbind result_bind].
  - destruct (2 <? n); [|reflexivity].
    destruct (py_iter _) as [data|e] eqn:Hd; cbn [mbind result_bind].
    + apply mean_never_divides_by_zero.
    + destruct (get s "PERs" (VList [])); cbn in Hd; try discriminate;
        injection Hd as <-; reflexivity.
  - destruct (get s "PERs" (VList [])); cbn in Hn; try discriminate;
      injection Hn as <-; reflexivity.
Qed.

(** X12. Neither PEG ratio ends in a [ZeroDivisionError], and neither does
    [eps_growth]: the growth catches its own division by zero, and both
    ratios divide by the growth only after testing it against 0. *)
Theorem peg_never_divides_by_zero (s : Stock) :
  raises ZeroDivisionError (eps_growth s) = false
  ∧ raises ZeroDivisionError (peg_current_per s) = false
  ∧ raises ZeroDivisionError (peg_mean_per s) = false.
Proof.
  assert (raises ZeroDivisionError (eps_growth s) = false) as Hg
    by (unfold eps_growth; apply try_except_never).
  split; [exact Hg|].
  unfold peg_current_per, peg_mean_per, py_ne.
  destruct (eps_growth s) as [g|e] eqn:Hgrowth; cbn [mbind result_bind]; [|auto].
  destruct (py_eq g (VInt 0)) as [c|e] eqn:Hc; cbn [mbind result_bind].
  2: { apply py_eq_raises in Hc. subst e. auto. }
  destruct c; cbn [negb]; [auto|].
  assert (∀ a, raises ZeroDivisionError (py_truediv a g) = false) as Hdiv.
  { intros a. destruct (py_truediv a g) as [q|e] eqn:Hq; [reflexivity|].
    cbn. apply bool_decide_eq_false. intros ->.
    apply eps_growth_result in Hgrowth as [-> | [f ->]]; [discriminate Hc|].
    apply py_truediv_float_zero, float_zero in Hq.
    unfold py_eq in Hc. cbn -[xcompare] in Hc. rewrite Hq in Hc. discriminate Hc. }
  split; [apply Hdiv|].
  pose proof (mean_per_never_divides_by_zero s) as Hm.
  destruct (mean_per s) as [m|e]; cbn [mbind result_bind]; [apply Hdiv | exact Hm].
Qed.

End Growth.

(** ** The spread of the ROEs *)

Lemma is_int_real (v : value) : is_int v = true → real v = true.
Proof. now destruct v. Qed.

(** X13. On a series of whole ROEs, [roe_max_diff] returns a whole number
    that is not negative, and 0 when at most two of the ROEs are other than
    0. *)
Theorem roe_max_diff_not_negative (s : Stock) (l : list value) :
  s !! "ROEs" = Some (VList l) → forallb is_int l = true →
  ∃ d, roe_max_diff s = Ok (VInt d) ∧ 0 ≤ d
     ∧ ((length (filter (λ roe, truthy roe = true) l) ≤ 2)%nat → d = 0).
Proof.
  intros Hs Hint. unfold roe_max_diff, countable_roes, get. rewrite Hs.
  cbn [py_iter py_len mbind result_bind].
  set (l' := filter (λ roe, truthy roe = true) l).
  assert (Forall (λ x, is_int x = true) l') as Hl'.
  { apply Forall_forall. intros x Hx. apply list_elem_of_filter in Hx as [_ Hx].
    rewrite forallb_forall in Hint. apply Hint. now apply list_elem_of_In. }
  destruct (Z.ltb_spec 2 (Z.of_nat (length l'))) as [Hlen | Hlen].
  2: { exists 0. split; [reflexivity|]. split; [lia | reflexivity]. }
  assert (Forall (λ x, real x = true) l') as Hr
    by (eapply Forall_impl; [exact Hl' | apply is_int_real]).
  assert (l' ≠ []) as Hne by (intros E; rewrite E in Hlen; cbn in Hlen; lia).
  destruct (py_max_total l' Hr Hne) as [hi Hmax].
  destruct (py_min_total l' Hr Hne) as [lo Hmin].
  rewrite Hmax, Hmin. cbn [mbind result_bind].
  destruct (py_max_spec _ _ Hr Hmax) as [Hhi Hall].
  destruct (py_min_spec _ _ Hr Hmin) as [Hlo _].
  rewrite Forall_forall in Hl', Hall.
  pose proof (Hl' hi Hhi) as Ih. pose proof (Hl' lo Hlo) as Il.
  pose proof (Hall lo Hlo) as Hle.
  destruct hi as [| | a | | | | | | | | | |]; try discriminate Ih.
  destruct lo as [| | b | | | | | | | | | |]; try discriminate Il.
  rewrite py_lt_int in Hle. injection Hle as Hle. apply Z.ltb_ge in Hle.
  exists (a - b). rewrite py_sub_int. split; [reflexivity|]. split; [lia|].
  intros Hfew. subst l'. lia.
Qed.

(** ** The F-score *)

Lemma mapR_elem {A B} (f : A → result B) (l : list A) (r : list B) (y : B) :
  mapR f l = Ok r → y ∈ r → ∃ x, x ∈ l ∧ f x = Ok y.
Proof.
  intros H. apply mapR_Forall2 in H. induction H as [|x y' l r Hx _ IH]; intros Hy.
  - now apply elem_of_nil in Hy.
  - apply elem_of_cons in Hy as [-> | Hy].
    + exists x. split; [left | assumption].
    + destruct (IH Hy) as (x' & Hin & Hx'). exists x'. split; [now right | assumption].
Qed.

Lemma mapR_keys {A B} (f : A → result B) (g : A → value) (h : B → value)
    (l : list A) (r : list B) :
  (∀ x y, f x = Ok y → h y = g x) → mapR f l = Ok r → map h r = map g l.
Proof.
  intros Hf H. apply mapR_Forall2 in H.
  induction H as [|x y l r Hx _ IH]; [reflexivity|].
  cbn [map]. now rewrite (Hf _ _ Hx), IH.
Qed.

Section FScores.
Context {P : Platform}.

Lemma fscore_bits (s : Stock) (year : value) (f : FScore) :
  fscore s year = Ok f →
  0 ≤ total_issued_stock f ≤ 1 ∧ 0 ≤ profitable f ≤ 1 ∧ 0 ≤ cfo f ≤ 1.
Proof.
  unfold fscore. intros H.
  apply bind_Ok in H as (n & _ & H).
  apply bind_Ok in H as (t & Ht & H).
  apply bind_Ok in H as (NPs & _ & H).
  apply bind_Ok in H as (yp & _ & H).
  apply bind_Ok in H as (p & Hp & H).
  apply bind_Ok in H as (CFOs & _ & H).
  apply bind_Ok in H as (yc & _ & H).
  apply bind_Ok in H as (c & Hc & H).
  injection H as <-. cbn [total_issued_stock profitable cfo].
  assert (0 ≤ t ≤ 1) as Bt.
  { destruct (2 <? n); [|injection Ht as <-; lia].
    inv_bind Ht. injection Ht as <-. destruct a0; lia. }
  assert (0 ≤ p ≤ 1) as Bp.
  { destruct (map snd yp); [injection Hp as <-; lia|].
    inv_bind Hp. injection Hp as <-. destruct a; lia. }
  assert (0 ≤ c ≤ 1) as Bc.
  { destruct (map snd yc); [injection Hc as <-; lia|].
    inv_bind Hc. injection Hc as <-. destruct a; lia. }
  auto.
Qed.

(** The score for the issued stock does not look at the year. *)
Lemma fscore_issue (s : Stock) (y1 y2 : value) (f1 f2 : FScore) :
  fscore s y1 = Ok f1 → fscore s y2 = Ok f2 →
  total_issued_stock f1 = total_issued_stock f2.
Proof.
  unfold fscore. intros H1 H2.
  destruct (py_len (get s "TIs" (VList []))) as [n|]; [|discriminate].
  cbn [mbind result_bind] in H1, H2.
  match type of H1 with
  | (?m ≫= _) = _ => destruct m as [t|]; [|discriminate]
  end.
  cbn [mbind result_bind] in H1, H2.
  inv_bind H1. inv_bind H2. injection H1 as <-. injection H2 as <-. reflexivity.
Qed.

(** Without [exclude_future], [year_stat] never returns an empty list. *)
Lemma year_stat_not_empty (s : Stock) (stat : string) (rows : list (value * value)) :
  year_stat s stat false = Ok rows → rows ≠ [].
Proof.
  unfold year_stat. destruct (truthy (get s stat VNone)) eqn:Ht; cbn [negb].
  2: { intros [= <-]. discriminate. }
  intros H.
  assert (∃ x l, get s stat VNone = VList (x :: l)) as (x & l & Hs).
  { destruct (get s stat VNone) as [| | | | | | | | [|x l] | | | |];
      try discriminate Ht; eauto;
      destruct (get s "last_year_index" VNone); discriminate H. }
  rewrite Hs in H. destruct (get s "last_year_index" VNone) eqn:Hn; try discriminate H;
    cbn [py_iter mbind result_bind] in H;
    apply bind_Ok in H as (rs & Hrs & H); injection H as <-;
    unfold enumerate in Hrs; rewrite imap_cons in Hrs; cbn [mapR] in Hrs;
    apply bind_Ok in Hrs as (r0 & Hr0 & Hrs);
    apply bind_Ok in Hrs as (rs' & _ & Hrs); injection Hrs as <-;
    cbn [negb mbind result_bind] in Hr0;
    apply bind_Ok in Hr0 as (y & _ & Hr0); injection Hr0 as <-; discriminate.
Qed.

(** X14. Whenever [fscores] returns, it has one entry for each year of the
    net profits, in their order, and at least one; every entry carries the
    same score for the issued stock; and [latest_fscore] returns a whole
    number from 0 to 3. *)
Theorem fscores_by_year (s : Stock) (l : list (value * FScore)) :
  fscores s = Ok l →
  (∃ NPs, year_stat s "NPs" false = Ok NPs ∧ map fst l = map fst NPs)
  ∧ l ≠ []
  ∧ (∀ e1 e2, e1 ∈ l → e2 ∈ l → total_issued_stock e1.2 = total_issued_stock e2.2)
  ∧ ∃ n, latest_fscore s = Ok (VInt n) ∧ 0 ≤ n ≤ 3.
Proof.
  intros H. unfold latest_fscore. rewrite H. cbn [mbind result_bind].
  unfold fscores in H. apply bind_Ok in H as (NPs & HNPs & H).
  assert (map fst l = map fst NPs) as Hyears.
  { apply (mapR_keys _ fst fst _ _) in H; [exact H|].
    intros np e He. inv_bind He. now injection He as <-. }
  assert (∀ e, e ∈ l → ∃ y, fscore s y = Ok e.2) as Hscore.
  { intros e He. destruct (mapR_elem _ _ _ _ H He) as (np & _ & Hnp).
    inv_bind Hnp. injection Hnp as <-. eauto. }
  assert (l ≠ []) as Hne.
  { intros ->. apply year_stat_not_empty in HNPs. destruct NPs; [congruence | discriminate]. }
  split; [eauto|]. split; [exact Hne|]. split.
  - intros e1 e2 H1 H2. destruct (Hscore e1 H1) as [y1 Hy1], (Hscore e2 H2) as [y2 Hy2].
    eapply fscore_issue; eassumption.
  - destruct (last l) as [[y f]|] eqn:Hlast; [|apply last_None in Hlast; congruence].
    destruct (Hscore (y, f) (last_Some_elem_of _ _ Hlast)) as [y' Hf].
    apply fscore_bits in Hf. cbn [snd] in Hf. eexists. split; [reflexivity|]. lia.
Qed.

End FScores.

(** ** Records without a price-to-book ratio, or without a price *)

Section Absent.
Context {P : Platform}.

(** X15. On a record without [pbr], whenever [low_pbr] returns: [mid_pbr]
    raises [TypeError], since the absent ratio is added to the low one; and
    so do the future price by the mid PBR and the expected rate by the mid
    PBR whenever the projected book value computes. *)
Theorem mid_pbr_needs_pbr (s : Stock) (lo : value) :
  s !! "pbr" = None → low_pbr s = Ok lo →
  mid_pbr s = Raise TypeError
  ∧ (∀ future b, calc_future_bps s future = Ok b →
       calc_future_price_low_current_mid_pbr s future = Raise TypeError)
  ∧ (∀ b, calc_future_bps s (VInt FUTURE) = Ok b →
       expected_rate_by_mid_pbr s = Raise TypeError).
Proof.
  intros Hp Hlo.
  assert (mid_pbr s = Raise TypeError) as Hmid.
  { unfold mid_pbr, get. rewrite Hlo, Hp. cbn [mbind result_bind].
    unfold py_add. now destruct (as_num lo), lo. }
  assert (∀ future b, calc_future_bps s future = Ok b →
            calc_future_price_low_current_mid_pbr s future = Raise TypeError) as Hprice.
  { intros future b Hb. unfold calc_future_price_low_current_mid_pbr.
    now rewrite Hb, Hmid. }
  split; [exact Hmid|]. split; [exact Hprice|].
  intros b Hb. unfold expected_rate_by_mid_pbr, calc_expected_rate.
  now rewrite (Hprice _ _ Hb).
Qed.

(** X16. On a record without [pbr], the future price by the current PBR
    raises [KeyError] whenever the projected book value computes, and so
    does the expected rate by the current PBR: they read the ratio as an
    item, not through [get]. *)
Theorem current_pbr_rates_need_pbr (s : Stock) :
  s !! "pbr" = None →
  (∀ future b, calc_future_bps s future = Ok b →
     calc_future_price_current_pbr s future = Raise KeyError)
  ∧ (∀ b, calc_future_bps s (VInt FUTURE) = Ok b →
       expected_rate_by_current_pbr s = Raise KeyError).
Proof.
  intros Hp.
  assert (∀ future b, calc_future_bps s future = Ok b →
            calc_future_price_current_pbr s future = Raise KeyError) as Hk.
  { intros future b Hb. unfold calc_future_price_current_pbr, getitem.
    now rewrite Hb, Hp. }
  split; [exact Hk|].
  intros b Hb. unfold expected_rate_by_current_pbr, calc_expected_rate.
  now rewrite (Hk _ _ Hb).
Qed.

(** X17. What [intrinsic_value] returns is an int; and on a record whose
    [current_price] is 0, [intrinsic_discount_rate] fails whenever the
    intrinsic value computes: on the division by zero, or before it on the
    conversion of an intrinsic value too large for a float. *)
Theorem intrinsic_discount_rate_needs_a_price (s : Stock) (v : value) :
  intrinsic_value s = Ok v →
  (∃ z, v = VInt z)
  ∧ (current_price s = VInt 0 →
       raised (intrinsic_discount_rate s) = Some ZeroDivisionError
       ∨ raised (intrinsic_discount_rate s) = Some OverflowError).
Proof.
  intros Hv.
  assert (∃ z, v = VInt z) as [z ->].
  { unfold intrinsic_value in Hv. inv_bind Hv. eapply py_int_VInt, Hv. }
  split; [eauto|]. intros Hp.
  unfold intrinsic_discount_rate. rewrite Hv, Hp. cbn [mbind result_bind].
  replace (py_truediv (VFloat 1) (VInt 1)) with (Ok (VFloat 1)) by (vm_compute; reflexivity).
  cbn [mbind result_bind].
  replace (py_pow (VInt 0) (VFloat 1)) with (Ok (VFloat 0)) by (vm_compute; reflexivity).
  cbn [mbind result_bind py_truediv as_num arith]. unfold float_of_int.
  destruct (is_infinity (float_of_Z z)); [right | left]; reflexivity.
Qed.

End Absent.

(** ** The listing route *)

Section ListingRoute.
Context {P : Platform}.

(** X18. Whenever the listing route returns, it renders a list under the
    [order_by] and [ordering] of the request, by default the expected rate,
    descending, in that order. Every listed record is in the store and has
    an expected rate, which is below 0 under the status [bad] and above 0
    under any other status or none; and under the status [starred],
    [owned], [starredorowned] or [doubtful] every listed record matches
    that flag. *)
Theorem stocks_lists_by_status (st : store) (status order_by ordering : option string)
    (resp : response) :
  stocks st status order_by ordering = Ok resp →
  ∃ l,
    resp = RenderList l (default "expected_rate" order_by) (default "desc" ordering) status
    ∧ StronglySorted
        (listed_in_order (default "expected_rate" order_by) (default "desc" ordering)) l
    ∧ (∀ d, d ∈ l →
         d ∈ docs st
         ∧ ∃ rate, expected_rate d = Ok rate
             ∧ (if bool_decide (status = Some "bad")
                then py_lt rate (VInt 0) else py_gt rate (VInt 0)) = Ok true)
    ∧ (∀ flag, flag ∈ ["starred"; "owned"; "doubtful"] → status = Some flag →
         ∀ d, d ∈ l → matches (QEq flag (VBool true)) d = true)
    ∧ (status = Some "starredorowned" →
         ∀ d, d ∈ l → matches (QEq "starred" (VBool true)) d
                      || matches (QEq "owned" (VBool true)) d = true).
Proof.
  intros H. unfold stocks in H. cbv zeta in H.
  apply bind_Ok in H as (l & Hl & H). injection H as <-. exists l.
  split; [reflexivity|].
  unfold all_stocks in Hl. apply bind_Ok in Hl as (kept & Hkept & Hsort).
  apply filterR_Ok in Hkept as [-> _].
  apply py_sorted_spec in Hsort as (Hperm & _ & Hsorted).
  rewrite negb_involutive in Hsorted. split; [exact Hsorted|].
  assert (∀ d, d ∈ l →
            ∃ q, d ∈ find st q
              ∧ filter_func (negb (bool_decide (status = Some "bad"))) d = Ok true
              ∧ (∀ flag, flag ∈ ["starred"; "owned"; "doubtful"] → status = Some flag →
                   q = Some (QEq flag (VBool true)))
              ∧ (status = Some "starredorowned" →
                   q = Some (QOr [QEq "starred" (VBool true); QEq "owned" (VBool true)])))
    as Hin.
  { intros d Hd. rewrite Hperm in Hd. apply list_elem_of_filter in Hd as [Hpass Hd].
    eexists. split; [exact Hd|]. split; [exact Hpass|]. split.
    - intros flag Hflag ->. rewrite !elem_of_cons, elem_of_nil in Hflag.
      destruct Hflag as [-> | [-> | [-> | []]]]; reflexivity.
    - intros ->. reflexivity. }
  split; [|split].
  - intros d Hd. destruct (Hin d Hd) as (q & Hfind & Hpass & _).
    split.
    + destruct q as [q|]; cbn [find] in Hfind; [|exact Hfind].
      now apply list_elem_of_filter in Hfind as [_ Hfind].
    + unfold filter_func in Hpass. apply bind_Ok in Hpass as (rate & Hrate & Hpass).
      exists rate. split; [exact Hrate|].
      now destruct (bool_decide (status = Some "bad")).
  - intros flag Hflag Hst d Hd. destruct (Hin d Hd) as (q & Hfind & _ & Hq & _).
    rewrite (Hq flag Hflag Hst) in Hfind. cbn [find] in Hfind.
    now apply list_elem_of_filter in Hfind as [Hfind _].
  - intros Hst d Hd. destruct (Hin d Hd) as (q & Hfind & _ & _ & Hq).
    rewrite (Hq Hst) in Hfind. cbn [find] in Hfind.
    apply list_elem_of_filter in Hfind as [Hfind _]. cbn [matches] in Hfind |- *.
    now rewrite orb_false_r in Hfind.
Qed.

End ListingRoute.

(** ** The routes that edit one field *)

Lemma save_unknown (st : store) (k : string) (v : value) :
  k ≠ "code" → save_stock st StockInstance (<[k := v]> ∅) = Raise KeyError.
Proof.
  intros Hk. unfold save_stock, getitem.
  rewrite lookup_insert_ne, lookup_empty by congruence. reflexivity.
Qed.

(** X19. For a code that no record has, the routes that store a price, an
    adjusted future ROE, an adjusted future PBR or a note raise [KeyError]:
    the record they load is empty and has no code to save under. Nothing is
    written. *)
Theorem edits_of_a_missing_record_fail (st : store) (code : string) :
  find_one st (QEq "code" (VStr code)) = None →
  (∀ x, stock_my_price st code x = Raise KeyError)
  ∧ (∀ x, stock_adjusted_future_roe st code x = Raise KeyError)
  ∧ (∀ x, stock_adjusted_future_pbr st code x = Raise KeyError)
  ∧ (∀ note, stock_update_note st code note = Raise KeyError).
Proof.
  intros Hf.
  unfold stock_my_price, stock_adjusted_future_roe, stock_adjusted_future_pbr,
    stock_update_note, stock_by_code.
  rewrite Hf. cbv zeta.
  repeat split; intros; rewrite save_unknown by discriminate; reflexivity.
Qed.

(** X20. For a code that no record has, the two routes that clear an
    adjustment, and the flag toggle on a field other than [code], raise
    [KeyError] as well, and write nothing. *)
Theorem clears_of_a_missing_record_fail (st : store) (code : string) :
  find_one st (QEq "code" (VStr code)) = None →
  stock_clear_adjusted_future_pbr st code = Raise KeyError
  ∧ stock_clear_adjusted_future_roe st code = Raise KeyError
  ∧ (∀ status on, status ≠ "code" → stock_status st code status on = Raise KeyError).
Proof.
  intros Hf.
  unfold stock_clear_adjusted_future_pbr, stock_clear_adjusted_future_roe,
    stock_status, stock_by_code.
  rewrite Hf. cbv zeta.
  repeat split; intros; rewrite ?save_unknown by discriminate; try reflexivity.
  unfold getitem at 1. rewrite lookup_insert_eq. cbn [mbind result_bind].
  assert (∀ s : Stock, s !! "code" = None →
            save_stock st StockInstance s = Raise KeyError) as Hsave
    by (intros s Hs; unfold save_stock, getitem; now rewrite Hs).
  rewrite Hsave; [reflexivity|].
  repeat match goal with
    | |- context [if ?c then _ else _] => destruct c
    end;
    rewrite ?lookup_insert_ne by (congruence || discriminate); apply lookup_empty.
Qed.

(** Saving a stored record with one more field, other than its code. *)
Lemma save_edited (st st' : store) (code k : string) (v : value) (d r : Stock) :
  scalar_codes st = true →
  find_one st (QEq "code" (VStr code)) = Some d →
  k ≠ "code" →
  save_stock st StockInstance (<[k := v]> d) = Ok (st', r) →
  stock_by_code st' (VStr code) = <[k := v]> d
  ∧ ∃ pre post,
      docs st = pre ++ d :: post
      ∧ Forall (λ x, x !! "code" ≠ Some (VStr code)) pre
      ∧ docs st' = pre ++ <[k := v]> d :: post.
Proof.
  intros Hs Hf Hk H.
  pose proof (find_one_code _ _ _ Hs Hf) as Hcode.
  assert ((<[k := v]> d) !! "code" = Some (VStr code)) as Hc
    by (rewrite lookup_insert_ne; [assumption | congruence]).
  assert (<[k := v]> d ∪ d = <[k := v]> d) as Habs.
  { apply union_absorb. intros k' Hk'. now apply lookup_insert_None in Hk' as [? _]. }
  destruct (save_stock_scalar _ _ _ _ _ _ Hs Hc H) as (_ & Hr & _).
  destruct (save_stock_inv _ _ _ _ _ _ Hs Hc H) as
    [(pre & d0 & post & Hf0 & Hl & Hpre & _ & Hl' & Hr0) | (Hnone & _)];
    [|congruence].
  rewrite Hf in Hf0. injection Hf0 as <-. rewrite Habs in Hl', Hr0.
  split; [congruence|]. eauto.
Qed.

Lemma edit_route (st st' : store) (code k endpoint : string) (v : value) (d : Stock)
    (resp : response) :
  scalar_codes st = true →
  find_one st (QEq "code" (VStr code)) = Some d →
  k ≠ "code" →
  (r ← save_stock st StockInstance (<[k := v]> (stock_by_code st (VStr code)));
   Ok (r.1, Redirect endpoint (Some code))) = Ok (st', resp) →
  resp = Redirect endpoint (Some code) ∧ stored_with st st' code d k v.
Proof.
  intros Hs Hf Hk H. unfold stock_by_code in H. rewrite Hf in H.
  apply bind_Ok in H as ([st2 r] & Hsave & H). cbn [fst] in H. injection H as <- <-.
  split; [reflexivity|]. eapply save_edited; eassumption.
Qed.

(** Editing a record that has no title fails where the update is printed. *)
Lemma edit_route_untitled (st : store) (code k endpoint : string) (v : value) (d : Stock) :
  scalar_codes st = true →
  find_one st (QEq "code" (VStr code)) = Some d →
  k ≠ "code" → k ≠ "title" → d !! "title" = None →
  (r ← save_stock st StockInstance (<[k := v]> (stock_by_code st (VStr code)));
   Ok (r.1, Redirect endpoint (Some code))) = Raise KeyError.
Proof.
  intros Hs Hf Hk Hkt Ht. unfold stock_by_code. rewrite Hf.
  rewrite (save_stock_untitled st (<[k := v]> d) d code); [reflexivity | | | assumption].
  - rewrite lookup_insert_ne by congruence. eapply find_one_code; eassumption.
  - rewrite lookup_insert_ne by congruence. assumption.
Qed.

(** X21. For a record found by its code, whenever one of the three routes
    that store a number returns: the stored record is the one found with
    that one field set to the submitted float (0.0 when the form lacks it),
    standing where the found record stood among the same other records;
    and the route redirects to the refresh. On a record without a title
    the three routes raise [KeyError], where [save_stock] prints the
    update, and write nothing. *)
Theorem number_routes_set_one_field (st st' : store) (code : string) (d : Stock)
    (resp : response) (x : option float) :
  scalar_codes st = true →
  find_one st (QEq "code" (VStr code)) = Some d →
  (stock_my_price st code x = Ok (st', resp) →
     resp = Redirect "stock_refresh" (Some code)
     ∧ stored_with st st' code d "my_price" (VFloat (default 0%float x)))
  ∧ (stock_adjusted_future_roe st code x = Ok (st', resp) →
       resp = Redirect "stock_refresh" (Some code)
       ∧ stored_with st st' code d "adjusted_future_roe" (VFloat (default 0%float x)))
  ∧ (stock_adjusted_future_pbr st code x = Ok (st', resp) →
       resp = Redirect "stock_refresh" (Some code)
       ∧ stored_with st st' code d "adjusted_future_pbr" (VFloat (default 0%float x)))
  ∧ (d !! "title" = None →
       stock_my_price st code x = Raise KeyError
       ∧ stock_adjusted_future_roe st code x = Raise KeyError
       ∧ stock_adjusted_future_pbr st code x = Raise KeyError).
Proof.
  intros Hs Hf.
  split; [|split; [|split]];
    try (intros H; eapply edit_route; try eassumption; discriminate).
  intros Ht. repeat split; eapply edit_route_untitled; try eassumption; discriminate.
Qed.

(** X22. For a record found by its code, whenever the note route or one of
    the two clearing routes returns: the stored record is the one found
    with the note set to the submitted text (the empty string when the form
    lacks it), respectively with the adjustment set to the int 0, standing
    where the found record stood among the same other records; the note
    route redirects to the detail page and the clearing routes to the
    refresh. On a record without a title the three routes raise
    [KeyError], where [save_stock] prints the update, and write nothing. *)
Theorem note_and_clear_routes_set_one_field (st st' : store) (code : string) (d : Stock)
    (resp : response) :
  scalar_codes st = true →
  find_one st (QEq "code" (VStr code)) = Some d →
  (∀ note, stock_update_note st code note = Ok (st', resp) →
     resp = Redirect "stock" (Some code)
     ∧ stored_with st st' code d "note" (VStr (default "" note)))
  ∧ (stock_clear_adjusted_future_pbr st code = Ok (st', resp) →
       resp = Redirect "stock_refresh" (Some code)
       ∧ stored_with st st' code d "adjusted_future_pbr" (VInt 0))
  ∧ (stock_clear_adjusted_future_roe st code = Ok (st', resp) →
       resp = Redirect "stock_refresh" (Some code)
       ∧ stored_with st st' code d "adjusted_future_roe" (VInt 0))
  ∧ (d !! "title" = None →
       (∀ note, stock_update_note st code note = Raise KeyError)
       ∧ stock_clear_adjusted_future_pbr st code = Raise KeyError
       ∧ stock_clear_adjusted_future_roe st code = Raise KeyError).
Proof.
  intros Hs Hf.
  split; [|split; [|split]];
    try (intros; eapply edit_route; try eassumption; discriminate).
  intros Ht. repeat split; intros; eapply edit_route_untitled; try eassumption; discriminate.
Qed.

(** ** A snapshot on a new day *)

Section NewDay.
Context {P : Platform}.

(** X23. [save_record] on a record that is neither starred nor owned
    writes nothing and leaves the record as it is. On a flagged record
    whose [records] are empty or end with an entry of another day, a call
    that returns has stored the old entries followed by one new entry, the
    snapshot of the day. *)
Theorem save_record_appends_on_a_new_day (self : Stock) (st : store) (now : datetime) :
  (flag_on self "starred" || flag_on self "owned" = false →
     save_record self st now = Ok (self, st))
  ∧ (∀ s' st' c l,
       scalar_codes st = true →
       self !! "code" = Some (VStr c) →
       flag_on self "starred" || flag_on self "owned" = true →
       get self "records" (VList []) = VList l →
       match last l with Some e => dated (midnight now) e | None => false end = false →
       save_record self st now = Ok (s', st') →
       ∃ snap,
         snapshot self (VDate (midnight now)) = Ok snap
         ∧ dated (midnight now) snap = true
         ∧ stock_by_code st' (VStr c) !! "records" = Some (VList (l ++ [snap]))).
Proof.
  split.
  - intros H. apply orb_false_elim in H as [H1 H2]. unfold flag_on in H1, H2.
    unfold save_record. now rewrite H1, H2.
  - intros s' st' c l Hs Hc Hflag Hl Hlast H.
    destruct (save_record_inv _ _ _ _ _ _ Hs Hc Hflag H)
      as (snap & l0 & Hsnap & Hl0 & Hst & _ & _).
    rewrite Hl in Hl0. injection Hl0 as <-. rewrite Hlast in Hst.
    exists snap. split; [exact Hsnap|]. split; [|exact Hst].
    eapply snapshot_dated, Hsnap.
Qed.

End NewDay.

(** ** The years of the yearly series, and records without ratios *)

Lemma filter_all {A} (Q : A → Prop) `{∀ x, Decision (Q x)} (l : list A) :
  (∀ x, Q x) → filter Q l = l.
Proof.
  intros HQ. induction l as [|x l IH]; [reflexivity|].
  rewrite filter_cons_True by apply HQ. now rewrite IH.
Qed.

Section Series.
Context {P : Platform}.

Lemma year_stat_years (s : Stock) (stat : string) (n : Z) (l : list value) :
  s !! "last_year_index" = Some (VInt n) →
  s !! stat = Some (VList l) → l ≠ [] →
  ∃ rows, year_stat s stat false = Ok rows
    ∧ map snd rows = l
    ∧ map fst rows
      = map (λ i, VInt (LAST_YEAR - (n - i))) (seqZ 0 (Z.of_nat (length l))).
Proof.
  intros Hn Hs Hne. destruct l as [|x l]; [congruence|].
  rewrite (year_stat_int s stat false n x l Hs Hn). eexists. split; [reflexivity|].
  rewrite filter_all by discriminate. rewrite !map_map. cbn [fst snd].
  unfold aligned. rewrite !map_map. cbn [fst snd]. split.
  - unfold enumerate.
    change (map (λ iv : Z * value, iv.2) (imap (λ i v, (Z.of_nat i, v)) (x :: l)))
      with (snd <$> imap (λ i v, (Z.of_nat i, v)) (x :: l)).
    rewrite fmap_imap. rewrite (imap_ext _ (const id)) by reflexivity.
    rewrite imap_const. apply list_fmap_id.
  - rewrite <- enumerate_indices, map_map. reflexivity.
Qed.

(** X24. With a whole [last_year_index] [n], each of [roes], [pbrs],
    [pers] and [epss] on a series with items returns the items of its
    series in their order, the item at index [i] under the year
    [LAST_YEAR - (n - i)], future years included; so series of one length
    carry the same years. *)
Theorem yearly_series_share_their_years (s : Stock) (n : Z) :
  s !! "last_year_index" = Some (VInt n) →
  ∀ name series l,
    (name, series) ∈ [("ROEs", roes); ("PBRs", pbrs); ("PERs", pers); ("EPSs", epss)] →
    s !! name = Some (VList l) → l ≠ [] →
    ∃ rows, series s = Ok rows
      ∧ map snd rows = l
      ∧ map fst rows
        = map (λ i, VInt (LAST_YEAR - (n - i))) (seqZ 0 (Z.of_nat (length l))).
Proof.
  intros Hn name series l Hin Hs Hne.
  rewrite !elem_of_cons, elem_of_nil in Hin.
  destruct Hin as [[= -> ->] | [[= -> ->] | [[= -> ->] | [[= -> ->] | []]]]];
    now apply year_stat_years.
Qed.

(** X25. A record without [PBRs] has a low and a high PBR of 0 and no
    calculable PBR; its future prices by the low and by the high PBR are 0
    whenever the projected book value computes, and at a whole current
    price other than 0 its expected rate by the low PBR is -100.0. *)
Theorem no_pbr_history_rates_minus_100 (s : Stock) :
  truthy (get s "PBRs" VNone) = false →
  low_pbr s = Ok (VInt 0) ∧ high_pbr s = Ok (VInt 0)
  ∧ calculable_pbr_count s = Ok (VInt 0)
  ∧ (∀ future b, calc_future_bps s future = Ok b →
       calc_future_price_low_pbr s future = Ok (VInt 0)
       ∧ calc_future_price_high_pbr s future = Ok (VInt 0))
  ∧ (∀ b p, calc_future_bps s (VInt FUTURE) = Ok b → current_price s = VInt p → p ≠ 0 →
       expected_rate_by_low_pbr s = Ok (VFloat (-100))).
Proof.
  intros H.
  assert (low_pbr s = Ok (VInt 0)) as Hlo
    by (unfold low_pbr; now rewrite year_stat_absent).
  assert (high_pbr s = Ok (VInt 0)) as Hhi
    by (unfold high_pbr; now rewrite year_stat_absent).
  assert (∀ future b, calc_future_bps s future = Ok b →
            calc_future_price_low_pbr s future = Ok (VInt 0)
            ∧ calc_future_price_high_pbr s future = Ok (VInt 0)) as Hprice.
  { intros future b Hb. destruct (calc_future_bps_int _ _ _ Hb) as [z ->].
    unfold calc_future_price_low_pbr, calc_future_price_high_pbr.
    rewrite Hb, Hlo, Hhi. cbn. now rewrite Z.mul_0_r. }
  split; [exact Hlo|]. split; [exact Hhi|].
  split; [unfold calculable_pbr_count; now rewrite year_stat_absent|].
  split; [exact Hprice|]. intros b p Hb Hp Hne.
  apply (zero_value_rate s _ p); [|assumption ..].
  now destruct (Hprice _ _ Hb).
Qed.

End Series.
(** ** Concrete runs on the reference platform *)

#[local] Existing Instance reference_platform.

Lemma year_stat_alignment_witness :
  year_stat five_years "EPSs" false =
    Ok [(VInt 2021, VInt 1); (VInt 2022, VInt 2); (VInt 2023, VInt 3);
        (VInt 2024, VInt 4); (VInt 2025, VInt 5)]
  ∧ year_stat five_years "PBRs" true =
    Ok [(VInt 2021, VInt 1); (VInt 2022, VInt 2); (VInt 2023, VInt 3);
        (VInt 2024, VInt 4); (VInt 2025, VInt 5)]
  ∧ year_stat five_years "ROEs" true = Ok [(VInt 0, VInt 0)].
Proof.
  split; [|split].
  - destruct (year_stat_alignment five_years "EPSs" false) as [_ H].
    destruct (H (VInt 1) [VInt 2; VInt 3; VInt 4; VInt 5] ltac:(vm_compute; reflexivity))
      as [_ H4].
    rewrite (H4 4 ltac:(vm_compute; reflexivity)). vm_compute. reflexivity.
  - destruct (year_stat_alignment five_years "PBRs" true) as [_ H].
    destruct (H (VInt 1) [VInt 2; VInt 3; VInt 4; VInt 5; VInt 6; VInt 7]
                ltac:(vm_compute; reflexivity)) as [_ H4].
    rewrite (H4 4 ltac:(vm_compute; reflexivity)). vm_compute. reflexivity.
  - destruct (year_stat_alignment five_years "ROEs" true) as [H _].
    apply H. left. vm_compute. reflexivity.
Defined.

Lemma stock_by_code_first_or_empty_witness :
  let st := Store [sample "A" (VInt 1) []; sample "B" (VInt 2) []; sample "B" (VInt 3) []] 0 in
  stock_by_code st (VStr "B") = sample "B" (VInt 2) []
  ∧ stock_by_code st (VStr "Z") = ∅.
Proof.
  intros st.
  destruct (stock_by_code_first_or_empty st "B" ltac:(vm_compute; reflexivity)) as [H1 _].
  destruct (stock_by_code_first_or_empty st "Z" ltac:(vm_compute; reflexivity)) as [_ H2].
  split.
  - apply (H1 [sample "A" (VInt 1) []] _ [sample "B" (VInt 3) []] eq_refl).
    + repeat constructor. vm_compute. discriminate.
    + vm_compute. reflexivity.
  - apply H2. repeat constructor; vm_compute; discriminate.
Defined.

(** C5 as stated fails: looking up a code that no record has is not a
    failure. The lookup on an empty store returns an empty [Stock], and the
    detail route renders it. *)
Lemma stock_by_code_missing_is_empty :
  stock_by_code empty_store (VStr "005930") = ∅
  ∧ stock empty_store "005930" = Ok (RenderDetail ∅).
Proof. split; reflexivity. Qed.

(** On the reference platform: the default price, an explicit price, and
    records whose price is the int 0 and the float 0.0. *)
Lemma calc_expected_rate_cases_witness :
  let s := sample "A" (VInt 20000) [] in
  let z := sample "Z" (VInt 0) [] in
  let f := sample "F" (VFloat 0) [] in
  calc_expected_rate s (calc_future_bps s) (VInt 10) (VInt 0)
  = calc_expected_rate s (calc_future_bps s) (VInt 10) (VInt 20000)
  ∧ calc_expected_rate s (calc_future_bps s) (VInt 10) VNone
    = Ok (VFloat 2.6334610544396897)
  ∧ calc_expected_rate s (calc_future_bps s) (VInt 10) (VInt 12968)
    = Ok (VFloat 7.177759484222812)
  ∧ calc_expected_rate z (calc_future_bps z) (VInt 10) VNone
    = Raise ZeroDivisionError
  ∧ calc_expected_rate f (calc_future_bps f) (VInt 10) (VInt 0)
    = Raise ZeroDivisionError.
Proof.
  intros s z f. split; [|split; [|split; [|split]]].
  - apply (proj1 (calc_expected_rate_cases s
                    (calc_future_bps s) (VInt 10) (VInt 0))).
    reflexivity.
  - pose proof (proj1 (proj2 (calc_expected_rate_cases s
                    (calc_future_bps s) (VInt 10) VNone))) as H.
    erewrite H; [| vm_compute; reflexivity ..]. vm_compute. reflexivity.
  - pose proof (proj1 (proj2 (calc_expected_rate_cases s
                    (calc_future_bps s) (VInt 10) (VInt 12968)))) as H.
    erewrite H; [| vm_compute; reflexivity ..]. vm_compute. reflexivity.
  - apply (proj1 (proj2 (proj2 (calc_expected_rate_cases z
                    (calc_future_bps z) (VInt 10) VNone))) (VInt 25937));
      try (vm_compute; reflexivity). now eexists.
  - apply (proj2 (proj2 (proj2 (calc_expected_rate_cases f
                    (calc_future_bps f) (VInt 10) (VInt 0)))) 25937 0%float);
      vm_compute; reflexivity.
Defined.

Lemma reference_pow_faithful (x : float) (n : Z) :
  float_is_integer (float_of_Z n) = true → (0 <? float_of_Z n)%float = true →
  float_to_Z (float_of_Z n) = n → pow_faithful x n.
Proof.
  intros Hi Hp Hn. unfold pow_faithful. cbn [libm_pow reference_platform].
  unfold reference_pow. rewrite Hi, Hp. cbn [andb]. rewrite Hn.
  rewrite !elem_of_cons. tauto.
Qed.

(** The sample record: four years of 10% ROE and no dividend give
    [future_roe = 10.0]. *)
Lemma future_bps_and_invest_price_witness :
  calc_future_bps (sample "A" (VInt 20000) []) (VInt 10) = Ok (VInt 25937)
  ∧ invest_price (sample "A" (VInt 20000) []) = Ok (VInt 6411).
Proof.
  destruct (future_bps_and_invest_price (sample "A" (VInt 20000) [])) as [H1 H2].
  split.
  - apply (H1 (VFloat 10)).
    + apply reference_pow_faithful; vm_compute; reflexivity.
    + vm_compute. reflexivity.
    + vm_compute. reflexivity.
    + vm_compute. reflexivity.
    + rewrite !elem_of_cons. tauto.
  - apply H2.
    + apply reference_pow_faithful; vm_compute; reflexivity.
    + vm_compute. reflexivity.
Defined.

(** C2 as stated fails in its second figure: with [future_bps = 25937] the
    invest price is 6411, not 6412 (25937 / 1.15 ** 10 = 6411.2...). *)
Lemma invest_price_is_not_6412 :
  future_bps (sample "A" (VInt 20000) []) = Ok (VInt 25937)
  ∧ invest_price (sample "A" (VInt 20000) []) = Ok (VInt 6411)
  ∧ invest_price (sample "A" (VInt 20000) []) ≠ Ok (VInt 6412).
Proof. split; [|split]; vm_compute; [reflexivity | reflexivity | discriminate]. Qed.

(** The unfiltered listing of a store whose only record has price 0. *)
Lemma all_stocks_raises_on_fetched_zero_price_witness :
  all_stocks zero_price_store "expected_rate" "desc" None true = Raise ZeroDivisionError.
Proof.
  destruct (all_stocks_raises_on_fetched_zero_price zero_price_store "expected_rate" "desc"
              None true (sample "Z" (VInt 0) [])) as (_ & _ & H).
  - left.
  - right. vm_compute. reflexivity.
  - apply (H [] [] (VInt 25937)).
    + reflexivity.
    + constructor.
    + vm_compute. reflexivity.
Defined.

(** C10 as stated fails: the collection holds a record with price 0, the
    unfiltered listing raises, and yet the starred listing, whose query
    does not fetch that record, returns a list. *)
Lemma starred_listing_survives_zero_price :
  current_price (sample "Z" (VInt 0) []) = VInt 0
  ∧ docs zero_price_store = [sample "Z" (VInt 0) []]
  ∧ stocks zero_price_store None None None = Raise ZeroDivisionError
  ∧ all_stocks zero_price_store "expected_rate" "desc" (Some (QEq "starred" (VBool true))) true
    = Ok []
  ∧ stocks zero_price_store (Some "starred") None None
    = Ok (RenderList [] "expected_rate" "desc" (Some "starred")).
Proof. repeat split; vm_compute; reflexivity. Qed.

(** A store with one starred record of positive expected rate: the default
    listing returns it, and the route fails on it. *)
Lemma stocks_fill_calls_a_missing_method_witness :
  let st := Store [sample "A" (VInt 20000) [("starred", VBool true)]] 0 in
  all_stocks st "title" "asc" None true = Ok [sample "A" (VInt 20000) [("starred", VBool true)]]
  ∧ stocks_fill_snowball_stats st = Raise AttributeError.
Proof.
  intros st.
  assert (all_stocks st "title" "asc" None true
          = Ok [sample "A" (VInt 20000) [("starred", VBool true)]]) as Hl
    by (vm_compute; reflexivity).
  split; [exact Hl|].
  exact (proj1 (stocks_fill_calls_a_missing_method st (λ _, eq_refl)) _ _ Hl).
Defined.

(** Saving a payload for an existing code, as a plain [dict]: the note and
    the star of the stored record survive, the price is replaced. The same
    payload as a [Stock], which has no title, fails and a [Stock] with a
    title is saved. *)
Lemma save_stock_upsert_witness :
  (∃ st' r,
     save_stock starred_store PlainDict payload = Ok (st', r)
     ∧ r = stock_by_code st' (VStr "A")
     ∧ r !! "note" = Some (VStr "watch")
     ∧ r !! "starred" = Some (VBool true)
     ∧ r !! "current_price" = Some (VInt 21000)
     ∧ length (docs st') = 2%nat)
  ∧ save_stock starred_store StockInstance payload = Raise KeyError
  ∧ (∃ st' r,
       save_stock starred_store StockInstance (<["note" := VStr "sold"]> starred_A)
       = Ok (st', r)
       ∧ r !! "note" = Some (VStr "sold")
       ∧ r !! "title" = Some (VStr "A")).
Proof.
  split; [|split].
  - destruct (save_stock_upsert starred_store PlainDict payload "A"
                ltac:(vm_compute; reflexivity) ltac:(vm_compute; reflexivity))
      as (Hsucc & _ & Hinv).
    destruct (Hsucc ltac:(vm_compute; reflexivity) ltac:(vm_compute; reflexivity)
                (or_introl eq_refl)) as (st' & r & H).
    exists st', r. destruct (Hinv st' r H) as [Hr _].
    split; [exact H|]. split; [exact Hr|].
    assert ((x ← save_stock starred_store PlainDict payload;
             Ok (x.2 !! "note", x.2 !! "starred", x.2 !! "current_price",
                 length (docs x.1)))
            = Ok (Some (VStr "watch"), Some (VBool true), Some (VInt 21000), 2%nat))
      as Hobs by (vm_compute; reflexivity).
    rewrite H in Hobs. cbn [mbind result_bind fst snd] in Hobs.
    injection Hobs as -> -> -> ->. repeat split.
  - destruct (save_stock_upsert starred_store StockInstance payload "A"
                ltac:(vm_compute; reflexivity) ltac:(vm_compute; reflexivity))
      as (_ & Hfail & _).
    apply (Hfail starred_A); [reflexivity | vm_compute; reflexivity..].
  - destruct (save_stock_upsert starred_store StockInstance
                (<["note" := VStr "sold"]> starred_A) "A"
                ltac:(vm_compute; reflexivity) ltac:(vm_compute; reflexivity))
      as (Hsucc & _ & Hinv).
    destruct (Hsucc ltac:(vm_compute; reflexivity) ltac:(vm_compute; reflexivity)
                ltac:(right; left; eexists; vm_compute; reflexivity)) as (st' & r & H).
    exists st', r. split; [exact H|].
    destruct (Hinv st' r H) as [_ [(pre & d & post & _ & _ & _ & _ & Hset & _)
                                  | (_ & _ & Hnew)]].
    + split; apply Hset; vm_compute; reflexivity.
    + rewrite !Hnew by discriminate. split; vm_compute; reflexivity.
Defined.

(** Marking the starred record A as owned clears its star and keeps its
    note; marking it as doubtful keeps its star, and the two flags stay
    exclusive. *)
Lemma stock_status_toggle_witness :
  match stock_status starred_store "A" "owned" "on" with
  | Ok (st', resp) =>
      resp = Redirect "stock" (Some "A")
      ∧ stock_by_code st' (VStr "A") !! "owned" = Some (VBool true)
      ∧ stock_by_code st' (VStr "A") !! "starred" = Some (VBool false)
      ∧ both_on (stock_by_code st' (VStr "A")) = false
      ∧ stock_by_code st' (VStr "A") !! "note" = Some (VStr "watch")
  | Raise _ => False
  end
  ∧ match stock_status starred_store "A" "doubtful" "on" with
    | Ok (st', resp) =>
        stock_by_code st' (VStr "A") !! "doubtful" = Some (VBool true)
        ∧ stock_by_code st' (VStr "A") !! "starred" = Some (VBool true)
        ∧ both_on (stock_by_code st' (VStr "A")) = false
    | Raise _ => False
    end.
Proof.
  split.
  - assert (is_ok (stock_status starred_store "A" "owned" "on") = true) as Hok
      by (vm_compute; reflexivity).
    destruct (stock_status starred_store "A" "owned" "on") as [[st' resp]|e] eqn:H;
      [|discriminate Hok].
    destruct (stock_status_toggle starred_store st' "A" "owned" "on" resp starred_A
                ltac:(vm_compute; reflexivity) ltac:(vm_compute; reflexivity)
                ltac:(discriminate) H)
      as (Hresp & Hflag & Hstar & _ & Hboth & Hframe & _).
    split; [exact Hresp|]. split; [exact Hflag|].
    split; [exact (Hstar eq_refl eq_refl)|]. split; [exact (Hboth (or_introl eq_refl))|].
    rewrite Hframe by discriminate. vm_compute. reflexivity.
  - assert (is_ok (stock_status starred_store "A" "doubtful" "on") = true) as Hok
      by (vm_compute; reflexivity).
    destruct (stock_status starred_store "A" "doubtful" "on") as [[st' resp]|e] eqn:H;
      [|discriminate Hok].
    destruct (stock_status_toggle starred_store st' "A" "doubtful" "on" resp starred_A
                ltac:(vm_compute; reflexivity) ltac:(vm_compute; reflexivity)
                ltac:(discriminate) H)
      as (_ & Hflag & _ & _ & _ & _ & Hother & Hinv).
    split; [exact Hflag|].
    split; [rewrite Hother by discriminate; vm_compute; reflexivity|].
    apply Hinv. vm_compute. reflexivity.
Defined.

(** A snapshot of record A in the morning, then, by evening, a new price
    and a second snapshot of the reloaded record: the one entry of the day
    holds the morning's price and rate, then the evening's. *)
Lemma save_record_twice_same_day_witness :
  match save_record starred_A starred_store morning with
  | Ok (s1, st1) =>
      match save_record (<["current_price" := VInt 21000]> (stock_by_code st1 (VStr "A")))
              st1 evening with
      | Ok (s2, st2) =>
          stock_by_code st1 (VStr "A") !! "records"
          = Some (VList
                    [VDict [ ("date", VDate (DateTime 2026 11 3 0 0 0 0));
                             ("buy", VInt 0); ("sell", VInt 0); ("bps", VInt 10000);
                             ("current_price", VInt 20000); ("future_roe", VFloat 10);
                             ("roe", VInt 0); ("pbr", VInt 0);
                             ("expected_rate", VFloat 2.6334610544396897) ]])
          ∧ stock_by_code st2 (VStr "A") !! "records"
            = Some (VList
                      [VDict [ ("date", VDate (DateTime 2026 11 3 0 0 0 0));
                               ("buy", VInt 0); ("sell", VInt 0); ("bps", VInt 10000);
                               ("current_price", VInt 21000); ("future_roe", VFloat 10);
                               ("roe", VInt 0); ("pbr", VInt 0);
                               ("expected_rate", VFloat 2.133930313306176) ]])
          ∧ ∃ l, stock_by_code st2 (VStr "A") !! "records" = Some (VList l)
              ∧ length (filter (λ e, dated (DateTime 2026 11 3 0 0 0 0) e = true) l) = 1%nat
      | Raise _ => False
      end
  | Raise _ => False
  end.
Proof.
  assert (is_ok (save_record starred_A starred_store morning) = true) as Hok1
    by (vm_compute; reflexivity).
  assert ((r ← save_record starred_A starred_store morning;
           Ok (is_ok (save_record
                        (<["current_price" := VInt 21000]> (stock_by_code r.2 (VStr "A")))
                        r.2 evening)))
          = Ok true) as Hok2 by (vm_compute; reflexivity).
  assert ((r ← save_record starred_A starred_store morning;
           Ok (stock_by_code r.2 (VStr "A") !! "code",
               flag_on (stock_by_code r.2 (VStr "A")) "starred",
               stock_by_code r.2 (VStr "A") !! "records"))
          = Ok (Some (VStr "A"), true,
                Some (VList
                        [VDict [ ("date", VDate (DateTime 2026 11 3 0 0 0 0));
                                 ("buy", VInt 0); ("sell", VInt 0); ("bps", VInt 10000);
                                 ("current_price", VInt 20000); ("future_roe", VFloat 10);
                                 ("roe", VInt 0); ("pbr", VInt 0);
                                 ("expected_rate", VFloat 2.6334610544396897) ]])))
    as Hobs1 by (vm_compute; reflexivity).
  assert ((r ← save_record starred_A starred_store morning;
           r2 ← save_record
                  (<["current_price" := VInt 21000]> (stock_by_code r.2 (VStr "A")))
                  r.2 evening;
           Ok (stock_by_code r2.2 (VStr "A") !! "records"))
          = Ok (Some (VList
                        [VDict [ ("date", VDate (DateTime 2026 11 3 0 0 0 0));
                                 ("buy", VInt 0); ("sell", VInt 0); ("bps", VInt 10000);
                                 ("current_price", VInt 21000); ("future_roe", VFloat 10);
                                 ("roe", VInt 0); ("pbr", VInt 0);
                                 ("expected_rate", VFloat 2.133930313306176) ]])))
    as Hobs2 by (vm_compute; reflexivity).
  destruct (save_record starred_A starred_store morning) as [[s1 st1]|e] eqn:H1;
    [|discriminate Hok1].
  cbn [mbind result_bind snd] in Hok2, Hobs1, Hobs2.
  injection Hok2 as Hok2. injection Hobs1 as Hcode Hstar Hrec1.
  destruct (save_record (<["current_price" := VInt 21000]> (stock_by_code st1 (VStr "A")))
              st1 evening) as [[s2 st2]|e] eqn:H2; [|discriminate Hok2].
  cbn [mbind result_bind snd] in Hobs2. injection Hobs2 as Hrec2.
  split; [exact Hrec1|]. split; [exact Hrec2|].
  assert (flag_on (<["current_price" := VInt 21000]> (stock_by_code st1 (VStr "A")))
            "starred" = true) as Hstar2.
  { unfold flag_on, get in Hstar |- *. rewrite lookup_insert_ne by discriminate.
    exact Hstar. }
  destruct (save_record_twice_same_day starred_A
              (<["current_price" := VInt 21000]> (stock_by_code st1 (VStr "A")))
              s1 s2 starred_store st1 st2 morning evening "A"
              ltac:(vm_compute; reflexivity) ltac:(vm_compute; reflexivity)
              ltac:(rewrite lookup_insert_ne by discriminate; exact Hcode)
              ltac:(vm_compute; reflexivity)
              ltac:(rewrite Hstar2; reflexivity)
              ltac:(vm_compute; reflexivity)
              ltac:(intros l Hl; vm_compute in Hl; discriminate Hl)
              H1
              ltac:(right; apply lookup_insert_ne; discriminate)
              H2)
    as (older & froe1 & rate1 & froe2 & rate2 & _ & _ & _ & _ & _ & Hst2 & _ & Hone).
  eexists. split; [exact Hst2|]. exact Hone.
Defined.

(** The four records of [shuffled_store], stored in the order P1, N3, Z0,
    P5. The default listing keeps the two of positive rate, P5 (rate 9.99)
    before P1 (rate 2.63): the order of the computed rates, not that of the
    stored fields of that name (99 and -7), nor that of storage. Ascending,
    P1 comes first. The "bad" listing keeps the one of negative rate, and
    the record of rate 0 is in neither. Under [rank], which is no attribute,
    the order is that of the stored field, 0 standing for the absent one. *)
Lemma all_stocks_filters_then_sorts_witness :
  all_stocks shuffled_store "expected_rate" "desc" None true = Ok [P5; P1]
  ∧ all_stocks shuffled_store "expected_rate" "asc" None true = Ok [P1; P5]
  ∧ all_stocks shuffled_store "expected_rate" "desc" None false
    = Ok [sample "N3" (VInt 30000) []]
  ∧ all_stocks shuffled_store "rank" "asc" None true = Ok [P5; P1]
  ∧ expected_rate P5 = Ok (VFloat 9.9998199264006)
  ∧ expected_rate P1 = Ok (VFloat 2.6334610544396897)
  ∧ P5 !! "expected_rate" = Some (VInt (-7))
  ∧ P1 !! "expected_rate" = Some (VInt 99)
  ∧ getattr P5 "expected_rate" = Ok (VFloat 9.9998199264006)
  ∧ attr_or_key_getter "expected_rate" P5 = Ok (VFloat 9.9998199264006)
  ∧ attr_or_key_getter "rank" P5 = Ok (VInt 0)
  ∧ attr_or_key_getter "rank" P1 = Ok (VInt 2)
  ∧ expected_rate (sample "Z0" (VInt 25937) []) = Ok (VFloat 0)
  ∧ (sample "Z0" (VInt 25937) [] ∉ [P5; P1])
  ∧ (sample "Z0" (VInt 25937) [] ∉ [sample "N3" (VInt 30000) []])
  ∧ StronglySorted
      (λ a b, ∃ ra rb, expected_rate a = Ok ra ∧ expected_rate b = Ok rb
                ∧ py_lt ra rb = Ok false) [P5; P1]
  ∧ StronglySorted
      (λ a b, py_lt (get b "rank" (VInt 0)) (get a "rank" (VInt 0)) = Ok false) [P5; P1].
Proof.
  assert (all_stocks shuffled_store "expected_rate" "desc" None true = Ok [P5; P1]) as Hgood
    by (vm_compute; reflexivity).
  assert (all_stocks shuffled_store "expected_rate" "desc" None false
          = Ok [sample "N3" (VInt 30000) []]) as Hbad
    by (vm_compute; reflexivity).
  assert (all_stocks shuffled_store "rank" "asc" None true = Ok [P5; P1]) as Hrank
    by (vm_compute; reflexivity).
  assert (expected_rate P5 = Ok (VFloat 9.9998199264006)) as H5
    by (vm_compute; reflexivity).
  assert (expected_rate (sample "Z0" (VInt 25937) []) = Ok (VFloat 0)) as Hzero
    by (vm_compute; reflexivity).
  destruct (all_stocks_filters_then_sorts _ _ _ _ _ _ Hgood)
    as (_ & _ & Hout & _ & Hattr & _ & Hprop & Hrates & _).
  destruct (all_stocks_filters_then_sorts _ _ _ _ _ _ Hbad) as (_ & _ & Hout' & _).
  destruct (all_stocks_filters_then_sorts _ _ _ _ _ _ Hrank)
    as (_ & _ & _ & _ & _ & Hraw & _ & _ & Hfields).
  assert (getattr P5 "expected_rate" = Ok (VFloat 9.9998199264006)) as Hget
    by (rewrite (Hprop expected_rate eq_refl P5); exact H5).
  split; [exact Hgood|]. split; [vm_compute; reflexivity|]. split; [exact Hbad|].
  split; [exact Hrank|]. split; [exact H5|]. split; [vm_compute; reflexivity|].
  split; [vm_compute; reflexivity|]. split; [vm_compute; reflexivity|].
  split; [exact Hget|]. split; [exact (Hattr _ _ Hget)|].
  split; [rewrite Hraw; vm_compute; reflexivity|].
  split; [rewrite Hraw; vm_compute; reflexivity|].
  split; [exact Hzero|].
  split; [exact (Hout _ _ Hzero eq_refl)|].
  split; [exact (Hout' _ _ Hzero eq_refl)|].
  split; [exact (Hrates eq_refl)|].
  apply Hfields; [vm_compute; reflexivity .. |]. intros s. vm_compute. reflexivity.
Defined.

(** ** Runs of the other properties and routes *)

Lemma low_pbr_at_most_high_pbr_witness :
  low_pbr pbr_sample = Ok (VFloat 0.8)
  ∧ high_pbr pbr_sample = Ok (VInt 2)
  ∧ py_le (VFloat 0.8) (VInt 2) = Ok true.
Proof.
  assert (low_pbr pbr_sample = Ok (VFloat 0.8)) as Hlo by (vm_compute; reflexivity).
  assert (high_pbr pbr_sample = Ok (VInt 2)) as Hhi by (vm_compute; reflexivity).
  split; [exact Hlo|]. split; [exact Hhi|].
  exact (low_pbr_at_most_high_pbr pbr_sample _ _ Hlo Hhi).
Defined.

Lemma pbr_range_by_count_witness :
  calculable_pbr_count pbr_sample = Ok (VInt 3)
  ∧ ∃ lo hi,
      low_pbr pbr_sample = Ok lo ∧ high_pbr pbr_sample = Ok hi
      ∧ py_gt lo (VInt 0) = Ok true ∧ py_gt hi (VInt 0) = Ok true.
Proof.
  assert (calculable_pbr_count pbr_sample = Ok (VInt 3)) as H by (vm_compute; reflexivity).
  split; [exact H|].
  destruct (pbr_range_by_count pbr_sample 3 H) as (lo & hi & Hlo & Hhi & _ & _ & Hpos).
  destruct (Hpos ltac:(lia)) as (H1 & H2 & _).
  exists lo, hi. repeat split; assumption.
Defined.

Lemma price_marks_agree_witness :
  price_arrow falling = Ok (VStr "▼")
  ∧ ∃ c g, price_color falling = Ok c ∧ price_sign falling = Ok g
      ∧ (VStr "▼", c, g) ∈ [ (VStr "", VStr "black", VStr "");
                             (VStr "▲", VStr "red", VStr "+");
                             (VStr "▼", VStr "blue", VStr "") ].
Proof.
  assert (price_arrow falling = Ok (VStr "▼")) as H by (vm_compute; reflexivity).
  split; [exact H | exact (price_marks_agree falling _ H)].
Defined.

Lemma price_marks_need_price_diff_witness :
  (∅ : Stock) !! "price_diff" = None
  ∧ price_arrow ∅ = Raise TypeError
  ∧ price_color ∅ = Raise TypeError
  ∧ price_sign ∅ = Raise TypeError.
Proof.
  split; [reflexivity|]. exact (price_marks_need_price_diff ∅ eq_refl).
Defined.

Lemma ten_year_prices_table_witness :
  ∃ l, ten_year_prices priced = Ok l
    ∧ l !! 0%nat = Some (1, VFloat 115)
    ∧ l !! 9%nat = Some (10, VFloat 404.555773570791)
    ∧ map fst l = seqZ 1 10.
Proof.
  destruct (ten_year_prices_table priced) as [Hshape Hfloat].
  specialize (Hfloat 100%float ltac:(vm_compute; reflexivity) ltac:(vm_compute; reflexivity)).
  eexists. split; [exact Hfloat|].
  split; [vm_compute; reflexivity|]. split; [vm_compute; reflexivity|].
  destruct (Hshape _ Hfloat) as [[Hfalsy _] | [_ Hyears]];
    [vm_compute in Hfalsy; discriminate Hfalsy | exact Hyears].
Defined.

Lemma last_four_years_roe_at_most_four_witness :
  last_four_years_roe six_years = Ok [VInt 2; VInt 3; VInt 4; VInt 5]
  ∧ calculated_roe_count six_years = Ok (VInt 4).
Proof.
  assert (last_four_years_roe six_years = Ok [VInt 2; VInt 3; VInt 4; VInt 5]) as H
    by (vm_compute; reflexivity).
  split; [exact H|].
  exact (proj2 (proj2 (last_four_years_roe_at_most_four six_years 4 _
                         ltac:(vm_compute; reflexivity) H))).
Defined.

Lemma adjusted_eps_needs_three_past_years_witness :
  adjusted_eps young = Ok (VInt 0) ∧ adjusted_eps ∅ = Ok (VInt 0).
Proof.
  split.
  - destruct (adjusted_eps_needs_three_past_years young) as (_ & H & _).
    apply (H 1 [VInt 100; VInt 200; VInt 300]);
      [vm_compute; reflexivity | vm_compute; reflexivity | right; lia].
  - destruct (adjusted_eps_needs_three_past_years ∅) as (H & _). now apply H.
Defined.

Lemma calculable_needs_book_value_and_roe_witness :
  calculable (∅ : Stock) = Ok false
  ∧ future_roe bare = Ok (VFloat 0)
  ∧ calculable bare = Ok false.
Proof.
  destruct (calculable_needs_book_value_and_roe ∅) as [Hbps _].
  destruct (calculable_needs_book_value_and_roe bare) as [_ Hroe].
  destruct (Hroe ltac:(vm_compute; reflexivity)) as (_ & _ & _ & Hdiv).
  destruct (Hdiv ltac:(vm_compute; reflexivity)) as [Hf Hc].
  split; [apply Hbps; vm_compute; reflexivity|]. split; [exact Hf|].
  apply (Hc true); vm_compute; reflexivity.
Defined.

Lemma not_calculable_rates_minus_100_witness :
  calculable bare = Ok false
  ∧ expected_rate bare = Ok (VFloat (-100))
  ∧ filter_func true bare = Ok false
  ∧ filter_func false bare = Ok true.
Proof.
  assert (calculable bare = Ok false) as H by (vm_compute; reflexivity).
  split; [exact H|].
  destruct (not_calculable_rates_minus_100 bare 5000 H) as (_ & _ & Hrate).
  apply Hrate; [vm_compute; reflexivity | lia].
Defined.

Lemma unset_adjusted_pbr_rates_minus_100_witness :
  calc_future_bps (sample "A" (VInt 20000) []) (VInt FUTURE) = Ok (VInt 25937)
  ∧ calc_future_price_adjusted_future_pbr (sample "A" (VInt 20000) []) (VInt FUTURE)
    = Ok (VInt 0)
  ∧ expected_rate_by_adjusted_future_pbr (sample "A" (VInt 20000) []) = Ok (VFloat (-100)).
Proof.
  assert (calc_future_bps (sample "A" (VInt 20000) []) (VInt FUTURE) = Ok (VInt 25937)) as H
    by (vm_compute; reflexivity).
  destruct (unset_adjusted_pbr_rates_minus_100 (sample "A" (VInt 20000) []) (VInt FUTURE)
              (VInt 25937) 20000 ltac:(vm_compute; reflexivity)) as [H1 H2].
  split; [exact H|]. split; [exact (H1 H)|].
  apply (H2 H); [vm_compute; reflexivity | lia].
Defined.

Lemma eps_growth_edges_witness :
  eps_growth ∅ = Ok (VInt 0)
  ∧ eps_growth (list_to_map [("EPSs", VList [VInt 120])]) = Raise StatisticsError
  ∧ eps_growth (list_to_map [("EPSs", VList [VInt 0; VInt 50; VInt 80])]) = Ok (VInt 0).
Proof.
  split; [|split].
  - destruct (eps_growth_edges ∅) as (H & _). now apply H.
  - destruct (eps_growth_edges (list_to_map [("EPSs", VList [VInt 120])])) as (_ & H & _).
    apply (H [VInt 120]); [vm_compute; reflexivity | cbn; lia].
  - destruct (eps_growth_edges (list_to_map [("EPSs", VList [VInt 0; VInt 50; VInt 80])]))
      as (_ & _ & H & _).
    apply (H (VInt 50) [VInt 80]); [vm_compute; reflexivity | eexists; reflexivity].
Defined.

Lemma roe_max_diff_not_negative_witness :
  ∃ d, roe_max_diff uneven = Ok (VInt d) ∧ 0 ≤ d.
Proof.
  destruct (roe_max_diff_not_negative uneven [VInt 10; VInt 0; VInt 7; VInt 12; VInt 9]
              ltac:(vm_compute; reflexivity) ltac:(vm_compute; reflexivity))
    as (d & H & Hd & _).
  exists d. split; assumption.
Defined.

Lemma fscores_by_year_witness :
  fscores scored
  = Ok [ (VInt 2023, MkFScore 1 1 1); (VInt 2024, MkFScore 1 0 1);
         (VInt 2025, MkFScore 1 1 0) ]
  ∧ ∃ n, latest_fscore scored = Ok (VInt n) ∧ 0 ≤ n ≤ 3.
Proof.
  assert (fscores scored
          = Ok [ (VInt 2023, MkFScore 1 1 1); (VInt 2024, MkFScore 1 0 1);
                 (VInt 2025, MkFScore 1 1 0) ]) as H by (vm_compute; reflexivity).
  split; [exact H|].
  exact (proj2 (proj2 (proj2 (fscores_by_year scored _ H)))).
Defined.

Lemma mid_pbr_needs_pbr_witness :
  low_pbr pbr_sample = Ok (VFloat 0.8) ∧ mid_pbr pbr_sample = Raise TypeError.
Proof.
  assert (low_pbr pbr_sample = Ok (VFloat 0.8)) as H by (vm_compute; reflexivity).
  split; [exact H|].
  exact (proj1 (mid_pbr_needs_pbr pbr_sample _ ltac:(vm_compute; reflexivity) H)).
Defined.

Lemma current_pbr_rates_need_pbr_witness :
  expected_rate_by_current_pbr (sample "A" (VInt 20000) []) = Raise KeyError.
Proof.
  destruct (current_pbr_rates_need_pbr (sample "A" (VInt 20000) [])
              ltac:(vm_compute; reflexivity)) as [_ H].
  apply (H (VInt 25937)). vm_compute. reflexivity.
Defined.

Lemma intrinsic_discount_rate_needs_a_price_witness :
  intrinsic_value unpriced = Ok (VInt 5000)
  ∧ (raised (intrinsic_discount_rate unpriced) = Some ZeroDivisionError
     ∨ raised (intrinsic_discount_rate unpriced) = Some OverflowError).
Proof.
  assert (intrinsic_value unpriced = Ok (VInt 5000)) as H by (vm_compute; reflexivity).
  split; [exact H|].
  apply (proj2 (intrinsic_discount_rate_needs_a_price unpriced _ H)).
  vm_compute. reflexivity.
Defined.

Lemma stocks_lists_by_status_witness :
  match stocks mixed_store (Some "bad") None None with
  | Ok resp =>
      ∃ l, resp = RenderList l "expected_rate" "desc" (Some "bad")
        ∧ ∀ d, d ∈ l → d ∈ docs mixed_store
  | Raise _ => False
  end.
Proof.
  assert (is_ok (stocks mixed_store (Some "bad") None None) = true) as Hok
    by (vm_compute; reflexivity).
  destruct (stocks mixed_store (Some "bad") None None) as [resp|e] eqn:H;
    [|discriminate Hok].
  destruct (stocks_lists_by_status _ _ _ _ _ H) as (l & Hresp & _ & Hin & _).
  exists l. split; [exact Hresp|]. intros d Hd. now apply Hin.
Defined.

Lemma edits_of_a_missing_record_fail_witness :
  stock_update_note empty_store "005930" (Some "buy") = Raise KeyError
  ∧ stock_my_price empty_store "005930" None = Raise KeyError.
Proof.
  destruct (edits_of_a_missing_record_fail empty_store "005930" eq_refl)
    as (Hprice & _ & _ & Hnote).
  split; [apply Hnote | apply Hprice].
Defined.

Lemma clears_of_a_missing_record_fail_witness :
  stock_clear_adjusted_future_roe empty_store "005930" = Raise KeyError
  ∧ stock_status empty_store "005930" "owned" "on" = Raise KeyError.
Proof.
  destruct (clears_of_a_missing_record_fail empty_store "005930" eq_refl)
    as (_ & Hclear & Hstatus).
  split; [exact Hclear|]. apply Hstatus. discriminate.
Defined.

Lemma number_routes_set_one_field_witness :
  match stock_my_price noted_store "A" (Some 12500%float) with
  | Ok (st', resp) =>
      resp = Redirect "stock_refresh" (Some "A")
      ∧ stock_by_code st' (VStr "A") !! "my_price" = Some (VFloat 12500)
      ∧ stock_by_code st' (VStr "A") !! "note" = Some (VStr "old")
      ∧ stock_by_code st' (VStr "A") !! "title" = Some (VStr "Alpha")
  | Raise _ => False
  end
  ∧ stock_my_price untitled_store "A" (Some 12500%float) = Raise KeyError.
Proof.
  split.
  - assert (is_ok (stock_my_price noted_store "A" (Some 12500%float)) = true) as Hok
      by (vm_compute; reflexivity).
    destruct (stock_my_price noted_store "A" (Some 12500%float)) as [[st' resp]|e] eqn:H;
      [|discriminate Hok].
    destruct (number_routes_set_one_field noted_store st' "A" noted resp
                (Some 12500%float)
                ltac:(vm_compute; reflexivity) ltac:(vm_compute; reflexivity))
      as (Hprice & _).
    destruct (Hprice H) as [Hresp [Hstored _]].
    split; [exact Hresp|]. rewrite Hstored.
    split; [apply lookup_insert_eq|]. split; vm_compute; reflexivity.
  - destruct (number_routes_set_one_field untitled_store untitled_store "A" untitled
                (Redirect "stock_refresh" (Some "A")) (Some 12500%float)
                ltac:(vm_compute; reflexivity) ltac:(vm_compute; reflexivity))
      as (_ & _ & _ & Hfail).
    exact (proj1 (Hfail ltac:(vm_compute; reflexivity))).
Defined.

Lemma note_and_clear_routes_set_one_field_witness :
  match stock_update_note noted_store "A" (Some "new") with
  | Ok (st', resp) =>
      resp = Redirect "stock" (Some "A")
      ∧ stock_by_code st' (VStr "A") !! "note" = Some (VStr "new")
      ∧ stock_by_code st' (VStr "A") !! "title" = Some (VStr "Alpha")
  | Raise _ => False
  end
  ∧ stock_update_note untitled_store "A" (Some "new") = Raise KeyError.
Proof.
  split.
  - assert (is_ok (stock_update_note noted_store "A" (Some "new")) = true) as Hok
      by (vm_compute; reflexivity).
    destruct (stock_update_note noted_store "A" (Some "new")) as [[st' resp]|e] eqn:H;
      [|discriminate Hok].
    destruct (note_and_clear_routes_set_one_field noted_store st' "A" noted resp
                ltac:(vm_compute; reflexivity) ltac:(vm_compute; reflexivity))
      as (Hnote & _).
    destruct (Hnote _ H) as [Hresp [Hstored _]].
    split; [exact Hresp|]. rewrite Hstored.
    split; [apply lookup_insert_eq | vm_compute; reflexivity].
  - destruct (note_and_clear_routes_set_one_field untitled_store untitled_store "A" untitled
                (Redirect "stock" (Some "A"))
                ltac:(vm_compute; reflexivity) ltac:(vm_compute; reflexivity))
      as (_ & _ & _ & Hfail).
    exact (proj1 (Hfail ltac:(vm_compute; reflexivity)) (Some "new")).
Defined.

Lemma save_record_appends_on_a_new_day_witness :
  save_record (sample "B" (VInt 30000) []) starred_store morning
  = Ok (sample "B" (VInt 30000) [], starred_store)
  ∧ match save_record flagged (Store [flagged] 1) morning with
    | Ok (s', st') =>
        ∃ snap, dated (midnight morning) snap = true
          ∧ stock_by_code st' (VStr "A") !! "records"
            = Some (VList [VDict [("date", VDate yesterday)]; snap])
    | Raise _ => False
    end.
Proof.
  destruct (save_record_appends_on_a_new_day (sample "B" (VInt 30000) []) starred_store morning)
    as [Hnone _].
  split; [apply Hnone; vm_compute; reflexivity|].
  assert (is_ok (save_record flagged (Store [flagged] 1) morning) = true) as Hok
    by (vm_compute; reflexivity).
  destruct (save_record flagged (Store [flagged] 1) morning) as [[s' st']|e] eqn:H;
    [|discriminate Hok].
  destruct (save_record_appends_on_a_new_day flagged (Store [flagged] 1) morning)
    as [_ Hnew].
  destruct (Hnew s' st' "A" [VDict [("date", VDate yesterday)]]
              ltac:(vm_compute; reflexivity) ltac:(vm_compute; reflexivity)
              ltac:(vm_compute; reflexivity) ltac:(vm_compute; reflexivity)
              ltac:(vm_compute; reflexivity) H)
    as (snap & _ & Hdated & Hrec).
  exists snap. split; [exact Hdated | exact Hrec].
Defined.

Lemma yearly_series_share_their_years_witness :
  ∃ rows, epss five_years = Ok rows
    ∧ map fst rows = [VInt 2021; VInt 2022; VInt 2023; VInt 2024; VInt 2025].
Proof.
  destruct (yearly_series_share_their_years five_years 4 ltac:(vm_compute; reflexivity)
              "EPSs" epss [VInt 1; VInt 2; VInt 3; VInt 4; VInt 5]
              ltac:(rewrite !elem_of_cons; auto)
              ltac:(vm_compute; reflexivity) ltac:(discriminate))
    as (rows & Hrows & _ & Hyears).
  exists rows. split; [exact Hrows|]. rewrite Hyears. vm_compute. reflexivity.
Defined.

Lemma no_pbr_history_rates_minus_100_witness :
  low_pbr (sample "A" (VInt 20000) []) = Ok (VInt 0)
  ∧ expected_rate_by_low_pbr (sample "A" (VInt 20000) []) = Ok (VFloat (-100)).
Proof.
  destruct (no_pbr_history_rates_minus_100 (sample "A" (VInt 20000) [])
              ltac:(vm_compute; reflexivity)) as (Hlo & _ & _ & _ & Hrate).
  split; [exact Hlo|].
  apply (Hrate (VInt 25937) 20000); [vm_compute; reflexivity | vm_compute; reflexivity | lia].
Defined.
